(* ===== verification/_CoqProject ===== *)
-Q . S2P
Prelude.v
Http.v
Auth.v
Time.v
Driver.v
Utf8.v
JsonScan.v
JsonValue.v
TimeParse.v
Decode.v
Marshal.v
RoundTrip.v
Handlers.v
Mux.v
Server.v
Tests.v
