(* ===== verification/Prelude.v ===== *)
(** * relay-counter: a verification development of [src/router/router.go]

    ** The program

    relay-counter is a small HTTP ingestion service.  Its code under
    [src/] is the package [router]: [src/router/router.go] and its test
    [src/router/router_test.go].
    - [NewRouter] builds a [Router] holding a [Driver] (the record store:
      [WriteRelayCount], [ReadRelayCounts]), the key set
      [apiKeys : map[string]bool], the port and a logger.  On a gorilla/mux
      router it registers [GET /] -> [HealthCheck] and
      [POST /v0/count] -> [CreateCount], and installs
      [AuthorizationHandler] with [Use].
    - [AuthorizationHandler] lets the path [/] through.  On any other path
      it answers 401 with the text Unauthorized unless
      [apiKeys[r.Header.Get("Authorization")]] is true.
    - [HealthCheck] answers 200 with a fixed text.
    - [CreateCount] decodes the body into a [types.RelayCount].  On a
      decoding error it logs and answers 400.  Otherwise it defers
      [r.Body.Close()] and calls [WriteRelayCount] once.  It answers 500
      with the driver's error, or 200 with the object result: ok.
    - [RunServer] runs [ListenAndServe] and a shutdown watcher in an
      errgroup.  When the group context ends, the watcher calls
      [Shutdown(context.Background())].  [RunServer] logs the group's
      error as the exit reason and returns.

    A request flows through the [http.Server] (whose handler is the mux
    router), then mux's path cleaning and route matching, then the
    middleware, then the handler.  The handler meets the store only
    through the [Driver] interface.

    ** Files, in dependency order (library root of this directory)

    - [Prelude] (this file):
      - Go errors and [fmt.Errorf] with [%w] ([errorf_w]);
      - the computation monad [Go S A], a state passed through a
        computation that returns or panics, with [go_defer] for Go's
        [defer];
      - [star] and [eventually] over a step relation, with invariance
        and a measure argument;
      - byte and digit helpers;
      - the [relay] hint database.
    - [Http]: the net/http parts the handlers use.
      - [Request], and [Header.Get], [Set] and [Del], which canonicalise
        their key with textproto's [CanonicalMIMEHeaderKey].
      - The [ResponseWriter] ([WriteHeader], [Write], [Header().Set]),
        with Go's rules: the first [WriteHeader] wins and snapshots the
        header; [Write] sends an implicit 200; a broken connection makes
        [Write] return an error.
      - The handler's world: response, store, log, whether the body is
        closed.
      - The router's [write or panic] idiom ([WriteOrPanic]), logrus
        entries, and the [keeps_store] lemmas: computations that leave
        the store alone.
    - [Auth]: [AuthorizationHandler], over any wrapped handler, and
      [req_equiv], the equivalence of requests that the router cannot
      tell apart, with the [Proper] instances of the gate and (in
      [Handlers]) of the two handlers.
    - [Time]: [time.Time], the RFC 3339 fast path [parseRFC3339], and
      the validity of what it returns.
    - [Driver]:
      - [types.RelayCount] and the [Driver] interface as a type class;
      - [StoreContract], the abstract contract of a record store (a
        successful write appends the record, a failed write changes
        nothing, no write panics);
      - an in-memory instance that meets the contract;
      - the testify mock of the tests: queued answers, recorded calls,
        and a panic on an unexpected call.
    - [Utf8]: [utf8.DecodeRune] and [EncodeRune].
    - [JsonScan]: encoding/json's scanner state machine, byte by byte,
      with Go's error messages, and [Decoder.readValue], which cuts one
      value off the stream.
    - [JsonValue]: building a value from the text the scanner accepted;
      [unquoteBytes]; [appendString] with HTML escaping; marshalling a
      one-entry string map; and the lemmas that the fuel of these walks
      never runs out.
    - [TimeParse]: [Time.UnmarshalJSON] and [parseStrictRFC3339]: the
      fast path, and [time.Parse(time.RFC3339, s)] when it fails.
      [Parse] is Go's layout loop over the seven chunks of the RFC3339
      layout ([skip], [getnum], the fractional-second special case, the
      [Z07:00] zone), with range errors before syntax errors, the check
      for extra text, the day check, and the [ParseError] message with
      time's [quote].
    - [Decode]: [json.NewDecoder(body).Decode(&count)] for the record.
      Keys are matched to fields exactly, then case-insensitively.
      [strconv.ParseInt] reads the counters.  Type errors are saved and
      decoding goes on; errors of [UnmarshalJSON] abort.
    - [Marshal]: what a client's [json.Marshal(count)] writes, as the
      tests send it: [strconv.FormatInt] for the counters, [appendString]
      for the key, [Time.MarshalJSON] (RFC 3339 with nanoseconds) for the
      day, the fields in declaration order ([encode_fields]); and the
      inverse lemmas of the parts: [ParseInt] reads [FormatInt] back,
      [parseRFC3339] reads [appendFormatRFC3339] back.
    - [RoundTrip]: the walk of the decoder over an encoded record.  The
      scanner runs over each word of the text without error and stops at
      the last byte, [parse_value] cuts the four members, [unquote]
      inverts the HTML-escaped key byte by byte, and [unmarshal] stores
      the fields.
    - [Handlers]: [logError], utils-go's [RespondWithJSON] and
      [RespondWithError], [respondWithResultOK], [HealthCheck] and
      [CreateCount], all generic in the driver.
    - [Mux]:
      - gorilla/mux's [ServeHTTP]: [cleanPath] and a 301 redirect, route
        matching with 405 and 404, and middleware run on a full match
        only;
      - [NewRouter]'s router, and [serve], the server's dispatch of one
        request.
    - [Server]: [RunServer] as a nondeterministic step relation.
      - The state holds both tasks' program points, the contexts, the
        listener, the active connections, the errgroup's error and the
        log.
      - The steps are the tasks' atomic actions and the environment's
        (cancel, failing listen, connections arriving and finishing,
        failing close).
    - [Tests]: the repository's tests (their tables and loops, with the
      request body built by [Marshal] from the test's record), the
      fixtures of [RunServer] runs, a few evaluated decoder behaviours,
      and the witnesses of the theorems.

    ** What is proved

    - The handler, branch by branch, with the exact response, log and
      store: a decoding error is 400, logged, with no store call (C1);
      the store is written exactly once (C2); success is 200 with the
      body closed (C3); a store error is 500, logged (C4).
    - Refinement (C9): against every store meeting [StoreContract],
      [CreateCount] answers 200 after appending exactly the decoded
      record, or 400 or 500 with the records unchanged, and never
      panics on a live connection.
    - Authorization and dispatch through the whole router (C5 to C8):
      unauthorized ingestion is 401 and never reaches the handler;
      health is 200 whatever the credential; authorized ingestion is
      exactly [CreateCount].  The header name is matched in any letter
      case (C34), through textproto's canonical form.
    - What the decoder returns is well typed: int64 counters and a
      valid or zero day (C10).  [Parse] accepts zone offsets up to
      [24:60], so a decoded day's offset is bounded by 90000 seconds
      either way, not by one day.
    - Lifecycle, from one inductive invariant of the reachable states:
      - the exit reason is always the serve task's error (C11);
      - [RunServer] returns only after cancellation or a failed listen
        (C12);
      - every execution ends once the shutdown has started (C13, a
        measure argument);
      - once the group context is cancelled, by the caller or by a
        failed listen, [RunServer] returns by its own steps alone,
        without the caller cancelling anything (C14, over [task_step]);
      - the shutdown has no grace bound (C15).
    - Mux behaviour the spec does not expect: 405 and 404 without the
      gate (C16, C17), the 301 redirect (C18), and admission of requests
      without the header under the tests' key set (C19).
    - Write failures on the response propagate as panics, and the
      deferred [Close] still runs (C20, C21).
    - [RunServer] returns only when both tasks are done and the
      connections are drained (C22).  Once the shutdown has begun, no
      connection is accepted (C23).
    - [TestRouter_RunServer] (C24): each iteration runs the step
      relation of [Server] during the test's one-second sleep; the
      context can be cancelled in that time only when its timeout is
      shorter, and the test asserts nothing on [RunServer].
    - What [RunServer] logs (C26), an invariant of the reachable states:
      the port line, then the context-finished line once the watcher has
      woken, then at most one shutdown error, then the exit reason last
      once [RunServer] has returned.
    - What the decoder reads from [json.Marshal(count)]:
      - the round trip (C27): for every record with an ASCII key, int64
        counters and a valid day whose zone offset is whole minutes,
        [json.Marshal] succeeds and [Decode] gives the record back;
      - any text after the marshalled object is ignored (C25);
      - the int64 bound (C28): a [success] literal below 10^20 is
        decoded exactly when it is at most 2^63 - 1, and is a type
        error above;
      - where the round trip stops: a zone offset with seconds is
        truncated to whole minutes, and the record comes back exactly
        when there are none (C30); bytes of the key that start no UTF-8
        sequence are replaced by U+FFFD, and the key comes back exactly
        when it is ASCII (C31);
      - the day is read as [time.Parse(time.RFC3339, day)] reads it,
        with its error message on failure (C33).
    - [TestRouter_CreateSession] passes whatever valid instant
      [time.Now()] returns (C29).  The test is a boolean verdict:
      [require] stops at the first failed assertion, and a panic fails
      the test.
    - Equivalence (C32): requests with the same method, path, body and
      context whose credentials are both authorized (or both not) get
      the same answer and store the same record; proved by setoid
      reasoning from the [Proper] instances of the gate and handlers.
    - [parseStrictRFC3339] is [time.Parse] on every input
      ([parseStrictRFC3339_Parse], behind C33).  The fast path is only an
      optimisation: whatever it accepts, the layout loop accepts with the
      same time.  [Tests] evaluates Go's messages for a bad month, a bad
      day, a missing zone and a date without a time, and shows a lenient
      day that is accepted.

    ** Bounds and fuel

    - Counters are Go [int64]: [ParseInt] rejects literals outside
      -2^63 .. 2^63-1 as type errors, and [Decode_ok] proves the range.
    - The scanner runs once per byte and needs no fuel; the nesting
      limit is Go's [maxNestingDepth] of 10000.
    - [value_of] has fuel [2 * length + 2], one call per byte plus one
      per member or item.  [unquote_loop], [escape_loop] and
      [fold_ascii] have fuel equal to the length of their input; each of
      their steps consumes at least one byte.  All of these fuels are
      proved enough.  With any larger fuel the functions compute the
      same result, which is therefore the result of Go's unbounded
      recursion.  The lemmas are [parse_fuel], [value_of_fuel],
      [unquote_loop_fuel], [escape_loop_fuel] and [fold_ascii_fuel], and
      [Decode_fuel] lifts the first two to [Decode].  The proof shows that every
      recursive call is on a strictly shorter text, and that the walk
      gives back a shorter rest ([parse_rest]).
    - [skip_loop] has the length of the layout prefix as fuel, and each
      round shortens the prefix.  [quote_loop] has the length of its
      input as fuel, and each round consumes at least one byte.  Both
      fuels are proved enough ([skip_loop_fuel], [quote_loop_fuel]).
    - [formatInt] writes at most 19 digits ([|n| <= 2^63 < 10^19]);
      [utoa 20] covers every uint64 value in C28.
    - Status codes are Z and checked against Go's range 100 .. 999.

    ** Not modelled

    - [time.Parse] with layouts other than [time.RFC3339]: this program
      never uses them.  The time's [Location] is kept as its offset in
      seconds.
    - Query strings, URL escaping and host matching in mux.
    - The parsing of a request from the wire, chunked bodies and
      connection reuse in net/http: the model starts from the parsed
      [Request].  Header keys are canonicalised as Go does.
    - Log formatting and output: logrus writes each entry with its
      level, message and fields to the logger's output, an I/O step that
      this program does not read back.  The model keeps the entries in
      order, which is what the theorems state.
    - The process entry point and configuration, and concrete storage
      drivers: none of them is under [src/].
    - [ReadRelayCounts]: it is declared in the interface, but no code in
      [src/] calls it.
    - The wall clock: C29 covers every valid instant with a
      whole-minute zone offset, and C30 shows what happens to the
      others.
    - [json.Marshal] of keys beyond ASCII is modelled ([appendString]
      handles UTF-8, U+2028 and U+2029).  What [Decode] reads back is
      proved for keys of ASCII bytes and bytes that start no UTF-8
      sequence (C31); keys with valid multi-byte sequences are not
      covered. *)

From Stdlib Require Export String Ascii ZArith.
From stdpp Require Export base gmap strings list options.

Declare Scope relay_scope.
Delimit Scope relay_scope with relay.
Open Scope relay_scope.

Create HintDb relay discriminated.
Create Rewrite HintDb relay_run.

(** ** Go error values

    A Go [error] is an interface; the program only ever observes
    [err.Error()], so an error is its message. *)
Record GoErr := mkGoErr { err_msg : string }.  (** [err.Error()] *)

#[export] Instance GoErr_eq_dec : EqDecision GoErr.
Proof. solve_decision. Defined.

(** [fmt.Errorf(prefix + "%w", err)]: wrapping prepends the prefix to the
    message. *)
Definition errorf_w (prefix : string) (e : GoErr) : GoErr :=
  mkGoErr (prefix +:+ err_msg e).

(** ** Go computations: state passing with panics

    A Go function that may [panic] and mutates state of type [S] is a
    function [S -> outcome A * S].  A panic aborts the rest of the
    computation and keeps the state reached so far. *)
Inductive outcome (A : Type) : Type :=
| Returned (a : A)
| Panicked (e : GoErr).
Arguments Returned {A} a.
Arguments Panicked {A} e.

Definition Go (S A : Type) : Type := S -> outcome A * S.

#[export] Instance go_ret (S : Type) : MRet (Go S) :=
  fun A a s => (Returned a, s).

#[export] Instance go_bind (S : Type) : MBind (Go S) :=
  fun A B k m s =>
    match m s with
    | (Returned a, s') => k a s'
    | (Panicked e, s') => (Panicked e, s')
    end.

Definition go_get {S} : Go S S := fun s => (Returned s, s).
Definition go_modify {S} (f : S -> S) : Go S unit := fun s => (Returned tt, f s).
Definition go_panic {S A} (e : GoErr) : Go S A := fun s => (Panicked e, s).

(** [defer d] around [m]: [d] runs when [m] returns and when it panics;
    a panic of [m] goes on after [d] unless [d] panics itself. *)
Definition go_defer {S A} (m : Go S A) (d : Go S unit) : Go S A :=
  fun s => match m s with
           | (o, s1) => match d s1 with
                        | (Returned _, s2) => (o, s2)
                        | (Panicked e, s2) => (Panicked e, s2)
                        end
           end.

(** [m @ s ⇓ r]: running [m] from state [s] gives [r]. *)
Notation "m @ s ⇓ r" := (m s = r) (at level 70, s at next level, only parsing) : relay_scope.

Lemma go_run_ret {S A} (a : A) (s : S) : (mret a : Go S A) s = (Returned a, s).
Proof. reflexivity. Qed.

Lemma go_run_bind {S A B} (m : Go S A) (k : A -> Go S B) (s : S) :
  (m ≫= k) s = match m s with
               | (Returned a, s') => k a s'
               | (Panicked e, s') => (Panicked e, s')
               end.
Proof. reflexivity. Qed.

Lemma go_bind_returned {S A B} (m : Go S A) (k : A -> Go S B) s a s' :
  m s = (Returned a, s') -> (m ≫= k) s = k a s'.
Proof. intros H. rewrite go_run_bind, H. reflexivity. Qed.

Lemma go_bind_panicked {S A B} (m : Go S A) (k : A -> Go S B) s e s' :
  m s = (Panicked e, s') -> (m ≫= k) s = (Panicked e, s').
Proof. intros H. rewrite go_run_bind, H. reflexivity. Qed.

Lemma go_bind_assoc {S A B C} (m : Go S A) (k : A -> Go S B) (h : B -> Go S C) s :
  ((m ≫= k) ≫= h) s = (m ≫= (fun a => k a ≫= h)) s.
Proof. rewrite !go_run_bind. destruct (m s) as [[a|e] s']; reflexivity. Qed.

#[export] Hint Rewrite @go_run_ret @go_run_bind : relay_run.

(** Unfold a Go computation step by step. *)
Ltac go_simpl := repeat (rewrite ?go_run_bind, ?go_run_ret; cbn beta iota).

(** ** Transition systems

    The server lifecycle is a nondeterministic transition system.  [star]
    is reachability; [eventually Q a] says that every execution from [a]
    reaches a state satisfying [Q] (each step taken from a state outside
    [Q] is followed, and such a state always has a step). *)
Section Transitions.
Context {A : Type} (R : A -> A -> Prop).

Inductive star : A -> A -> Prop :=
| star_refl a : star a a
| star_step a b c : R a b -> star b c -> star a c.

Lemma star_one a b : R a b -> star a b.
Proof. eauto using star. Qed.

Lemma star_trans a b c : star a b -> star b c -> star a c.
Proof. induction 1; eauto using star. Qed.

Lemma star_invariant (P : A -> Prop) :
  (forall a b, P a -> R a b -> P b) -> forall a b, star a b -> P a -> P b.
Proof. intros Hstep a b H. induction H; eauto. Qed.

Inductive eventually (Q : A -> Prop) : A -> Prop :=
| ev_now a : Q a -> eventually Q a
| ev_later a :
    (exists b, R a b) -> (forall b, R a b -> eventually Q b) -> eventually Q a.

(** Every execution reaches [Q] when an invariant [P] guarantees progress
    outside [Q] and a measure decreases on every step taken outside [Q]. *)
Lemma eventually_by_measure (P Q : A -> Prop) (m : A -> nat) :
  (forall a, Q a \/ ~ Q a) ->
  (forall a b, P a -> R a b -> P b) ->
  (forall a, P a -> ~ Q a -> exists b, R a b) ->
  (forall a b, P a -> ~ Q a -> R a b -> m b < m a) ->
  forall a, P a -> eventually Q a.
Proof.
  intros Hdec Hinv Hprog Hdecr a.
  remember (m a) as n eqn:Hn. revert a Hn.
  induction n as [n IH] using lt_wf_ind; intros a -> HP.
  destruct (Hdec a) as [HQ|HQ]; [by apply ev_now|].
  apply ev_later; [by apply Hprog|].
  intros b Hb. eapply IH; eauto.
Qed.
End Transitions.

Lemma star_mono {A} (R R' : A -> A -> Prop) :
  (forall a b, R' a b -> R a b) -> forall a b, star R' a b -> star R a b.
Proof. intros H a b Hs. induction Hs; eauto using star. Qed.

#[export] Hint Constructors star eventually : relay.

(** ** Bytes and decimal digits

    A Go [string] or [[]byte] is a [string] here: Stdlib's [ascii] is an
    8-bit character, so every byte value is represented. *)

(** [s[i:j]] for [i <= j <= len(s)]. *)
Definition go_slice (s : string) (i j : nat) : string := substring i (j - i) s.

Definition byte_val (c : ascii) : Z := Z.of_nat (nat_of_ascii c).

(** The double quote character (byte 34), and [s] between two of them. *)
Definition quote_char : ascii := ascii_of_nat 34.
Definition quoted (s : string) : string := String quote_char (s +:+ String quote_char EmptyString).

(** ['0' <= c && c <= '9'] *)
Definition is_digit (c : ascii) : bool :=
  (48 <=? byte_val c)%Z && (byte_val c <=? 57)%Z.

Definition digit_val (c : ascii) : Z := byte_val c - 48.

(** Decimal value of a string of digits ([None] if a byte is not a digit). *)
Fixpoint digits_value_from (acc : Z) (s : string) : option Z :=
  match s with
  | EmptyString => Some acc
  | String c s' => if is_digit c then digits_value_from (acc * 10 + digit_val c) s' else None
  end.

Definition digits_value (s : string) : option Z := digits_value_from 0 s.

Lemma digit_val_bounds c : is_digit c = true -> (0 <= digit_val c <= 9)%Z.
Proof. unfold is_digit, digit_val. intros H. apply andb_true_iff in H as [H1 H2]. lia. Qed.

Lemma digits_value_from_nonneg s : forall acc v,
  (0 <= acc)%Z -> digits_value_from acc s = Some v -> (0 <= v)%Z.
Proof.
  induction s as [|c s IH]; cbn; intros acc v Hacc H; [congruence|].
  destruct (is_digit c) eqn:Hd; [|done].
  eapply IH; [|exact H]. pose proof (digit_val_bounds c Hd). lia.
Qed.

#[export] Hint Resolve digit_val_bounds : relay.

Lemma substring_length_le n m s : (String.length (substring n m s) <= m)%nat.
Proof.
  revert n m. induction s as [|c s IH]; intros [|n] [|m]; cbn; try lia; try apply IH.
  specialize (IH 0 m). lia.
Qed.

(** The ASCII digit of [0 <= d <= 9]. *)
Definition digit_char (d : Z) : ascii := ascii_of_nat (Z.to_nat (48 + d)).

Lemma byte_val_digit_char d : (0 <= d <= 9)%Z -> byte_val (digit_char d) = (48 + d)%Z.
Proof.
  intros Hd. unfold byte_val, digit_char. rewrite nat_ascii_embedding by lia. lia.
Qed.

Lemma is_digit_digit_char d : (0 <= d <= 9)%Z -> is_digit (digit_char d) = true.
Proof. intros Hd. unfold is_digit. rewrite byte_val_digit_char by done. lia. Qed.

Lemma digit_val_digit_char d : (0 <= d <= 9)%Z -> digit_val (digit_char d) = d.
Proof. intros Hd. unfold digit_val. rewrite byte_val_digit_char by done. lia. Qed.

#[export] Hint Rewrite is_digit_digit_char digit_val_digit_char using lia : relay_run.

Lemma digits_value_from_app acc a b :
  digits_value_from acc (a +:+ b) = v ← digits_value_from acc a; digits_value_from v b.
Proof.
  revert acc. induction a as [|c a IH]; intros acc; simpl; [done|].
  destruct (is_digit c); [apply IH | done].
Qed.

(** ** Substrings of a concatenation *)

Lemma substring_app_l a b : substring 0 (String.length a) (a +:+ b) = a.
Proof. induction a as [|c a IH]; simpl; [by destruct b | by rewrite IH]. Qed.

Lemma substring_app_r a b i m :
  substring (String.length a + i) m (a +:+ b) = substring i m b.
Proof. induction a as [|c a IH]; simpl; [done | apply IH]. Qed.

Lemma string_app_cons c a b : String c a +:+ b = String c (a +:+ b).
Proof. reflexivity. Qed.

Lemma string_app_nil_l s : "" +:+ s = s.
Proof. reflexivity. Qed.

Lemma string_length_app a b : String.length (a +:+ b) = (String.length a + String.length b)%nat.
Proof. induction a as [|c a IH]; [done|]. rewrite string_app_cons. cbn. by rewrite IH. Qed.

Lemma string_app_assoc a b c : (a +:+ b) +:+ c = a +:+ (b +:+ c).
Proof. induction a as [|x a IH]; [done|]. rewrite !string_app_cons. by rewrite IH. Qed.

Lemma string_app_nil_r s : s +:+ "" = s.
Proof. induction s as [|c s IH]; [done | by rewrite string_app_cons, IH]. Qed.

Lemma substring_full s : substring 0 (String.length s) s = s.
Proof. induction s as [|c s IH]; simpl; [done | by rewrite IH]. Qed.


Lemma substring_app_within a b i m :
  (i + m <= String.length a)%nat -> substring i m (a +:+ b) = substring i m a.
Proof.
  revert i m. induction a as [|c a IH]; intros i m H.
  - cbn in H. assert (i = 0%nat /\ m = 0%nat) as [-> ->] by lia. by destruct b.
  - rewrite string_app_cons. destruct i as [|i]; cbn in *.
    + destruct m as [|m]; [done|]. f_equal. apply (IH 0%nat m). lia.
    + apply IH. lia.
Qed.

Lemma substring_zero n s : substring n 0 s = "".
Proof. revert n. induction s as [|c s IH]; intros [|n]; cbn; auto. Qed.

Lemma go_slice_app_l a b i j :
  (j <= String.length a)%nat -> go_slice (a +:+ b) i j = go_slice a i j.
Proof.
  intros H. unfold go_slice. destruct (decide (i <= j)%nat).
  - apply substring_app_within. lia.
  - replace (j - i)%nat with 0%nat by lia. by rewrite !substring_zero.
Qed.

Lemma go_slice_app_r a b i j :
  (String.length a <= i)%nat ->
  go_slice (a +:+ b) i j = go_slice b (i - String.length a) (j - String.length a).
Proof.
  intros H. unfold go_slice.
  replace i with (String.length a + (i - String.length a))%nat at 1 by lia.
  rewrite substring_app_r. f_equal. lia.
Qed.

Lemma go_slice_full s n : n = String.length s -> go_slice s 0 n = s.
Proof. intros ->. unfold go_slice. rewrite Nat.sub_0_r. apply substring_full. Qed.

Lemma get_app_l a b i : (i < String.length a)%nat -> String.get i (a +:+ b) = String.get i a.
Proof.
  revert i. induction a as [|c a IH]; intros i H; [cbn in H; lia|].
  rewrite string_app_cons. destruct i; cbn in *; [done|]. apply IH. lia.
Qed.

Lemma get_app_r a b i :
  (String.length a <= i)%nat -> String.get i (a +:+ b) = String.get (i - String.length a) b.
Proof.
  revert i. induction a as [|c a IH]; intros i H; [cbn; by rewrite Nat.sub_0_r|].
  rewrite string_app_cons. destruct i; cbn in *; [lia|]. apply IH. lia.
Qed.

Lemma go_slice_suffix a b : go_slice (a +:+ b) (String.length a) (String.length (a +:+ b)) = b.
Proof.
  rewrite go_slice_app_r by lia. rewrite Nat.sub_diag, string_length_app.
  apply go_slice_full. lia.
Qed.

(** The text of a Go string literal: [quoted s] and its parts. *)
Lemma quoted_length s : String.length (quoted s) = S (S (String.length s)).
Proof. unfold quoted. cbn. rewrite string_length_app. cbn. lia. Qed.

Lemma quoted_last s : String.get (S (String.length s)) (quoted s) = Some quote_char.
Proof. unfold quoted. cbn [String.get]. rewrite get_app_r by lia. by rewrite Nat.sub_diag. Qed.

Lemma quoted_inner s : go_slice (quoted s) 1 (S (String.length s)) = s.
Proof.
  unfold go_slice, quoted. cbn [Nat.sub substring]. rewrite Nat.sub_0_r. by rewrite substring_app_l.
Qed.

Lemma substring_length n m s : (n + m <= String.length s)%nat -> String.length (substring n m s) = m.
Proof.
  revert n m. induction s as [|c s IH]; intros [|n] [|m] H; cbn in *; try lia; try done.
  - f_equal. apply IH. lia.
  - apply IH. lia.
  - apply IH. lia.
Qed.

Lemma substring_length_within n m s : (String.length (substring n m s) <= String.length s - n)%nat.
Proof.
  revert n m. induction s as [|c s IH]; intros [|n] [|m]; cbn; try lia.
  - specialize (IH 0 m). rewrite Nat.sub_0_r in IH. lia.
  - apply IH.
  - apply IH.
Qed.

Lemma go_slice_length_le s i j : (String.length (go_slice s i j) <= String.length s)%nat.
Proof. unfold go_slice. pose proof (substring_length_within i (j - i) s). lia. Qed.

Lemma prefix_length p s : String.prefix p s = true -> (String.length p <= String.length s)%nat.
Proof.
  revert s. induction p as [|c p IH]; intros [|d s]; cbn; try done; [lia|].
  case_match; [|done]. intros Hp. apply IH in Hp. lia.
Qed.

(** ** Options *)

(** Two continuations that agree on what [m] returns give the same bind. *)
Lemma bind_ext_some {A B} (m : option A) (k1 k2 : A -> option B) :
  (forall x, m = Some x -> k1 x = k2 x) -> m ≫= k1 = m ≫= k2.
Proof. destruct m; cbn; auto. Qed.

(** One [≫=] on [option] in a hypothesis [... = Some _]: the bound
    computation returned a value (a pair is split). *)
Ltac bind_one :=
  match goal with
  | H : (?m ≫= _) = Some _ |- _ =>
      let x := fresh "x" in destruct m as [x|] eqn:?; cbn in H; [|discriminate H]; try destruct x
  end.

(** Case analysis of a computation that returned [Some]: every [match],
    every bind, and the equations they give. *)
Ltac crunch := repeat first [progress simplify_eq | case_match | bind_one].
