(* ===== verification/Http.v ===== *)
(** * Http: the parts of net/http and logrus that the router uses

    A handler [func(w http.ResponseWriter, r *http.Request)] is modelled as
    [Request -> Go (World D) unit]: it reads the request and changes the
    handler's world, which holds the response writer, the record store of
    type [D] (the driver's state), the logrus log and whether the request
    body was closed.  The response writer follows net/http's [response]
    ([server.go]): the first [WriteHeader] fixes the status and snapshots
    the header map, later ones are ignored, [Write] sends an implicit
    [WriteHeader(200)] first, and a write to a broken connection returns an
    error.  Header keys are canonicalised by [CanonicalMIMEHeaderKey]. *)

From S2P Require Import Prelude.

Module Http.

(** ** Status codes and methods (net/http/status.go, method.go) *)
Definition StatusOK : Z := 200.
Definition StatusNoContent : Z := 204.
Definition StatusMovedPermanently : Z := 301.
Definition StatusNotModified : Z := 304.
Definition StatusBadRequest : Z := 400.
Definition StatusUnauthorized : Z := 401.
Definition StatusNotFound : Z := 404.
Definition StatusMethodNotAllowed : Z := 405.
Definition StatusInternalServerError : Z := 500.

Definition MethodGet : string := "GET".
Definition MethodPost : string := "POST".

(** ** Headers: [http.Header] is [map[string][]string] keyed by canonical
    names.  [Get], [Set] and [Del] canonicalise their key with
    textproto's [CanonicalMIMEHeaderKey]. *)
Abbreviation Header := (gmap string (list string)).

(** textproto's [validHeaderFieldByte]: bit [c] of a 128-bit mask of the
    token characters of RFC 7230 (digits, letters and [!#$%&'*+-.^_`|~]). *)
Definition headerFieldMask : Z :=
  Z.lor (Z.shiftl (2 ^ 10 - 1) 48)
  (Z.lor (Z.shiftl (2 ^ 26 - 1) 97)
  (Z.lor (Z.shiftl (2 ^ 26 - 1) 65)
   (fold_right (fun b m => Z.lor (Z.shiftl 1 b) m) 0%Z
      [33; 35; 36; 37; 38; 39; 42; 43; 45; 46; 94; 95; 96; 124; 126]%Z))).

Definition validHeaderFieldByte (c : ascii) : bool :=
  (byte_val c <? 128)%Z && Z.testbit headerFieldMask (byte_val c).

(** The canonicalising loop of [canonicalMIMEHeaderKey]: an ASCII letter
    is upper case at the start and after each [-], lower case elsewhere. *)
Fixpoint canon_loop (upper : bool) (s : string) : string :=
  match s with
  | EmptyString => EmptyString
  | String c s' =>
      let n := nat_of_ascii c in
      let c' := if upper && (97 <=? n)%nat && (n <=? 122)%nat then ascii_of_nat (n - 32)
                else if negb upper && (65 <=? n)%nat && (n <=? 90)%nat then ascii_of_nat (n + 32)
                else c in
      String c' (canon_loop (bool_decide (c' = "-"%char)) s')
  end.

Fixpoint all_valid (s : string) : bool :=
  match s with
  | EmptyString => true
  | String c s' => validHeaderFieldByte c && all_valid s'
  end.

(** [textproto.CanonicalMIMEHeaderKey(s)].  Its quick check returns [s]
    at the first invalid byte, or calls [canonicalMIMEHeaderKey] at the
    first byte in the wrong case, which itself returns the key unchanged
    when any byte is invalid (a space included).  Either way: the
    canonical form when every byte is a token character, [s] otherwise. *)
Definition CanonicalMIMEHeaderKey (s : string) : string :=
  if all_valid s then canon_loop true s else s.

(** [Header.Get]: the first value, or "" when the key is absent. *)
Definition header_get (h : Header) (k : string) : string :=
  match h !! CanonicalMIMEHeaderKey k with
  | Some (v :: _) => v
  | _ => ""
  end.

(** [Header.Set]: replaces all values of the key. *)
Definition header_set (h : Header) (k v : string) : Header := <[CanonicalMIMEHeaderKey k := [v]]> h.

Record Request := mkRequest {
  Method : string;
  URLPath : string;
  ReqHeader : Header;
  Body : string;
  CtxDone : bool   (** [r.Context()] is cancelled *)
}.

(** Two requests whose payload a handler cannot tell apart: the same body
    and the same context. *)
Definition same_payload (r1 r2 : Request) : Prop := Body r1 = Body r2 /\ CtxDone r1 = CtxDone r2.

#[export] Instance same_payload_Equivalence : Equivalence same_payload.
Proof. split; [done | intros ?? [] | intros ??? [] []]; split; congruence. Qed.

(** ** The response writer *)
Record ResponseWriter := mkRW {
  wroteHeader : option (Z * Header);  (** status and header sent *)
  liveHeader : Header;                (** [w.Header()] *)
  written : string;                   (** body bytes written *)
  broken : bool                       (** the client connection is gone *)
}.

Definition fresh_rw (b : bool) : ResponseWriter :=
  mkRW None ∅ "" b.

(** What the client receives: the status (200 if the handler never wrote
    a header), the header sent with it and the body. *)
Definition resp_status (w : ResponseWriter) : Z :=
  match wroteHeader w with Some (c, _) => c | None => StatusOK end.

Definition resp_header (w : ResponseWriter) : Header :=
  match wroteHeader w with Some (_, h) => h | None => liveHeader w end.

(** [bodyAllowedForStatus] *)
Definition bodyAllowedForStatus (c : Z) : bool :=
  negb ((100 <=? c) && (c <=? 199))%Z && negb (c =? 204)%Z && negb (c =? 304)%Z.

(** ** logrus entries *)
Inductive Level := InfoLevel | ErrorLevel.

Record LogEntry := mkLog {
  level : Level;
  message : string;
  fields : list (string * string)
}.

(** ** The handler world *)
Record World (D : Type) := mkWorld {
  rw : ResponseWriter;
  store : D;
  logs : list LogEntry;
  bodyClosed : bool
}.
Arguments mkWorld {D} _ _ _ _.
Arguments rw {D} _.
Arguments store {D} _.
Arguments logs {D} _.
Arguments bodyClosed {D} _.

Definition set_rw {D} (f : ResponseWriter -> ResponseWriter) (w : World D) : World D :=
  mkWorld (f (rw w)) (store w) (logs w) (bodyClosed w).

Definition Handler (D : Type) : Type := Request -> Go (World D) unit.

Section Ops.
Context {D : Type}.

(** [checkWriteHeaderCode] panics on a code outside 100..999. *)
Definition invalid_code_err (c : Z) : GoErr :=
  mkGoErr "invalid WriteHeader code".

(** [response.WriteHeader(code)] *)
Definition WriteHeader (code : Z) : Go (World D) unit :=
  fun w =>
    if ((code <? 100) || (999 <? code))%Z then (Panicked (invalid_code_err code), w)
    else match wroteHeader (rw w) with
         | Some _ => (Returned tt, w)           (* superfluous call: ignored *)
         | None =>
             if ((100 <=? code) && (code <=? 199))%Z then (Returned tt, w)
             else (Returned tt,
                   set_rw (fun r => mkRW (Some (code, liveHeader r)) (liveHeader r)
                                         (written r) (broken r)) w)
         end.

(** [w.Header().Set(k, v)] *)
Definition HeaderSet (k v : string) : Go (World D) unit :=
  go_modify (set_rw (fun r => mkRW (wroteHeader r) (header_set (liveHeader r) k v)
                                    (written r) (broken r))).

(** [w.Header().Del(k)] *)
Definition HeaderDel (k : string) : Go (World D) unit :=
  go_modify (set_rw (fun r => mkRW (wroteHeader r) (delete (CanonicalMIMEHeaderKey k) (liveHeader r))
                                    (written r) (broken r))).

Definition ErrBodyNotAllowed : GoErr :=
  mkGoErr "http: request method or response status code does not allow body".

Definition ErrBrokenConn : GoErr := mkGoErr "write: broken pipe".

(** [response.Write(data)]: the result is the returned [error]. *)
(** [if !w.wroteHeader { w.WriteHeader(StatusOK) }] *)
Definition implicitWriteHeader : Go (World D) unit :=
  fun w => match wroteHeader (rw w) with
           | None => WriteHeader StatusOK w
           | Some _ => (Returned tt, w)
           end.

(** the rest of [response.write] once the header is written *)
Definition write_body (data : string) : Go (World D) (option GoErr) :=
  fun w =>
    if decide (data = "") then (Returned None, w)
    else if negb (bodyAllowedForStatus (resp_status (rw w))) then
      (Returned (Some ErrBodyNotAllowed), w)
    else if broken (rw w) then (Returned (Some ErrBrokenConn), w)
    else (Returned None,
          set_rw (fun r => mkRW (wroteHeader r) (liveHeader r)
                                (written r +:+ data) (broken r)) w).

Definition Write (data : string) : Go (World D) (option GoErr) :=
  _ ← implicitWriteHeader; write_body data.

(** [_, err := w.Write(b); if err != nil { panic(err) }] *)
Definition WriteOrPanic (data : string) : Go (World D) unit :=
  res ← Write data;
  match res with
  | Some e => go_panic e
  | None => mret tt
  end.

Definition log_entry (e : LogEntry) : Go (World D) unit :=
  go_modify (fun w => mkWorld (rw w) (store w) (logs w ++ [e]) (bodyClosed w)).

(** Run a computation of the driver on the world's store. *)
Definition lift_store {A} (m : Go D A) : Go (World D) A :=
  fun w => let '(o, s') := m (store w) in (o, mkWorld (rw w) s' (logs w) (bodyClosed w)).

(** [r.Body.Close()] *)
Definition CloseBody : Go (World D) unit :=
  go_modify (fun w => mkWorld (rw w) (store w) (logs w) true).
End Ops.

(** ** Facts about the response writer *)
Section Facts.
Context {D : Type}.
Implicit Types (w : World D).

Lemma WriteHeader_fresh w code :
  wroteHeader (rw w) = None -> (200 <= code <= 999)%Z ->
  WriteHeader code w =
    (Returned tt, set_rw (fun r => mkRW (Some (code, liveHeader r)) (liveHeader r)
                                        (written r) (broken r)) w).
Proof.
  intros Hn Hc. unfold WriteHeader. rewrite Hn.
  destruct ((code <? 100) || (999 <? code))%Z eqn:E1; [lia|].
  destruct ((100 <=? code) && (code <=? 199))%Z eqn:E2; [lia|]. reflexivity.
Qed.

Lemma WriteHeader_written w code c h :
  wroteHeader (rw w) = Some (c, h) -> (100 <= code <= 999)%Z ->
  WriteHeader code w = (Returned tt, w).
Proof.
  intros Hs Hc. unfold WriteHeader. rewrite Hs.
  destruct ((code <? 100) || (999 <? code))%Z eqn:E1; [lia|]. reflexivity.
Qed.

Lemma Write_after_header w c h data :
  wroteHeader (rw w) = Some (c, h) -> data <> "" -> bodyAllowedForStatus c = true ->
  Write data w =
    if broken (rw w) then (Returned (Some ErrBrokenConn), w)
    else (Returned None,
          set_rw (fun r => mkRW (wroteHeader r) (liveHeader r)
                                (written r +:+ data) (broken r)) w).
Proof.
  intros Hs Hd Hb. unfold Write, implicitWriteHeader, write_body. go_simpl. rewrite Hs. cbn.
  rewrite decide_False by done. unfold resp_status. rewrite Hs, Hb. reflexivity.
Qed.

(** The response written by [w.WriteHeader(code); _, err := w.Write(data);
    if err != nil { panic(err) }] on a writer that has not sent its
    header: the connection decides between a panic and the full
    response. *)
Definition sent_header (code : Z) w : World D :=
  set_rw (fun x => mkRW (Some (code, liveHeader x)) (liveHeader x)
                        (written x) (broken x)) w.

Definition sent_text (code : Z) (data : string) w : World D :=
  set_rw (fun x => mkRW (Some (code, liveHeader x)) (liveHeader x)
                        (written x +:+ data) (broken x)) w.

Lemma header_then_write_fresh w code data :
  wroteHeader (rw w) = None -> (200 <= code <= 999)%Z -> data <> "" ->
  bodyAllowedForStatus code = true ->
  (_ ← WriteHeader code; WriteOrPanic data) w =
    if broken (rw w) then (Panicked ErrBrokenConn, sent_header code w)
    else (Returned tt, sent_text code data w).
Proof.
  intros Hn Hc Hd Hb. unfold WriteOrPanic. go_simpl.
  rewrite WriteHeader_fresh by done. go_simpl.
  rewrite (Write_after_header _ code (liveHeader (rw w))) by (cbn; done).
  destruct w as [[wh lh wr br] st lg bc]; cbn in *. by destruct br.
Qed.
End Facts.

(** ** Computations that leave the record store alone

    Everything a handler does besides calling the driver (writing the
    response, logging, closing the body) keeps the store; [keeps_store]
    is closed under bind and defer, so [eauto with relay] proves it for
    whole handler bodies. *)
Section KeepsStore.
Context {D : Type}.

Definition keeps_store {A} (m : Go (World D) A) : Prop :=
  forall w, store (snd (m w)) = store w.

Lemma keeps_store_ret {A} (a : A) : keeps_store (mret a).
Proof. intros w. reflexivity. Qed.

Lemma keeps_store_panic {A} e : keeps_store (go_panic (A:=A) e).
Proof. intros w. reflexivity. Qed.

Lemma keeps_store_bind {A B} (m : Go (World D) A) (k : A -> Go (World D) B) :
  keeps_store m -> (forall a, keeps_store (k a)) -> keeps_store (m ≫= k).
Proof.
  intros Hm Hk w. rewrite go_run_bind. specialize (Hm w).
  destruct (m w) as [[a|e] w1] eqn:E; cbn in *; [rewrite Hk|]; done.
Qed.

Lemma keeps_store_defer {A} (m : Go (World D) A) d :
  keeps_store m -> keeps_store d -> keeps_store (go_defer m d).
Proof.
  intros Hm Hd w. unfold go_defer. specialize (Hm w).
  destruct (m w) as [o w1]. specialize (Hd w1).
  destruct (d w1) as [[]]; cbn in *; congruence.
Qed.

Lemma keeps_store_WriteHeader code : keeps_store (WriteHeader (D:=D) code).
Proof.
  intros w. unfold WriteHeader.
  repeat case_match; reflexivity.
Qed.

Lemma keeps_store_Write data : keeps_store (Write (D:=D) data).
Proof.
  apply keeps_store_bind.
  - intros w. unfold implicitWriteHeader. case_match; [reflexivity|apply keeps_store_WriteHeader].
  - intros _ w. unfold write_body. repeat case_match; reflexivity.
Qed.

Lemma keeps_store_WriteOrPanic data : keeps_store (WriteOrPanic (D:=D) data).
Proof.
  apply keeps_store_bind; [apply keeps_store_Write|].
  intros [e|]; [apply keeps_store_panic|apply keeps_store_ret].
Qed.

Lemma keeps_store_HeaderSet k v : keeps_store (HeaderSet (D:=D) k v).
Proof. intros w. reflexivity. Qed.

Lemma keeps_store_HeaderDel k : keeps_store (HeaderDel (D:=D) k).
Proof. intros w. reflexivity. Qed.

Lemma keeps_store_log e : keeps_store (log_entry (D:=D) e).
Proof. intros w. reflexivity. Qed.

Lemma keeps_store_CloseBody : keeps_store (CloseBody (D:=D)).
Proof. intros w. reflexivity. Qed.

Lemma store_defer {A} (m : Go (World D) A) d w :
  keeps_store d -> store (snd (go_defer m d w)) = store (snd (m w)).
Proof.
  intros Hd. unfold go_defer. destruct (m w) as [o w1]. specialize (Hd w1).
  destruct (d w1) as [[]]; cbn in *; congruence.
Qed.
End KeepsStore.

(** Side conditions on the status codes the router writes. *)
Ltac status_tac :=
  cbn; try done;
  unfold StatusOK, StatusBadRequest, StatusUnauthorized, StatusInternalServerError,
    StatusNotFound, StatusMethodNotAllowed, StatusMovedPermanently;
  (lia || reflexivity).

#[export] Hint Resolve keeps_store_ret keeps_store_panic keeps_store_bind keeps_store_defer
  keeps_store_WriteHeader keeps_store_Write keeps_store_WriteOrPanic keeps_store_HeaderSet
  keeps_store_log keeps_store_CloseBody keeps_store_HeaderDel : relay.

(** ** Header names are case-insensitive

    A header name written in any letter case has the canonical form of
    its lower-case spelling: [canonicalMIMEHeaderKey] fixes the case of
    every letter, and which bytes are token characters does not depend
    on the case. *)

Definition ascii_lower (c : ascii) : ascii :=
  let n := nat_of_ascii c in
  if (65 <=? n)%nat && (n <=? 90)%nat then ascii_of_nat (n + 32) else c.

Fixpoint fold_lower (s : string) : string :=
  match s with EmptyString => EmptyString | String c s' => String (ascii_lower c) (fold_lower s') end.

Lemma canon_loop_lower_char u c s :
  canon_loop u (String c s) = canon_loop u (String (ascii_lower c) s).
Proof. destruct u, c as [[] [] [] [] [] [] [] []]; reflexivity. Qed.

Lemma validHeaderFieldByte_lower c : validHeaderFieldByte (ascii_lower c) = validHeaderFieldByte c.
Proof. destruct c as [[] [] [] [] [] [] [] []]; vm_compute; reflexivity. Qed.

Lemma canon_loop_fold_lower u s : canon_loop u (fold_lower s) = canon_loop u s.
Proof.
  revert u. induction s as [|c s IH]; intros u; [done|].
  rewrite (canon_loop_lower_char u c s). cbn [fold_lower canon_loop]. f_equal. apply IH.
Qed.

Lemma all_valid_fold_lower s : all_valid (fold_lower s) = all_valid s.
Proof. induction s as [|c s IH]; [done|]. cbn. by rewrite validHeaderFieldByte_lower, IH. Qed.

(** The canonical form of a token name depends only on its lower-case
    spelling. *)
Lemma CanonicalMIMEHeaderKey_fold_lower s :
  all_valid s = true -> CanonicalMIMEHeaderKey (fold_lower s) = CanonicalMIMEHeaderKey s.
Proof.
  intros Hv. unfold CanonicalMIMEHeaderKey. by rewrite all_valid_fold_lower, Hv, canon_loop_fold_lower.
Qed.

End Http.
