(* ===== verification/Auth.v ===== *)
(** * Auth: the authorization middleware ([Router.AuthorizationHandler])

    [AuthorizationHandler keys h] wraps the next handler [h].  The key set
    is the router's [apiKeys : map[string]bool]; a Go map read returns the
    zero value [false] for an absent key, which [authorized] models with
    [default false].  The theorems show that the health path always reaches
    [h], that an unauthorized request gets 401 "Unauthorized" and never
    reaches [h] (the outcome does not depend on [h] and the store is not
    touched), and that an authorized request is exactly [h]. *)

From S2P Require Import Prelude Http.
Import Http.

Module Auth.

(** The path of the health check endpoint. *)
Definition healthPath : string := "/".

(** [rt.apiKeys[k]] *)
Definition authorized (apiKeys : gmap string bool) (k : string) : bool :=
  default false (apiKeys !! k).

(** [func (rt *Router) AuthorizationHandler(h http.Handler) http.Handler] *)
Definition AuthorizationHandler {D} (apiKeys : gmap string bool) (h : Handler D)
  : Handler D :=
  fun r =>
    if decide (URLPath r = healthPath) then h r
    else if negb (authorized apiKeys (header_get (ReqHeader r) "Authorization")) then
      _ ← WriteHeader StatusUnauthorized;
      WriteOrPanic "Unauthorized"
    else h r.

(** Two requests that the router cannot tell apart: the same method,
    path and payload, and credentials that are both authorized or both
    not. *)
Definition req_equiv (apiKeys : gmap string bool) (r1 r2 : Request) : Prop :=
  Method r1 = Method r2 /\ URLPath r1 = URLPath r2 /\ same_payload r1 r2 /\
  authorized apiKeys (header_get (ReqHeader r1) "Authorization") =
  authorized apiKeys (header_get (ReqHeader r2) "Authorization").

#[export] Instance req_equiv_Equivalence apiKeys : Equivalence (req_equiv apiKeys).
Proof.
  split.
  - intros r. split_and!; reflexivity.
  - intros r1 r2 (? & ? & ? & ?). split_and!; congruence || by symmetry.
  - intros r1 r2 r3 (? & ? & ? & ?) (? & ? & ? & ?). split_and!; congruence || by etrans.
Qed.

#[export] Instance req_equiv_same_payload apiKeys : subrelation (req_equiv apiKeys) same_payload.
Proof. by intros r1 r2 (_ & _ & ? & _). Qed.

(** The gate keeps every handler's indifference to the credential. *)
#[export] Instance AuthorizationHandler_proper {D} apiKeys (h : Handler D) :
  Proper (req_equiv apiKeys ==> eq) h -> Proper (req_equiv apiKeys ==> eq) (AuthorizationHandler apiKeys h).
Proof.
  intros Hh r1 r2 Hr. pose proof Hr as (_ & Hp & _ & Ha). unfold AuthorizationHandler.
  rewrite ?Hp, ?Ha. by rewrite (Hh r1 r2 Hr).
Qed.

Section Properties.
Context {D : Type}.
Implicit Types (w : World D) (h : Handler D) (r : Request).

(** Absence of a key and a [false] value both mean "not authorized". *)
Lemma authorized_true_iff apiKeys k :
  authorized apiKeys k = true <-> apiKeys !! k = Some true.
Proof.
  unfold authorized. destruct (apiKeys !! k) as [[]|]; cbn; split; congruence.
Qed.

(** The health path reaches the wrapped handler whatever the
    credential. *)
Lemma auth_health_passthrough apiKeys h r :
  URLPath r = healthPath -> AuthorizationHandler apiKeys h r = h r.
Proof. intros Hp. unfold AuthorizationHandler. by rewrite decide_True. Qed.

(** An authorized request off the health path is exactly the wrapped
    handler. *)
Lemma auth_accepts apiKeys h r :
  apiKeys !! header_get (ReqHeader r) "Authorization" = Some true ->
  AuthorizationHandler apiKeys h r = h r.
Proof.
  intros Hk. unfold AuthorizationHandler.
  case_decide; [done|]. unfold authorized. by rewrite Hk.
Qed.

Lemma not_authorized apiKeys k : apiKeys !! k <> Some true -> authorized apiKeys k = false.
Proof. intros Hk. destruct (authorized _ _) eqn:E; [|done]. by apply authorized_true_iff in E. Qed.

Lemma auth_reject_run apiKeys h r w :
  URLPath r <> healthPath ->
  authorized apiKeys (header_get (ReqHeader r) "Authorization") = false ->
  wroteHeader (rw w) = None ->
  AuthorizationHandler apiKeys h r w =
    if broken (rw w) then (Panicked ErrBrokenConn, sent_header StatusUnauthorized w)
    else (Returned tt, sent_text StatusUnauthorized "Unauthorized" w).
Proof.
  intros Hp Ha Hw. unfold AuthorizationHandler.
  rewrite decide_False by done. rewrite Ha.
  apply header_then_write_fresh; done || (unfold StatusUnauthorized; lia).
Qed.

(** C7: a request off the health path whose credential is not a key
    mapped to [true] is answered 401 "Unauthorized"; the wrapped handler
    never runs (the outcome does not mention it) and the store is left
    as it was. *)
Theorem auth_rejects_unauthorized apiKeys h r w :
  URLPath r <> healthPath ->
  apiKeys !! header_get (ReqHeader r) "Authorization" <> Some true ->
  wroteHeader (rw w) = None -> broken (rw w) = false ->
  AuthorizationHandler apiKeys h r w =
    (Returned tt, sent_text StatusUnauthorized "Unauthorized" w).
Proof.
  intros Hp Hk Hn Hb. rewrite auth_reject_run by auto using not_authorized. by rewrite Hb.
Qed.
End Properties.

End Auth.
