(* ===== verification/Time.v ===== *)
(** * Time: [time.Time] values and the fast RFC 3339 parser used by
    [Time.UnmarshalJSON]

    [types.RelayCount.Day] is a [time.Time] that encoding/json fills by
    calling the pointer method [Time.UnmarshalJSON] on the raw bytes of the JSON value.
    A time value is represented by the civil fields the parser produces
    and the zone offset in seconds east of UTC.  [parseRFC3339] follows the
    fast path of Go's [time] package ([format_rfc3339.go]) byte for byte:
    fixed positions for the date and clock, [parseUint] range checks
    (the day against [daysIn] of the month, leap years included), an
    optional fraction of up to nine significant digits, and "Z" or a
    [+hh:mm]/[-hh:mm] offset.  [Time.UnmarshalJSON] and the [time.Parse]
    fallback are in [TimeParse]. *)

From S2P Require Import Prelude.

Module Time.

Record Time := mkTime {
  year : Z; month : Z; day : Z;
  hour : Z; minute : Z; second : Z; nsec : Z;
  offset : Z  (** seconds east of UTC *)
}.

#[export] Instance Time_eq_dec : EqDecision Time.
Proof. solve_decision. Defined.

(** The zero value [time.Time{}]: January 1, year 1, 00:00:00 UTC. *)
Definition zeroTime : Time := mkTime 1 1 1 0 0 0 0 0.

(** [isLeap] *)
Definition isLeap (y : Z) : bool :=
  (Z.rem y 4 =? 0)%Z && (negb (Z.rem y 100 =? 0)%Z || (Z.rem y 400 =? 0)%Z).

(** [daysIn(m, year)] for [1 <= m <= 12]. *)
Definition daysIn (m y : Z) : Z :=
  if (m =? 2)%Z then (if isLeap y then 29 else 28)
  else if (m =? 4)%Z || (m =? 6)%Z || (m =? 9)%Z || (m =? 11)%Z then 30
  else 31.

(** The [parseUint] closure of [parseRFC3339]: the digits of [s] as a
    number in [lo..hi]; [None] when the closure clears [ok]. *)
Definition parseUint (s : string) (lo hi : Z) : option Z :=
  match digits_value s with
  | Some x => if ((lo <=? x) && (x <=? hi))%Z then Some x else None
  | None => None
  end.

(** [isDigit(s, i)] *)
Definition isDigitAt (s : string) (i : nat) : bool :=
  match String.get i s with Some c => is_digit c | None => false end.

(** Number of leading digits of [s]. *)
Fixpoint count_digits (s : string) : nat :=
  match s with
  | String c s' => if is_digit c then S (count_digits s') else 0
  | EmptyString => 0
  end.

(** [parseNanoseconds(value, nbytes)] on [value = "." ++ digits]: at most
    nine digits are significant, scaled to nanoseconds. *)
Definition parseNanoseconds (value : string) (nbytes : nat) : Z :=
  let nb := Nat.min nbytes 10 in
  let ns := default 0%Z (digits_value (go_slice value 1 nb)) in
  (ns * 10 ^ Z.of_nat (10 - nb))%Z.

Definition char_at (s : string) (i : nat) (c : ascii) : bool :=
  match String.get i s with Some d => bool_decide (d = c) | None => false end.

(** The time zone suffix: "Z" or [±hh:mm]; the offset in seconds. *)
Definition parseZone (s : string) : option Z :=
  if decide (s = "Z") then Some 0%Z
  else if negb (String.length s =? 6)%nat then None
  else
    hr ← parseUint (go_slice s 1 3) 0 23;
    mm ← parseUint (go_slice s 4 6) 0 59;
    if negb ((char_at s 0 "-" || char_at s 0 "+") && char_at s 3 ":") then None
    else
      let off := ((hr * 60 + mm) * 60)%Z in
      Some (if char_at s 0 "-" then (- off)%Z else off).

(** The fractional second of [parseRFC3339]: when [s] starts with a dot
    and a digit, the nanoseconds of the digits that follow and the rest
    after them; otherwise 0 and [s]. *)
Definition parseFrac (s : string) : Z * string :=
  if (2 <=? String.length s)%nat && char_at s 0 "." && isDigitAt s 1 then
    let n := S (count_digits (go_slice s 1 (String.length s))) in
    (parseNanoseconds s n, go_slice s n (String.length s))
  else (0%Z, s).

(** [parseRFC3339(s, local)]: [None] is [ok = false]. *)
Definition parseRFC3339 (s : string) : option Time :=
  if (String.length s <? 19)%nat then None
  else
    year ← parseUint (go_slice s 0 4) 0 9999;
    month ← parseUint (go_slice s 5 7) 1 12;
    day ← parseUint (go_slice s 8 10) 1 (daysIn month year);
    hour ← parseUint (go_slice s 11 13) 0 23;
    minute ← parseUint (go_slice s 14 16) 0 59;
    second ← parseUint (go_slice s 17 19) 0 59;
    if negb (char_at s 4 "-" && char_at s 7 "-" && char_at s 10 "T"
             && char_at s 13 ":" && char_at s 16 ":") then None
    else
      let '(nsec, rest) := parseFrac (go_slice s 19 (String.length s)) in
      off ← parseZone rest;
      Some (mkTime year month day hour minute second nsec off).

(** ** Bounds of a parsed time *)

Definition valid_time (t : Time) : Prop :=
  (0 <= year t <= 9999)%Z /\ (1 <= month t <= 12)%Z /\
  (1 <= day t <= daysIn (month t) (year t))%Z /\
  (0 <= hour t <= 23)%Z /\ (0 <= minute t <= 59)%Z /\ (0 <= second t <= 59)%Z /\
  (0 <= nsec t < 1000000000)%Z /\ (- 86400 < offset t < 86400)%Z.

Lemma parseUint_bounds s lo hi x :
  parseUint s lo hi = Some x -> (lo <= x <= hi)%Z.
Proof.
  unfold parseUint. destruct (digits_value s); [|done].
  destruct ((lo <=? z) && (z <=? hi))%Z eqn:E; [|done]. intros [= <-]. lia.
Qed.

Lemma digits_value_bound s v :
  digits_value s = Some v -> (0 <= v < 10 ^ Z.of_nat (String.length s))%Z.
Proof.
  unfold digits_value.
  assert (Hgen : forall acc, (0 <= acc)%Z -> digits_value_from acc s = Some v ->
                 (0 <= v < (acc + 1) * 10 ^ Z.of_nat (String.length s))%Z).
  { induction s as [|c s IH]; cbn; intros acc Hacc H.
    - injection H as <-. lia.
    - destruct (is_digit c) eqn:Hd; [|done].
      pose proof (digit_val_bounds c Hd).
      specialize (IH (acc * 10 + digit_val c)%Z ltac:(lia) H).
      rewrite Nat2Z.inj_succ, Z.pow_succ_r by lia. nia. }
  intros H. specialize (Hgen 0%Z ltac:(lia) H). lia.
Qed.

Lemma parseNanoseconds_bounds v n :
  (0 <= parseNanoseconds v n < 1000000000)%Z.
Proof.
  unfold parseNanoseconds.
  destruct (digits_value (go_slice v 1 (Nat.min n 10))) as [x|] eqn:E; cbn; [|lia].
  apply digits_value_bound in E.
  assert (Hlen : (String.length (go_slice v 1 (Nat.min n 10)) <= Nat.min n 10 - 1)%nat).
  { unfold go_slice. rewrite substring_length_le. lia. }
  assert (Hle : (10 ^ Z.of_nat (String.length (go_slice v 1 (Nat.min n 10)))
                 <= 10 ^ Z.of_nat (Nat.min n 10 - 1))%Z).
  { apply Z.pow_le_mono_r; lia. }
  pose proof (Z.pow_pos_nonneg 10 (Z.of_nat (10 - Nat.min n 10)) ltac:(lia) ltac:(lia)).
  destruct (Nat.eq_dec (Nat.min n 10) 0) as [E0|E0].
  - rewrite E0 in *. change (Z.of_nat (0 - 1)) with 0%Z in Hle.
    rewrite Z.pow_0_r in Hle. assert (x = 0)%Z by lia. subst x. lia.
  - assert (Hsplit : (10 ^ Z.of_nat (Nat.min n 10 - 1) * 10 ^ Z.of_nat (10 - Nat.min n 10)
                      <= 10 ^ 9)%Z).
    { rewrite <- Z.pow_add_r by lia. apply Z.pow_le_mono_r; lia. }
    nia.
Qed.

Lemma parseZone_bounds s off : parseZone s = Some off -> (- 86400 < off < 86400)%Z.
Proof.
  unfold parseZone. case_decide; [intros [= <-]; lia|].
  destruct (negb _); [done|].
  destruct (parseUint (go_slice s 1 3) 0 23) as [hr|] eqn:Hh; cbn; [|done].
  destruct (parseUint (go_slice s 4 6) 0 59) as [mm|] eqn:Hm; cbn; [|done].
  apply parseUint_bounds in Hh, Hm.
  destruct (negb _); [done|]. intros [= <-]. destruct (char_at s 0 "-"); lia.
Qed.

(** A parsed time is a valid civil time: every field within its range,
    the day within its month (leap years included), and the fraction
    below one second. *)
Lemma parseRFC3339_valid s t : parseRFC3339 s = Some t -> valid_time t.
Proof.
  unfold parseRFC3339. destruct (String.length s <? 19)%nat; [done|].
  destruct (parseUint (go_slice s 0 4) 0 9999) as [y|] eqn:Hy; cbn; [|done].
  destruct (parseUint (go_slice s 5 7) 1 12) as [mo|] eqn:Hmo; cbn; [|done].
  destruct (parseUint (go_slice s 8 10) 1 _) as [d|] eqn:Hd; cbn; [|done].
  destruct (parseUint (go_slice s 11 13) 0 23) as [h|] eqn:Hh; cbn; [|done].
  destruct (parseUint (go_slice s 14 16) 0 59) as [mi|] eqn:Hmi; cbn; [|done].
  destruct (parseUint (go_slice s 17 19) 0 59) as [se|] eqn:Hse; cbn; [|done].
  destruct (negb _); [done|].
  apply parseUint_bounds in Hy, Hmo, Hd, Hh, Hmi, Hse.
  match goal with
  | |- context [match ?e with pair _ _ => _ end] => destruct e as [ns rest] eqn:Hfrac
  end.
  assert (Hns : (0 <= ns < 1000000000)%Z).
  { revert Hfrac. unfold parseFrac. case_match; intros [= <- _]; [apply parseNanoseconds_bounds | lia]. }
  destruct (parseZone rest) as [off|] eqn:Hz; cbn; [|done].
  apply parseZone_bounds in Hz. intros [= <-].
  repeat split; cbn; lia.
Qed.

End Time.
