(* ===== verification/Driver.v ===== *)
(** * Driver: the record store interface and the relay-count record

    [types.RelayCount] (package [types], outside [src/]) is modelled from
    the spec: an application key, a day and two 64-bit counters.  The
    [Driver] interface of [router.go] is a type class over the driver's
    state [D]; each method is a Go computation on that state, so a driver
    may fail with an error value or panic.  [StoreContract] is the
    abstract promise a record store makes to the router (a successful
    write appends the record, a failed write changes nothing, a call never
    panics); the handlers' theorems that need it are proved against the
    class.  Two instances: [MemStore], an in-memory store that meets the
    contract, and [Mock], the testify mock of [router_test.go], which
    returns the programmed results in order and records every call. *)

From S2P Require Import Prelude Time.

Module Driver.
Import Time.

(** ** [types.RelayCount] *)
Record RelayCount := mkRelayCount {
  AppPublicKey : string;
  Day : Time.Time;
  Success : Z;   (** int64 *)
  Error : Z      (** int64 *)
}.

#[export] Instance RelayCount_eq_dec : EqDecision RelayCount.
Proof. solve_decision. Defined.

(** The zero value [types.RelayCount{}]. *)
Definition zeroRelayCount : RelayCount := mkRelayCount "" zeroTime 0 0.

(** [context.Context], as far as a driver can observe it. *)
Record Context := mkContext { ctx_done : bool }.

(** ** The [Driver] interface *)
Class Driver (D : Type) := {
  WriteRelayCount : Context -> RelayCount -> Go D (option GoErr);
  ReadRelayCounts : Context -> Time.Time -> Time.Time -> Go D (list RelayCount * option GoErr)
}.

(** ** The contract of a record store *)
Class StoreContract (D : Type) `{Driver D} := {
  contents : D -> list RelayCount;
  write_contract ctx c s :
    match WriteRelayCount ctx c s with
    | (Returned None, s') => contents s' = contents s ++ [c]
    | (Returned (Some _), s') => contents s' = contents s
    | (Panicked _, _) => False
    end
}.

(** ** Instants and their order (for range reads) *)

(** Days since 1970-01-01 of a proleptic Gregorian date. *)
Definition days_from_civil (y m d : Z) : Z :=
  let y' := if (m <=? 2)%Z then (y - 1)%Z else y in
  let era := (y' / 400)%Z in
  let yoe := (y' - era * 400)%Z in
  let mp := ((m + 9) mod 12)%Z in
  let doy := ((153 * mp + 2) / 5 + d - 1)%Z in
  let doe := (yoe * 365 + yoe / 4 - yoe / 100 + doy)%Z in
  (era * 146097 + doe - 719468)%Z.

Definition unix_sec (t : Time.Time) : Z :=
  (days_from_civil (year t) (month t) (day t) * 86400
   + hour t * 3600 + minute t * 60 + second t - offset t)%Z.

(** [!t.After(u)]: [t] is not later than [u]. *)
Definition not_after (t u : Time.Time) : bool :=
  (unix_sec t <? unix_sec u)%Z
  || ((unix_sec t =? unix_sec u)%Z && (nsec t <=? nsec u)%Z).

Definition in_range (from to : Time.Time) (c : RelayCount) : bool :=
  not_after from (Day c) && not_after (Day c) to.

(** ** An in-memory store *)
Record MemStore := mkMemStore { records : list RelayCount }.

#[export] Instance MemStore_driver : Driver MemStore := {
  WriteRelayCount _ c := fun s => (Returned None, mkMemStore (records s ++ [c]));
  ReadRelayCounts _ from to :=
    fun s => (Returned (filter (fun c => in_range from to c = true) (records s), None), s)
}.

#[export] Program Instance MemStore_contract : StoreContract MemStore := {
  contents := records
}.
Next Obligation. reflexivity. Qed.

Lemma MemStore_read_spec ctx from to s l e s' :
  ReadRelayCounts ctx from to s = (Returned (l, e), s') ->
  s' = s /\ e = None /\
  forall c, c ∈ l <-> c ∈ records s /\ in_range from to c = true.
Proof.
  cbn. intros [= Hl He Hs]. subst. split; [done|]. split; [done|]. intros c.
  rewrite list_elem_of_filter. tauto.
Qed.

(** ** The testify mock of [router_test.go]

    [driverMock.On("WriteRelayCount", ...).Return(err).Once()] queues one
    result; each call consumes the first queued result and is recorded.  A
    call with nothing queued makes testify panic. *)
Record Mock := mkMock {
  expected : list (option GoErr);
  calls : list RelayCount
}.

Definition ErrUnexpectedCall : GoErr :=
  mkGoErr "mock: I don't know what to return because the method call was unexpected.".

#[export] Instance Mock_driver : Driver Mock := {
  WriteRelayCount _ c := fun s =>
    match expected s with
    | r :: rest => (Returned r, mkMock rest (calls s ++ [c]))
    | [] => (Panicked ErrUnexpectedCall, mkMock [] (calls s ++ [c]))
    end;
  ReadRelayCounts _ _ _ := fun s => (Panicked ErrUnexpectedCall, s)
}.

(** [driverMock.On(...).Return(err).Once()] *)
Definition mock_on (err : option GoErr) (s : Mock) : Mock :=
  mkMock (expected s ++ [err]) (calls s).

End Driver.
