(* ===== verification/Utf8.v ===== *)
(** * Utf8: [unicode/utf8] decoding and encoding

    encoding/json coerces string contents to well-formed UTF-8 with
    [utf8.DecodeRune] and writes runes with [utf8.EncodeRune].  Both are
    modelled on bytes as in [utf8.go]: [DecodeRune] reads the lead byte's
    class from the [first] table (size and accepted range of the second
    byte) and returns [(RuneError, 1)] on any ill-formed sequence;
    [EncodeRune] writes one to four bytes with the [t2..t4] markers and
    replaces surrogates and values above [MaxRune] by [RuneError]. *)

From S2P Require Import Prelude.

Module Utf8.

Definition RuneError : Z := 65533.   (** U+FFFD *)
Definition MaxRune : Z := 1114111.   (** U+10FFFF *)
Definition surrogateMin : Z := 55296.
Definition surrogateMax : Z := 57343.

Definition byte_of_Z (z : Z) : ascii := ascii_of_nat (Z.to_nat z).

(** [first[p0]] for a non-ASCII lead byte: the sequence size and the
    accepted range of the second byte; [None] is the invalid class [xx]. *)
Definition lead_class (b : Z) : option (nat * Z * Z) :=
  if (b <? 194)%Z then None
  else if (b <=? 223)%Z then Some (2%nat, 128, 191)%Z
  else if (b =? 224)%Z then Some (3%nat, 160, 191)%Z
  else if (b <=? 236)%Z then Some (3%nat, 128, 191)%Z
  else if (b =? 237)%Z then Some (3%nat, 128, 159)%Z
  else if (b <=? 239)%Z then Some (3%nat, 128, 191)%Z
  else if (b =? 240)%Z then Some (4%nat, 144, 191)%Z
  else if (b <=? 243)%Z then Some (4%nat, 128, 191)%Z
  else if (b =? 244)%Z then Some (4%nat, 128, 143)%Z
  else None.

Definition in_byte_range (lo hi : Z) (c : ascii) : bool :=
  (lo <=? byte_val c)%Z && (byte_val c <=? hi)%Z.

(** [maskx] = 0x3F *)
Definition cont (c : ascii) : Z := Z.land (byte_val c) 63.

(** [utf8.DecodeRuneInString(s)]: the rune and its size. *)
Definition DecodeRune (s : string) : Z * nat :=
  match s with
  | EmptyString => (RuneError, 0%nat)
  | String p0 s1 =>
      let b0 := byte_val p0 in
      if (b0 <? 128)%Z then (b0, 1%nat)
      else match lead_class b0 with
           | None => (RuneError, 1%nat)
           | Some (sz, lo, hi) =>
               match s1 with
               | String b1 s2 =>
                   if negb (in_byte_range lo hi b1) then (RuneError, 1%nat)
                   else if (sz <=? 2)%nat then
                     (Z.lor (Z.shiftl (Z.land b0 31) 6) (cont b1), 2%nat)
                   else match s2 with
                        | String b2 s3 =>
                            if negb (in_byte_range 128 191 b2) then (RuneError, 1%nat)
                            else if (sz <=? 3)%nat then
                              (Z.lor (Z.lor (Z.shiftl (Z.land b0 15) 12)
                                            (Z.shiftl (cont b1) 6)) (cont b2), 3%nat)
                            else match s3 with
                                 | String b3 _ =>
                                     if negb (in_byte_range 128 191 b3) then (RuneError, 1%nat)
                                     else (Z.lor (Z.lor (Z.lor (Z.shiftl (Z.land b0 7) 18)
                                                               (Z.shiftl (cont b1) 12))
                                                        (Z.shiftl (cont b2) 6)) (cont b3), 4%nat)
                                 | EmptyString => (RuneError, 1%nat)
                                 end
                        | EmptyString => (RuneError, 1%nat)
                        end
               | EmptyString => (RuneError, 1%nat)
               end
           end
  end.

(** [utf8.EncodeRune]: the bytes of [r]. *)
Definition EncodeRune (r : Z) : string :=
  let three r :=
    String (byte_of_Z (Z.lor 224 (Z.shiftr r 12)))
      (String (byte_of_Z (Z.lor 128 (Z.land (Z.shiftr r 6) 63)))
         (String (byte_of_Z (Z.lor 128 (Z.land r 63))) EmptyString)) in
  if (r <? 0)%Z then three RuneError
  else if (r <=? 127)%Z then String (byte_of_Z r) EmptyString
  else if (r <=? 2047)%Z then
    String (byte_of_Z (Z.lor 192 (Z.shiftr r 6)))
      (String (byte_of_Z (Z.lor 128 (Z.land r 63))) EmptyString)
  else if (MaxRune <? r)%Z || ((surrogateMin <=? r) && (r <=? surrogateMax))%Z then
    three RuneError
  else if (r <=? 65535)%Z then three r
  else
    String (byte_of_Z (Z.lor 240 (Z.shiftr r 18)))
      (String (byte_of_Z (Z.lor 128 (Z.land (Z.shiftr r 12) 63)))
         (String (byte_of_Z (Z.lor 128 (Z.land (Z.shiftr r 6) 63)))
            (String (byte_of_Z (Z.lor 128 (Z.land r 63))) EmptyString))).

(** A rune read from a non-empty string takes at least one byte. *)
Lemma DecodeRune_size s r n : s <> EmptyString -> DecodeRune s = (r, n) -> (1 <= n)%nat.
Proof. destruct s; [done|]. intros _. cbn. repeat case_match; intros; simplify_eq; lia. Qed.

End Utf8.
