(* ===== verification/JsonScan.v ===== *)
(** * JsonScan: encoding/json's scanner and [Decoder.readValue]

    [json.NewDecoder(r.Body).Decode(&count)] first cuts one JSON value off
    the body with the byte-at-a-time scanner of [scanner.go], then decodes
    that value.  The scanner is a state machine: [step] is the state
    function ([stateBeginValue], [stateInString], ...), [parseStack] the
    stack of open objects and arrays (head = innermost), [serr] the
    recorded syntax error.  [scan_step] follows each state function of
    the source, with its error contexts, the [maxNestingDepth] check of
    [pushParseState] and the delayed end of a top-level value.  [readValue]
    is [Decoder.readValue] on a body that is read in full: it stops at the
    [scanEnd] that the first byte after a value produces (so trailing bytes
    are never looked at), ends objects and arrays without waiting for
    another byte, and at end of input feeds a space and reports [EOF] for
    an empty body and [unexpected EOF] for a truncated one. *)

From S2P Require Import Prelude.

Module JsonScan.

Inductive parseState := parseObjectKey | parseObjectValue | parseArrayValue.

Inductive stepfn :=
| stateBeginValue | stateBeginValueOrEmpty | stateBeginStringOrEmpty | stateBeginString
| stateEndValue | stateEndTop
| stateInString | stateInStringEsc | stateInStringEscU | stateInStringEscU1
| stateInStringEscU12 | stateInStringEscU123
| stateNeg | state1 | state0 | stateDot | stateDot0 | stateE | stateESign | stateE0
| stateT | stateTr | stateTru | stateF | stateFa | stateFal | stateFals
| stateN | stateNu | stateNul | stateError.

Inductive scanOp :=
| scanContinue | scanBeginLiteral | scanBeginObject | scanObjectKey | scanObjectValue
| scanEndObject | scanBeginArray | scanArrayValue | scanEndArray | scanSkipSpace
| scanEnd | scanError.

#[export] Instance scanOp_eq_dec : EqDecision scanOp.
Proof. solve_decision. Defined.

Record scanner := mkScanner {
  step : stepfn;
  parseStack : list parseState;
  serr : option string
}.

Definition maxNestingDepth : nat := 10000.

(** ** Characters *)
Definition is_char (c : ascii) (n : nat) : bool := bool_decide (nat_of_ascii c = n).

Definition isSpace (c : ascii) : bool :=
  is_char c 32 || is_char c 9 || is_char c 13 || is_char c 10.

Definition is_hex (c : ascii) : bool :=
  is_digit c || ((97 <=? byte_val c) && (byte_val c <=? 102))%Z
  || ((65 <=? byte_val c) && (byte_val c <=? 70))%Z.

Definition hex_digit (n : Z) : ascii :=
  ascii_of_nat (Z.to_nat (if (n <? 10)%Z then 48 + n else 87 + n)%Z).

(** [strconv.Quote(string(rune(c)))] without its quotes, for one byte: the
    rune [U+00cc] is written as is when printable, and escaped
    otherwise. *)
Definition quote_rune_of_byte (c : ascii) : string :=
  let b := byte_val c in
  if is_char c 92 then "\\"
  else if is_char c 7 then "\a" else if is_char c 8 then "\b"
  else if is_char c 12 then "\f" else if is_char c 10 then "\n"
  else if is_char c 13 then "\r" else if is_char c 9 then "\t"
  else if is_char c 11 then "\v"
  else if ((b <? 32) || (b =? 127))%Z then
    String "\" (String "x" (String (hex_digit (b / 16)) (String (hex_digit (b mod 16)) EmptyString)))
  else if (b <? 127)%Z then String c EmptyString
  else if ((b <=? 159) || (b =? 160) || (b =? 173))%Z then
    "\u00" +:+ String (hex_digit (b / 16)) (String (hex_digit (b mod 16)) EmptyString)
  else (* a printable rune of U+00A1..U+00FF: two UTF-8 bytes *)
    String (ascii_of_nat (Z.to_nat (192 + b / 64)))
           (String (ascii_of_nat (Z.to_nat (128 + b mod 64))) EmptyString).

(** [quoteChar(c)] *)
Definition quoteChar (c : ascii) : string :=
  if is_char c 39 then "'\''"
  else if is_char c 34 then "'" +:+ String quote_char "'"
  else "'" +:+ quote_rune_of_byte c +:+ "'".

(** ** The state functions

    Each takes the scanner (already in the state being run) and the byte,
    and returns the next scanner and the op code. *)
Definition sc_set (s : scanner) (st : stepfn) : scanner :=
  mkScanner st (parseStack s) (serr s).

(** [s.error(c, context)] *)
Definition sc_error (s : scanner) (c : ascii) (context : string) : scanner * scanOp :=
  (mkScanner stateError (parseStack s)
             (Some ("invalid character " +:+ quoteChar c +:+ " " +:+ context)), scanError).

(** [s.pushParseState(c, newParseState, successState)], with [s.step]
    already set to [st]. *)
Definition pushParseState (s : scanner) (st : stepfn) (c : ascii) (p : parseState)
    (success : scanOp) : scanner * scanOp :=
  let s' := mkScanner st (p :: parseStack s) (serr s) in
  if (length (parseStack s') <=? maxNestingDepth)%nat then (s', success)
  else sc_error s' c "exceeded max depth".

(** [s.popParseState()] *)
Definition popParseState (s : scanner) : scanner :=
  match parseStack s with
  | [] | [_] => mkScanner stateEndTop [] (serr s)
  | _ :: ps => mkScanner stateEndValue ps (serr s)
  end.

Definition stEndTop (s : scanner) (c : ascii) : scanner * scanOp :=
  if isSpace c then (s, scanEnd)
  else (fst (sc_error s c "after top-level value"), scanEnd).

Definition stEndValue (s : scanner) (c : ascii) : scanner * scanOp :=
  match parseStack s with
  | [] => stEndTop (sc_set s stateEndTop) c
  | ps :: rest =>
      if isSpace c then (sc_set s stateEndValue, scanSkipSpace)
      else match ps with
      | parseObjectKey =>
          if is_char c 58 then (mkScanner stateBeginValue (parseObjectValue :: rest) (serr s), scanObjectKey)
          else sc_error s c "after object key"
      | parseObjectValue =>
          if is_char c 44 then (mkScanner stateBeginString (parseObjectKey :: rest) (serr s), scanObjectValue)
          else if is_char c 125 then (popParseState s, scanEndObject)
          else sc_error s c "after object key:value pair"
      | parseArrayValue =>
          if is_char c 44 then (sc_set s stateBeginValue, scanArrayValue)
          else if is_char c 93 then (popParseState s, scanEndArray)
          else sc_error s c "after array element"
      end
  end.

Definition stBeginValue (s : scanner) (c : ascii) : scanner * scanOp :=
  if isSpace c then (s, scanSkipSpace)
  else if is_char c 123 then pushParseState s stateBeginStringOrEmpty c parseObjectKey scanBeginObject
  else if is_char c 91 then pushParseState s stateBeginValueOrEmpty c parseArrayValue scanBeginArray
  else if is_char c 34 then (sc_set s stateInString, scanBeginLiteral)
  else if is_char c 45 then (sc_set s stateNeg, scanBeginLiteral)
  else if is_char c 48 then (sc_set s state0, scanBeginLiteral)
  else if is_char c 116 then (sc_set s stateT, scanBeginLiteral)
  else if is_char c 102 then (sc_set s stateF, scanBeginLiteral)
  else if is_char c 110 then (sc_set s stateN, scanBeginLiteral)
  else if is_digit c then (sc_set s state1, scanBeginLiteral)
  else sc_error s c "looking for beginning of value".

Definition stBeginString (s : scanner) (c : ascii) : scanner * scanOp :=
  if isSpace c then (s, scanSkipSpace)
  else if is_char c 34 then (sc_set s stateInString, scanBeginLiteral)
  else sc_error s c "looking for beginning of object key string".

Definition st0 (s : scanner) (c : ascii) : scanner * scanOp :=
  if is_char c 46 then (sc_set s stateDot, scanContinue)
  else if is_char c 101 || is_char c 69 then (sc_set s stateE, scanContinue)
  else stEndValue s c.

Definition stESign (s : scanner) (c : ascii) : scanner * scanOp :=
  if is_digit c then (sc_set s stateE0, scanContinue)
  else sc_error s c "in exponent of numeric literal".

(** a literal byte: [want] moves to [next], anything else is an error *)
Definition stLit (s : scanner) (c : ascii) (want : nat) (next : stepfn) (context : string)
    : scanner * scanOp :=
  if is_char c want then (sc_set s next, scanContinue) else sc_error s c context.

Definition stEscU (s : scanner) (c : ascii) (next : stepfn) : scanner * scanOp :=
  if is_hex c then (sc_set s next, scanContinue)
  else sc_error s c "in \u hexadecimal character escape".

(** [s.step(s, c)] *)
Definition scan_step (s : scanner) (c : ascii) : scanner * scanOp :=
  match step s with
  | stateBeginValue => stBeginValue s c
  | stateBeginValueOrEmpty =>
      if isSpace c then (s, scanSkipSpace)
      else if is_char c 93 then stEndValue s c
      else stBeginValue s c
  | stateBeginStringOrEmpty =>
      if isSpace c then (s, scanSkipSpace)
      else if is_char c 125 then
        match parseStack s with
        | _ :: rest => stEndValue (mkScanner (step s) (parseObjectValue :: rest) (serr s)) c
        | [] => stEndValue s c
        end
      else stBeginString s c
  | stateBeginString => stBeginString s c
  | stateEndValue => stEndValue s c
  | stateEndTop => stEndTop s c
  | stateInString =>
      if is_char c 34 then (sc_set s stateEndValue, scanContinue)
      else if is_char c 92 then (sc_set s stateInStringEsc, scanContinue)
      else if (byte_val c <? 32)%Z then sc_error s c "in string literal"
      else (s, scanContinue)
  | stateInStringEsc =>
      if is_char c 98 || is_char c 102 || is_char c 110 || is_char c 114 || is_char c 116
         || is_char c 92 || is_char c 47 || is_char c 34
      then (sc_set s stateInString, scanContinue)
      else if is_char c 117 then (sc_set s stateInStringEscU, scanContinue)
      else sc_error s c "in string escape code"
  | stateInStringEscU => stEscU s c stateInStringEscU1
  | stateInStringEscU1 => stEscU s c stateInStringEscU12
  | stateInStringEscU12 => stEscU s c stateInStringEscU123
  | stateInStringEscU123 => stEscU s c stateInString
  | stateNeg =>
      if is_char c 48 then (sc_set s state0, scanContinue)
      else if is_digit c then (sc_set s state1, scanContinue)
      else sc_error s c "in numeric literal"
  | state1 => if is_digit c then (s, scanContinue) else st0 s c
  | state0 => st0 s c
  | stateDot =>
      if is_digit c then (sc_set s stateDot0, scanContinue)
      else sc_error s c "after decimal point in numeric literal"
  | stateDot0 =>
      if is_digit c then (s, scanContinue)
      else if is_char c 101 || is_char c 69 then (sc_set s stateE, scanContinue)
      else stEndValue s c
  | stateE =>
      if is_char c 43 || is_char c 45 then (sc_set s stateESign, scanContinue)
      else stESign s c
  | stateESign => stESign s c
  | stateE0 => if is_digit c then (s, scanContinue) else stEndValue s c
  | stateT => stLit s c 114 stateTr "in literal true (expecting 'r')"
  | stateTr => stLit s c 117 stateTru "in literal true (expecting 'u')"
  | stateTru => stLit s c 101 stateEndValue "in literal true (expecting 'e')"
  | stateF => stLit s c 97 stateFa "in literal false (expecting 'a')"
  | stateFa => stLit s c 108 stateFal "in literal false (expecting 'l')"
  | stateFal => stLit s c 115 stateFals "in literal false (expecting 's')"
  | stateFals => stLit s c 101 stateEndValue "in literal false (expecting 'e')"
  | stateN => stLit s c 117 stateNu "in literal null (expecting 'u')"
  | stateNu => stLit s c 108 stateNul "in literal null (expecting 'l')"
  | stateNul => stLit s c 108 stateEndValue "in literal null (expecting 'l')"
  | stateError => (s, scanError)
  end.

(** [scan.reset()] *)
Definition scan_reset : scanner := mkScanner stateBeginValue [] None.

(** ** [Decoder.readValue] *)
Inductive ReadErr :=
| ReadSyntax (msg : string)   (** [*SyntaxError] *)
| ReadEOF                     (** [io.EOF] *)
| ReadUnexpectedEOF.          (** [io.ErrUnexpectedEOF] *)

Definition read_err_msg (e : ReadErr) : string :=
  match e with
  | ReadSyntax m => m
  | ReadEOF => "EOF"
  | ReadUnexpectedEOF => "unexpected EOF"
  end.

Fixpoint nonSpace (s : string) : bool :=
  match s with
  | EmptyString => false
  | String c s' => negb (isSpace c) || nonSpace s'
  end.

(** [scan_bytes sc rest n]: the scanner has consumed [n] bytes of the body
    [buf]; [rest] is what is left.  The result is the length of the value
    (leading spaces included). *)
Fixpoint scan_bytes (buf : string) (sc : scanner) (rest : string) (n : nat)
    : ReadErr + nat :=
  match rest with
  | EmptyString =>
      if decide (snd (scan_step sc " ") = scanEnd) then inr n
      else if nonSpace buf then inl ReadUnexpectedEOF
      else inl ReadEOF
  | String c rest' =>
      let '(sc', op) := scan_step sc c in
      match op with
      | scanEnd => inr n
      | scanEndObject | scanEndArray =>
          if decide (snd (stEndValue sc' " ") = scanEnd) then inr (S n)
          else scan_bytes buf sc' rest' (S n)
      | scanError => inl (ReadSyntax (default "" (serr sc')))
      | _ => scan_bytes buf sc' rest' (S n)
      end
  end.

Definition readValue (buf : string) : ReadErr + nat := scan_bytes buf scan_reset buf 0.

End JsonScan.
