(* ===== verification/JsonValue.v ===== *)
(** * JsonValue: JSON values, string unquoting and string encoding

    Once [readValue] has cut a syntactically valid value off the body,
    encoding/json's [decodeState] walks it again ([rescanLiteral],
    [object], [array]).  [parse_value] builds that walk's result as a tree:
    literals keep their text, strings their raw quoted text (decoded only
    when a field needs it, as [literalStore] does), and object members
    their raw key and the raw text of their value (which an [Unmarshaler]
    such as [time.Time] receives).  [unquote] is [unquoteBytes]: escapes,
    [\uXXXX] with UTF-16 surrogate pairs, and ill-formed UTF-8 replaced by
    U+FFFD.  [appendString] is the encoder's string writer with HTML
    escaping, used by [json.Marshal] for the response envelopes.  The
    lemmas at the end show that the fuel of these walks is enough. *)

From S2P Require Import Prelude Utf8 JsonScan.

Module JsonValue.
Import Utf8 JsonScan.

#[local] Set Warnings "-register-all".
Inductive jvalue :=
| JNull
| JBool (b : bool)
| JNum (lit : string)
| JStr (raw : string)
| JArr (items : list jvalue)
| JObj (members : list (string * string * jvalue)).

(** ** Building the value of a scanned text *)

Fixpoint skip_ws (s : string) : string :=
  match s with
  | String c s' => if isSpace c then skip_ws s' else s
  | EmptyString => EmptyString
  end.

(** [rescanLiteral] on a string: the bytes after the opening quote up to
    and including the closing quote. *)
Fixpoint string_span (s : string) : option (string * string) :=
  match s with
  | EmptyString => None
  | String c s' =>
      if is_char c 34 then Some (String c EmptyString, s')
      else if is_char c 92 then
        match s' with
        | String d s'' =>
            '(body, rest) ← string_span s'';
            Some (String c (String d body), rest)
        | EmptyString => None
        end
      else '(body, rest) ← string_span s'; Some (String c body, rest)
  end.

Definition is_num_char (c : ascii) : bool :=
  is_digit c || is_char c 46 || is_char c 101 || is_char c 69 || is_char c 43 || is_char c 45.

(** [rescanLiteral] on a number *)
Fixpoint number_span (s : string) : string * string :=
  match s with
  | String c s' =>
      if is_num_char c then let '(n, rest) := number_span s' in (String c n, rest)
      else (EmptyString, s)
  | EmptyString => (EmptyString, EmptyString)
  end.

(** The text consumed between [s] and its suffix [rest]. *)
Definition consumed (s rest : string) : string :=
  substring 0 (String.length s - String.length rest) s.

Definition strip_prefix (p s : string) : option string :=
  if String.prefix p s then Some (substring (String.length p) (String.length s - String.length p) s)
  else None.

Fixpoint parse_value (fuel : nat) (s : string) : option (jvalue * string) :=
  match fuel with
  | O => None
  | S f =>
      match s with
      | String c s' =>
          if is_char c 123 then
            let s1 := skip_ws s' in
            match s1 with
            | String d s2 => if is_char d 125 then Some (JObj [], s2) else parse_members f s1 []
            | EmptyString => None
            end
          else if is_char c 91 then
            let s1 := skip_ws s' in
            match s1 with
            | String d s2 => if is_char d 93 then Some (JArr [], s2) else parse_items f s1 []
            | EmptyString => None
            end
          else if is_char c 34 then
            '(body, rest) ← string_span s'; Some (JStr (String c body), rest)
          else if is_char c 116 then rest ← strip_prefix "true" s; Some (JBool true, rest)
          else if is_char c 102 then rest ← strip_prefix "false" s; Some (JBool false, rest)
          else if is_char c 110 then rest ← strip_prefix "null" s; Some (JNull, rest)
          else let '(n, rest) := number_span s in
               if decide (n = "") then None else Some (JNum n, rest)
      | EmptyString => None
      end
  end
with parse_members (fuel : nat) (s : string) (acc : list (string * string * jvalue))
    : option (jvalue * string) :=
  match fuel with
  | O => None
  | S f =>
      match s with
      | String q s' =>
          if negb (is_char q 34) then None else
          '(kbody, r1) ← string_span s';
          let key := String q kbody in
          match skip_ws r1 with
          | String colon r2 =>
              if negb (is_char colon 58) then None else
              let vstart := skip_ws r2 in
              '(v, r3) ← parse_value f vstart;
              let acc' := acc ++ [(key, consumed vstart r3, v)] in
              match skip_ws r3 with
              | String d r4 =>
                  if is_char d 44 then parse_members f (skip_ws r4) acc'
                  else if is_char d 125 then Some (JObj acc', r4)
                  else None
              | EmptyString => None
              end
          | EmptyString => None
          end
      | EmptyString => None
      end
  end
with parse_items (fuel : nat) (s : string) (acc : list jvalue) : option (jvalue * string) :=
  match fuel with
  | O => None
  | S f =>
      '(v, r1) ← parse_value f s;
      let acc' := acc ++ [v] in
      match skip_ws r1 with
      | String d r2 =>
          if is_char d 44 then parse_items f (skip_ws r2) acc'
          else if is_char d 93 then Some (JArr acc', r2)
          else None
      | EmptyString => None
      end
  end.

(** The value of a scanned text: leading spaces skipped, enough fuel for
    one call per byte and per member or item. *)
Definition value_of (text : string) : option (jvalue * string) :=
  parse_value (2 * String.length text + 2) (skip_ws text).

(** ** [unquoteBytes] *)

Definition hex_val (c : ascii) : Z :=
  if is_digit c then digit_val c
  else if ((97 <=? byte_val c) && (byte_val c <=? 102))%Z then byte_val c - 87
  else byte_val c - 55.

(** [getu4(s)]: the value of ["\uXXXX"] at the start of [s], or -1. *)
Definition getu4 (s : string) : Z :=
  match s with
  | String b (String u (String h1 (String h2 (String h3 (String h4 _))))) =>
      if is_char b 92 && is_char u 117 && is_hex h1 && is_hex h2 && is_hex h3 && is_hex h4
      then (hex_val h1 * 4096 + hex_val h2 * 256 + hex_val h3 * 16 + hex_val h4)%Z
      else (-1)%Z
  | _ => (-1)%Z
  end.

(** [utf16.IsSurrogate] and [utf16.DecodeRune] *)
Definition IsSurrogate (r : Z) : bool := ((55296 <=? r) && (r <? 57344))%Z.

Definition utf16_DecodeRune (r1 r2 : Z) : Z :=
  if ((55296 <=? r1) && (r1 <? 56320) && (56320 <=? r2) && (r2 <? 57344))%Z
  then (Z.lor (Z.shiftl (r1 - 55296) 10) (r2 - 56320) + 65536)%Z
  else RuneError.

Definition drop (n : nat) (s : string) : string :=
  substring n (String.length s - n) s.

(** The loop of [unquoteBytes] over the bytes between the quotes. *)
Fixpoint unquote_loop (fuel : nat) (s : string) : option string :=
  match fuel with
  | O => match s with EmptyString => Some EmptyString | _ => None end
  | S f =>
      match s with
      | EmptyString => Some EmptyString
      | String c s' =>
          if is_char c 92 then
            match s' with
            | EmptyString => None
            | String e s'' =>
                if is_char e 34 || is_char e 92 || is_char e 47 || is_char e 39 then
                  rest ← unquote_loop f s''; Some (String e rest)
                else if is_char e 98 then rest ← unquote_loop f s''; Some (String (ascii_of_nat 8) rest)
                else if is_char e 102 then rest ← unquote_loop f s''; Some (String (ascii_of_nat 12) rest)
                else if is_char e 110 then rest ← unquote_loop f s''; Some (String (ascii_of_nat 10) rest)
                else if is_char e 114 then rest ← unquote_loop f s''; Some (String (ascii_of_nat 13) rest)
                else if is_char e 116 then rest ← unquote_loop f s''; Some (String (ascii_of_nat 9) rest)
                else if is_char e 117 then
                  let rr := getu4 s in
                  if (rr <? 0)%Z then None
                  else if IsSurrogate rr then
                    let dec := utf16_DecodeRune rr (getu4 (drop 6 s)) in
                    if negb (dec =? RuneError)%Z then
                      rest ← unquote_loop f (drop 12 s); Some (EncodeRune dec +:+ rest)
                    else rest ← unquote_loop f (drop 6 s); Some (EncodeRune RuneError +:+ rest)
                  else rest ← unquote_loop f (drop 6 s); Some (EncodeRune rr +:+ rest)
                else None
            end
          else if is_char c 34 || (byte_val c <? 32)%Z then None
          else if (byte_val c <? 128)%Z then rest ← unquote_loop f s'; Some (String c rest)
          else
            let '(rr, size) := DecodeRune s in
            rest ← unquote_loop f (drop size s); Some (EncodeRune rr +:+ rest)
      end
  end.

Definition char_is (s : string) (i n : nat) : bool :=
  match String.get i s with Some c => is_char c n | None => false end.

(** [unquoteBytes(s)] on a quoted string *)
Definition unquote (raw : string) : option string :=
  let n := String.length raw in
  if (n <? 2)%nat || negb (char_is raw 0 34) || negb (char_is raw (n - 1) 34) then None
  else let body := go_slice raw 1 (n - 1) in unquote_loop (String.length body) body.

(** ** [appendString(dst, src, escapeHTML = true)] *)

(** [htmlSafeSet[b]] for an ASCII byte *)
Definition htmlSafe (c : ascii) : bool :=
  (32 <=? byte_val c)%Z && negb (is_char c 34 || is_char c 92 || is_char c 60
                                 || is_char c 62 || is_char c 38).

Fixpoint escape_loop (fuel : nat) (s : string) : string :=
  match fuel with
  | O => s
  | S f =>
      match s with
      | EmptyString => EmptyString
      | String b s' =>
          if (byte_val b <? 128)%Z then
            if htmlSafe b then String b (escape_loop f s')
            else if is_char b 92 || is_char b 34 then String "\" (String b (escape_loop f s'))
            else if is_char b 10 then "\n" +:+ escape_loop f s'
            else if is_char b 13 then "\r" +:+ escape_loop f s'
            else if is_char b 9 then "\t" +:+ escape_loop f s'
            else "\u00" +:+ String (hex_digit (byte_val b / 16))
                                (String (hex_digit (byte_val b mod 16)) (escape_loop f s'))
          else
            let '(c, size) := DecodeRune s in
            if (c =? RuneError)%Z && (size =? 1)%nat then "\ufffd" +:+ escape_loop f (drop 1 s)
            else if (c =? 8232)%Z || (c =? 8233)%Z then
              "\u202" +:+ String (hex_digit (Z.land c 15)) (escape_loop f (drop size s))
            else substring 0 size s +:+ escape_loop f (drop size s)
      end
  end.

Definition appendString (src : string) : string :=
  quoted (escape_loop (String.length src) src).

(** [json.Marshal(map[string]string{k: v})] for a one-entry map *)
Definition marshal_string_map1 (k v : string) : string :=
  "{" +:+ appendString k +:+ ":" +:+ appendString v +:+ "}".

(** ** The fuel is enough

    [unquote_loop] and [parse_value] take fuel so that Rocq sees them
    terminate.  The lemmas below show that the fuel they are given never
    runs out: with any larger fuel they compute the same result, which is
    therefore the result of the unbounded recursion of Go.  Every
    recursive call is on a strictly shorter text ([drop_length],
    [string_span_length], [parse_rest]). *)

Lemma drop_length n s : String.length (drop n s) = String.length s - n.
Proof.
  unfold drop. destruct (decide (n <= String.length s)%nat).
  - apply substring_length. lia.
  - replace (String.length s - n)%nat with 0%nat by lia. by rewrite substring_zero.
Qed.

(** [unquote_loop] with fuel at least the length of its text computes
    the same result whatever the fuel; [unquote] gives it that length. *)
Lemma unquote_loop_fuel f1 f2 s :
  (String.length s <= f1)%nat -> (String.length s <= f2)%nat -> unquote_loop f1 s = unquote_loop f2 s.
Proof.
  revert f2 s. induction f1 as [|f IH]; intros f2 s H1 H2.
  - destruct s; [|cbn in H1; lia]. by destruct f2.
  - destruct s as [|c s']; [by destruct f2|].
    destruct f2 as [|g]; [cbn in H2; lia|].
    cbn [unquote_loop].
    repeat case_match; try reflexivity.
    all: lazymatch goal with
         | |- (unquote_loop _ ?X ≫= _) = (unquote_loop ?G ?X ≫= _) => rewrite (IH G X); [reflexivity| |]
         end.
    all: try match goal with H : DecodeRune _ = (_, _) |- _ => apply DecodeRune_size in H; [|done] end.
    all: rewrite ?drop_length; cbn in *; lia.
Qed.

(** The same for [escape_loop], the loop of [appendString]. *)
Lemma escape_loop_fuel f1 f2 s :
  (String.length s <= f1)%nat -> (String.length s <= f2)%nat -> escape_loop f1 s = escape_loop f2 s.
Proof.
  revert f2 s. induction f1 as [|f IH]; intros f2 s H1 H2.
  - destruct s; [|cbn in H1; lia]. by destruct f2.
  - destruct s as [|c s']; [by destruct f2|].
    destruct f2 as [|g]; [cbn in H2; lia|].
    cbn [escape_loop].
    try match goal with |- context [DecodeRune ?x] =>
      destruct (DecodeRune x) as [r n] eqn:Hd; apply DecodeRune_size in Hd as ?; [|done] end.
    repeat match goal with
           | |- context [escape_loop f ?X] =>
               rewrite (IH g X) by (rewrite ?drop_length; cbn in *; lia)
           end.
    reflexivity.
Qed.

Lemma skip_ws_length s : (String.length (skip_ws s) <= String.length s)%nat.
Proof. induction s as [|c s IH]; cbn; [lia|]. case_match; cbn; lia. Qed.

Lemma string_span_length s b r : string_span s = Some (b, r) -> (String.length r < String.length s)%nat.
Proof.
  remember (String.length s) as n eqn:Hn. revert s b r Hn.
  induction n as [n IH] using lt_wf_ind. intros [|c s] b r Hn; cbn; [done|].
  repeat case_match; intros; simplify_eq; cbn in *; try lia;
    repeat match goal with H : (string_span ?x ≫= _) = _ |- _ =>
      destruct (string_span x) as [[??]|] eqn:?; cbn in H; simplify_eq end;
    match goal with H : string_span ?x = Some _ |- _ => eapply (IH (String.length x)) in H; [|cbn in *; lia|done] end;
    cbn in *; lia.
Qed.

Lemma number_span_length s n r : number_span s = (n, r) -> String.length s = (String.length n + String.length r)%nat.
Proof.
  revert n r. induction s as [|c s IH]; intros n r; cbn; [intros [= <- <-]; done|].
  case_match; [|intros [= <- <-]; done].
  destruct (number_span s) as [n' r'] eqn:E. intros [= <- <-]. cbn. rewrite (IH n' r'); done.
Qed.

Lemma strip_prefix_length p s r : strip_prefix p s = Some r -> String.length s = (String.length p + String.length r)%nat.
Proof.
  unfold strip_prefix. case_match eqn:E; [|done]. intros [= <-].
  apply prefix_length in E.
  rewrite substring_length; lia.
Qed.

(** The lengths that the scanning helpers consume, in the context. *)
Ltac len_facts :=
  repeat match goal with
  | H : string_span _ = Some _ |- _ => apply string_span_length in H
  | H : strip_prefix _ _ = Some _ |- _ => apply strip_prefix_length in H
  | H : number_span _ = _ |- _ => apply number_span_length in H
  | H : skip_ws ?x = ?y |- _ =>
      let L := fresh "L" in pose proof (skip_ws_length x) as L; rewrite H in L; clear H
  | H : context [skip_ws ?x] |- _ =>
      lazymatch goal with
      | _ : (String.length (skip_ws x) <= _)%nat |- _ => fail
      | _ => pose proof (skip_ws_length x)
      end
  | |- context [skip_ws ?x] =>
      lazymatch goal with
      | _ : (String.length (skip_ws x) <= _)%nat |- _ => fail
      | _ => pose proof (skip_ws_length x)
      end
  end.

Ltac rest_ih IH1 IH2 :=
  repeat match goal with
         | H : _ = Some _ |- _ => apply IH1 in H
         | H : _ = Some _ |- _ => apply IH2 in H
         end.

(** What the walk leaves is shorter than what it was given. *)
Lemma parse_rest f :
  (forall s v r, parse_value f s = Some (v, r) -> String.length r < String.length s)%nat /\
  (forall s acc v r, parse_members f s acc = Some (v, r) -> String.length r < String.length s)%nat /\
  (forall s acc v r, parse_items f s acc = Some (v, r) -> String.length r < String.length s)%nat.
Proof.
  induction f as [|f (IHv & IHm & IHi)]; [split_and!; done|].
  split_and!.
  - intros [|c s] v r H; cbn in H; [done|]. crunch; rest_ih IHm IHi; len_facts; cbn in *; lia.
  - intros [|c s] acc v r H; cbn in H; [done|]. crunch; rest_ih IHv IHm; len_facts; cbn in *; lia.
  - intros s acc v r H; cbn in H. crunch; rest_ih IHv IHi; len_facts; cbn in *; lia.
Qed.

Ltac rest_facts :=
  repeat match goal with
         | H : parse_value _ _ = Some _ |- _ => apply (proj1 (parse_rest _)) in H
         | H : parse_members _ _ _ = Some _ |- _ => apply (proj1 (proj2 (parse_rest _))) in H
         | H : parse_items _ _ _ = Some _ |- _ => apply (proj2 (proj2 (parse_rest _))) in H
         end.

Ltac len_solve := rest_facts; len_facts; cbn in *; lia.

(** One unfolding of both sides of a fuel equation: the same case
    analysis on both, the recursive calls rewritten by the induction
    hypotheses (their text is shorter), binds compared pointwise. *)
Ltac fuel_walk IHv IHm IHi :=
  repeat first
    [ progress cbn
    | reflexivity
    | case_match
    | match goal with |- context [parse_value ?F ?X] => rewrite (IHv X) by len_solve end
    | match goal with |- context [parse_members ?F ?X ?A] => rewrite (IHm X A) by len_solve end
    | match goal with |- context [parse_items ?F ?X ?A] => rewrite (IHi X A) by len_solve end
    | apply bind_ext_some; intros [? ?] ? ].

(** The walk with fuel above [2 * length + 1] (for [parse_items],
    [2 * length + 2]) computes the same result whatever the fuel. *)
Lemma parse_fuel f1 : forall f2,
  (forall s, 2 * String.length s + 1 <= f1 -> 2 * String.length s + 1 <= f2 ->
     parse_value f1 s = parse_value f2 s)%nat /\
  (forall s acc, 2 * String.length s + 1 <= f1 -> 2 * String.length s + 1 <= f2 ->
     parse_members f1 s acc = parse_members f2 s acc)%nat /\
  (forall s acc, 2 * String.length s + 2 <= f1 -> 2 * String.length s + 2 <= f2 ->
     parse_items f1 s acc = parse_items f2 s acc)%nat.
Proof.
  induction f1 as [|f IH]; intros f2; [split_and!; intros; lia|].
  split_and!.
  - intros s H1 H2. destruct f2 as [|g]; [lia|].
    destruct (IH g) as (IHv & IHm & IHi).
    destruct s as [|c s]; [done|]. cbn [parse_value].
    fuel_walk IHv IHm IHi.
  - intros s acc H1 H2. destruct f2 as [|g]; [lia|].
    destruct (IH g) as (IHv & IHm & IHi).
    destruct s as [|c s]; [done|]. cbn [parse_members].
    fuel_walk IHv IHm IHi.
  - intros s acc H1 H2. destruct f2 as [|g]; [lia|].
    destruct (IH g) as (IHv & IHm & IHi).
    cbn [parse_items].
    fuel_walk IHv IHm IHi.
Qed.

(** [value_of] has enough fuel: any fuel above [2 * length text + 1]
    gives the same value. *)
Lemma value_of_fuel text f :
  (2 * String.length text + 1 <= f)%nat -> parse_value f (skip_ws text) = value_of text.
Proof.
  intros Hf. unfold value_of. pose proof (skip_ws_length text).
  apply (parse_fuel f); lia.
Qed.

End JsonValue.
