(* ===== verification/TimeParse.v ===== *)
(** * TimeParse: [time.Parse(time.RFC3339, s)] and [Time.UnmarshalJSON]

    [Time.UnmarshalJSON] strips the quotes of the raw JSON value and calls
    [parseStrictRFC3339], which tries the fast path [parseRFC3339] (in
    [Time]) and, when it fails, the general layout interpreter
    [time.Parse(time.RFC3339, s)].  Its error is a [*time.ParseError],
    whose message [CreateCount] sends back in the 400 response.

    [Parse] follows the loop of Go's [parse] (format.go) over the layout
    "2006-01-02T15:04:05Z07:00": [nextStdChunk] cuts that layout into the
    seven chunks of [rfc3339_chunks] (a literal prefix, a std element and
    its text); each round skips the prefix ([skip]), parses the element
    ([parse_std]: the cases [stdLongYear], [stdZeroMonth], [stdZeroDay],
    [stdHour], [stdZeroMinute], [stdZeroSecond] with the fractional
    second the layout does not mention, and [stdISO8601ColonTZ]), and
    reports a range error before a syntax error.  After the loop come the
    check for extra text and the validation of the day.  The parser is
    more lenient than the fast path: a one-digit hour, a comma before the
    fraction and zone offsets up to [24:60] pass.  The other cases of
    [parse] (other layouts) are not reached from this program.

    The lemmas: every time [Parse] returns is a [parsed_time] (an
    invariant of the loop's variables, [pstate_ok]); whatever the fast
    path accepts, [Parse] accepts with the same time, chunk by chunk;
    hence [parseStrictRFC3339] is [Parse], which [RoundTrip] lifts to the
    decoder of [CreateCount] (C33). *)

From S2P Require Import Prelude Time Utf8 JsonScan JsonValue.

Module TimeParse.
Import Time Utf8 JsonScan JsonValue.

(** ** [time.ParseError] and its message *)

Record ParseError := mkParseError {
  pe_layout : string;
  pe_value : string;
  pe_layoutElem : string;
  pe_valueElem : string;
  pe_message : string
}.

Definition RFC3339 : string := "2006-01-02T15:04:05Z07:00".

(** [\xhh] for each byte of [s], with [lowerhex]. *)
Fixpoint hex_escape (s : string) : string :=
  match s with
  | EmptyString => EmptyString
  | String b s' =>
      String "\" (String "x" (String (hex_digit (byte_val b / 16))
                               (String (hex_digit (byte_val b mod 16)) (hex_escape s'))))
  end.

(** The loop of time's [quote(s)]: printable ASCII is copied (a double
    quote or a backslash gets a backslash before it); a control byte or a non-ASCII rune (an invalid byte
    being a rune of width 1) is written byte by byte as [\xhh]. *)
Fixpoint quote_loop (fuel : nat) (s : string) : string :=
  match fuel with
  | O => EmptyString
  | S f =>
      match s with
      | EmptyString => EmptyString
      | String c s' =>
          if ((32 <=? byte_val c) && (byte_val c <? 128))%Z then
            if is_char c 34 || is_char c 92 then String "\" (String c (quote_loop f s'))
            else String c (quote_loop f s')
          else
            let '(_, width) := DecodeRune s in
            hex_escape (substring 0 width s) +:+ quote_loop f (drop width s)
      end
  end.

(** [quote(s)] *)
Definition quote (s : string) : string := quoted (quote_loop (String.length s) s).

(** [ParseError.Error()], the method of [*ParseError] *)
Definition parse_error_msg (e : ParseError) : string :=
  if decide (pe_message e = "") then
    "parsing time " +:+ quote (pe_value e) +:+ " as " +:+ quote (pe_layout e)
    +:+ ": cannot parse " +:+ quote (pe_valueElem e) +:+ " as " +:+ quote (pe_layoutElem e)
  else "parsing time " +:+ quote (pe_value e) +:+ pe_message e.

(** ** The helpers of [parse] *)

(** [getnum(s, fixed)]: one or two leading digits ([fixed] forces two);
    [None] is [errBad], which leaves [s] as it was. *)
Definition getnum (s : string) (fixed : bool) : option (Z * string) :=
  match s with
  | String c0 s1 =>
      if is_digit c0 then
        match s1 with
        | String c1 s2 =>
            if is_digit c1 then Some (digit_val c0 * 10 + digit_val c1, s2)%Z
            else if fixed then None else Some (digit_val c0, s1)
        | EmptyString => if fixed then None else Some (digit_val c0, s1)
        end
      else None
  | EmptyString => None
  end.

(** [cutspace(s)] *)
Fixpoint cutspace (s : string) : string :=
  match s with
  | String c s' => if is_char c 32 then cutspace s' else s
  | EmptyString => s
  end.

(** [skip(value, prefix)]: the value after the prefix, runs of spaces
    matching runs of spaces; [false] is [errBad], with the value where
    matching stopped.  Each round shortens the prefix, so its length is
    enough fuel. *)
Fixpoint skip_loop (fuel : nat) (value prefix : string) : string * bool :=
  match fuel with
  | O => (value, true)
  | S f =>
      match prefix with
      | EmptyString => (value, true)
      | String p prefix' =>
          if is_char p 32 then
            match value with
            | String v _ =>
                if negb (is_char v 32) then (value, false)
                else skip_loop f (cutspace value) (cutspace prefix')
            | EmptyString => skip_loop f (cutspace value) (cutspace prefix')
            end
          else
            match value with
            | String v value' => if bool_decide (v = p) then skip_loop f value' prefix' else (value, false)
            | EmptyString => (value, false)
            end
      end
  end.

Definition skip (value prefix : string) : string * bool := skip_loop (String.length prefix) value prefix.

(** [commaOrPeriod(b)] *)
Definition commaOrPeriod (c : ascii) : bool := is_char c 46 || is_char c 44.

(** ** The loop of [parse] over the RFC 3339 layout *)

(** The std elements of the layout. *)
Inductive std :=
| stdLongYear | stdZeroMonth | stdZeroDay | stdHour | stdZeroMinute | stdZeroSecond
| stdISO8601ColonTZ.

(** [nextStdChunk] applied until the layout is empty: prefix, element,
    and the element's text [stdstr]. *)
Definition rfc3339_chunks : list (string * std * string) :=
  [("", stdLongYear, "2006"); ("-", stdZeroMonth, "01"); ("-", stdZeroDay, "02");
   ("T", stdHour, "15"); (":", stdZeroMinute, "04"); (":", stdZeroSecond, "05");
   ("", stdISO8601ColonTZ, "Z07:00")].

(** The local variables of [parse] that this layout sets; [p_zone] is
    [Some 0] for [z = UTC] and [Some off] for [zoneOffset = off]. *)
Record PState := mkPState {
  p_year : Z; p_month : Z; p_day : Z; p_hour : Z; p_min : Z; p_sec : Z; p_nsec : Z;
  p_zone : option Z
}.

Definition pstate_init : PState := mkPState 0 (-1) (-1) 0 0 0 0 None.

Definition set_year st y := mkPState y (p_month st) (p_day st) (p_hour st) (p_min st) (p_sec st) (p_nsec st) (p_zone st).
Definition set_month st m := mkPState (p_year st) m (p_day st) (p_hour st) (p_min st) (p_sec st) (p_nsec st) (p_zone st).
Definition set_day st d := mkPState (p_year st) (p_month st) d (p_hour st) (p_min st) (p_sec st) (p_nsec st) (p_zone st).
Definition set_hour st h := mkPState (p_year st) (p_month st) (p_day st) h (p_min st) (p_sec st) (p_nsec st) (p_zone st).
Definition set_min st m := mkPState (p_year st) (p_month st) (p_day st) (p_hour st) m (p_sec st) (p_nsec st) (p_zone st).
Definition set_sec st s ns := mkPState (p_year st) (p_month st) (p_day st) (p_hour st) (p_min st) s ns (p_zone st).
Definition set_zone st z := mkPState (p_year st) (p_month st) (p_day st) (p_hour st) (p_min st) (p_sec st) (p_nsec st) (Some z).

(** The fractional second after the seconds: the layout has none (the
    next chunk is [stdISO8601ColonTZ]), so a comma or period followed by
    a digit starts one; the nanoseconds and the rest. *)
Definition secFrac (v : string) : Z * string :=
  if (2 <=? String.length v)%nat && (match v with String c _ => commaOrPeriod c | _ => false end)
     && isDigitAt v 1 then
    let n := S (count_digits (go_slice v 1 (String.length v))) in
    (parseNanoseconds v n, go_slice v n (String.length v))
  else (0%Z, v).

(** [hr, mm] of a [±hh:mm] zone: [getnum] on the two fields, the second
    tried only when the first parsed; a failed field is 0. *)
Definition zone_fields (hour min : string) : Z * Z * bool :=
  match getnum hour true with
  | None => (0%Z, 0%Z, true)
  | Some (hr, _) =>
      match getnum min true with
      | None => (hr, 0%Z, true)
      | Some (mm, _) => (hr, mm, false)
      end
  end.

(** One case of the [switch std & stdMask] of [parse]: the new state, the
    value after the element, the range error ([""] for none) and whether
    [err] is set. *)
Definition parse_std (sd : std) (value : string) (st : PState) : PState * string * string * bool :=
  match sd with
  | stdLongYear =>
      if (String.length value <? 4)%nat || negb (isDigitAt value 0) then (st, value, "", true)
      else
        let p := go_slice value 0 4 in
        let value' := go_slice value 4 (String.length value) in
        match digits_value p with
        | Some y => (set_year st y, value', "", false)
        | None => (set_year st 0, value', "", true)
        end
  | stdZeroMonth =>
      match getnum value true with
      | Some (m, v') => (set_month st m, v', if ((m <=? 0) || (12 <? m))%Z then "month" else "", false)
      | None => (set_month st 0, value, "", true)
      end
  | stdZeroDay =>
      match getnum value true with
      | Some (d, v') => (set_day st d, v', "", false)
      | None => (set_day st 0, value, "", true)
      end
  | stdHour =>
      match getnum value false with
      | Some (h, v') => (set_hour st h, v', if ((h <? 0) || (24 <=? h))%Z then "hour" else "", false)
      | None => (set_hour st 0, value, "", true)
      end
  | stdZeroMinute =>
      match getnum value true with
      | Some (m, v') => (set_min st m, v', if ((m <? 0) || (60 <=? m))%Z then "minute" else "", false)
      | None => (set_min st 0, value, "", true)
      end
  | stdZeroSecond =>
      match getnum value true with
      | None => (set_sec st 0 (p_nsec st), value, "", true)
      | Some (s, v') =>
          if ((s <? 0) || (60 <=? s))%Z then (set_sec st s (p_nsec st), v', "second", false)
          else let '(ns, v'') := secFrac v' in (set_sec st s ns, v'', "", false)
      end
  | stdISO8601ColonTZ =>
      match value with
      | String c v' => if is_char c 90 then (set_zone st 0, v', "", false) else
          if (String.length value <? 6)%nat then (st, value, "", true)
          else if negb (char_at value 3 ":") then (st, value, "", true)
          else
            let '(hr, mm, err) := zone_fields (go_slice value 1 3) (go_slice value 4 6) in
            let rerr := if (60 <? mm)%Z then "time zone offset minute"
                        else if (24 <? hr)%Z then "time zone offset hour" else "" in
            let off := ((hr * 60 + mm) * 60)%Z in
            let v'' := go_slice value 6 (String.length value) in
            if is_char c 43 then (set_zone st off, v'', rerr, err)
            else if is_char c 45 then (set_zone st (- off), v'', rerr, err)
            else (set_zone st off, v'', rerr, true)
      | EmptyString => (st, value, "", true)
      end
  end.

(** The [for] loop of [parse]: [inl] carries the layout element, the
    value element and the message of the [ParseError]. *)
Fixpoint parse_loop (chunks : list (string * std * string)) (value : string) (st : PState)
    : (string * string * string) + (PState * string) :=
  match chunks with
  | [] => if decide (value = "") then inr (st, value)
          else inl ("", value, ": extra text: " +:+ quote value)
  | (prefix, sd, stdstr) :: rest =>
      let '(value1, ok) := skip value prefix in
      if negb ok then inl (prefix, value1, "")
      else
        let '(st', value2, rerr, err) := parse_std sd value1 st in
        if negb (bool_decide (rerr = "")) then inl (stdstr, value2, ": " +:+ rerr +:+ " out of range")
        else if err then inl (stdstr, value1, "")
        else parse_loop rest value2 st'
  end.

(** [time.Parse(time.RFC3339, value)]: the loop, then the default month
    and day, the validation of the day against its month, and the time
    in UTC or in the parsed offset. *)
Definition Parse (value : string) : ParseError + Time :=
  match parse_loop rfc3339_chunks value pstate_init with
  | inl (le, ve, msg) => inl (mkParseError RFC3339 value le ve msg)
  | inr (st, rest) =>
      let month := if (p_month st <? 0)%Z then 1%Z else p_month st in
      let day := if (p_day st <? 0)%Z then 1%Z else p_day st in
      if ((day <? 1) || (daysIn month (p_year st) <? day))%Z then
        inl (mkParseError RFC3339 value "" rest ": day out of range")
      else inr (mkTime (p_year st) month day (p_hour st) (p_min st) (p_sec st) (p_nsec st)
                       (default 0%Z (p_zone st)))
  end.

(** [parseStrictRFC3339(b)]: the fast path, else [Parse]; the strict
    checks after [Parse] are disabled ([case true: return t, nil]). *)
Definition parseStrictRFC3339 (s : string) : ParseError + Time :=
  match parseRFC3339 s with
  | Some t => inr t
  | None => Parse s
  end.

(** ** [Time.UnmarshalJSON]

    The method receives the raw bytes of the JSON value: [null] leaves the
    time unchanged, anything that is not a quoted string is an error, and
    the bytes between the quotes are parsed as they are (escape sequences
    are not decoded).  On a parse error the receiver is set to the zero
    time. *)

Definition ErrNotJSONString : GoErr :=
  mkGoErr "Time.UnmarshalJSON: input is not a JSON string".

Definition last_char (s : string) : option ascii :=
  String.get (String.length s - 1) s.

Definition UnmarshalJSON (data : string) (t : Time) : Time * option GoErr :=
  if decide (data = "null") then (t, None)
  else if (String.length data <? 2)%nat || negb (char_at data 0 quote_char)
          || negb (bool_decide (last_char data = Some quote_char)) then
    (t, Some ErrNotJSONString)
  else
    let inner := go_slice data 1 (String.length data - 1) in
    match parseStrictRFC3339 inner with
    | inr t' => (t', None)
    | inl e => (zeroTime, Some (mkGoErr (parse_error_msg e)))
    end.

(** ** The times [Parse] returns *)

(** [valid_time] with the wider zone offsets [Parse] accepts: up to
    [24:60], that is 90000 seconds, either way. *)
Definition parsed_time (t : Time) : Prop :=
  (0 <= year t <= 9999)%Z /\ (1 <= month t <= 12)%Z /\
  (1 <= day t <= daysIn (month t) (year t))%Z /\
  (0 <= hour t <= 23)%Z /\ (0 <= minute t <= 59)%Z /\ (0 <= second t <= 59)%Z /\
  (0 <= nsec t < 1000000000)%Z /\ (- 90000 <= offset t <= 90000)%Z.

(** What the loop keeps of its local variables: each field within the
    range its case checks, month and day still [-1] when not parsed yet
    (the day is checked against its month after the loop). *)
Definition pstate_ok (st : PState) : Prop :=
  (0 <= p_year st <= 9999)%Z /\ (p_month st = -1 \/ 1 <= p_month st <= 12)%Z /\
  (-1 <= p_day st <= 99)%Z /\ (0 <= p_hour st <= 23)%Z /\ (0 <= p_min st <= 59)%Z /\
  (0 <= p_sec st <= 59)%Z /\ (0 <= p_nsec st < 1000000000)%Z /\
  (forall z, p_zone st = Some z -> (- 90000 <= z <= 90000)%Z).

Lemma valid_parsed_time t : valid_time t -> parsed_time t.
Proof. unfold valid_time, parsed_time. intuition lia. Qed.

Ltac digit_bounds :=
  repeat match goal with H : is_digit _ = true |- _ => apply digit_val_bounds in H end.

Lemma getnum_bounds s fixed n s' : getnum s fixed = Some (n, s') -> (0 <= n <= 99)%Z.
Proof. unfold getnum. repeat case_match; intros; simplify_eq; digit_bounds; lia. Qed.

Lemma zone_fields_bounds h m hr mm e :
  zone_fields h m = (hr, mm, e) -> (0 <= hr <= 99)%Z /\ (0 <= mm <= 99)%Z.
Proof.
  unfold zone_fields. repeat case_match; intros; simplify_eq;
    repeat match goal with H : getnum _ _ = Some _ |- _ => apply getnum_bounds in H end; lia.
Qed.

Lemma secFrac_bounds v ns v' : secFrac v = (ns, v') -> (0 <= ns < 1000000000)%Z.
Proof.
  unfold secFrac. case_match; intros [= <- _]; [apply parseNanoseconds_bounds | lia].
Qed.

Lemma digits4_bound s y : digits_value (go_slice s 0 4) = Some y -> (0 <= y <= 9999)%Z.
Proof.
  intros H. apply digits_value_bound in H.
  pose proof (substring_length_le 0 (4 - 0) s) as Hl.
  assert (10 ^ Z.of_nat (String.length (go_slice s 0 4)) <= 10 ^ 4)%Z
    by (apply Z.pow_le_mono_r; unfold go_slice; lia).
  lia.
Qed.

#[local] Hint Resolve getnum_bounds secFrac_bounds digits4_bound : relay.

(** A case of the loop that neither fails nor reports a range error
    keeps the invariant. *)
Lemma parse_std_ok sd value st st' v' :
  pstate_ok st -> parse_std sd value st = (st', v', "", false) -> pstate_ok st'.
Proof.
  unfold pstate_ok. intros (Hy & Hmo & Hd & Hh & Hmi & Hs & Hns & Hz).
  destruct sd; cbn; repeat case_match; intros; simplify_eq; cbn;
    rewrite ?orb_false_iff, ?Z.leb_gt, ?Z.ltb_ge in *;
    repeat match goal with
           | H : getnum _ _ = Some _ |- _ => apply getnum_bounds in H
           | H : secFrac _ = _ |- _ => apply secFrac_bounds in H
           | H : digits_value _ = Some _ |- _ => apply digits4_bound in H
           | H : zone_fields _ _ = _ |- _ => apply zone_fields_bounds in H
           end;
    split_and!; intros; simplify_eq; try lia; eauto.
Qed.

Lemma parse_loop_ok chunks value st st' rest :
  pstate_ok st -> parse_loop chunks value st = inr (st', rest) -> pstate_ok st'.
Proof.
  revert value st. induction chunks as [|[[prefix sd] stdstr] chunks IH]; cbn; intros value st Hst.
  - case_decide; intros; simplify_eq; done.
  - destruct (skip value prefix) as [value1 []]; cbn; [|done].
    destruct (parse_std sd value1 st) as [[[st1 value2] rerr] err] eqn:Hp.
    case_bool_decide; cbn; [|done]. destruct err; [done|]. subst rerr.
    apply IH. by eapply parse_std_ok.
Qed.

(** Every time [Parse] returns is a [parsed_time]. *)
Lemma Parse_parsed_time s t : Parse s = inr t -> parsed_time t.
Proof.
  unfold Parse. destruct (parse_loop _ _ _) as [[[le ve] msg]|[st rest]] eqn:Hl; [done|].
  assert (Hok : pstate_ok st) by (eapply parse_loop_ok; [|exact Hl]; unfold pstate_ok; cbn; split_and!; intros; simplify_eq; lia).
  destruct Hok as (Hy & Hmo & Hd & Hh & Hmi & Hs & Hns & Hz).
  case_match eqn:E; [done|]. intros [= <-]. rewrite orb_false_iff, Z.ltb_ge, Z.ltb_ge in E.
  unfold parsed_time; cbn.
  split_and!; try lia; try (destruct (p_month st <? 0)%Z eqn:?; lia).
  all: try (destruct (p_zone st) eqn:?; cbn; [by apply Hz|lia]).
Qed.

(** ** The fuel of [quote] and [skip] is enough

    Each round of [quote_loop] consumes at least one byte and each round
    of [skip_loop] at least one byte of the prefix, so with fuel at least
    that length the result does not depend on the fuel. *)

Lemma quote_loop_fuel f1 f2 s :
  (String.length s <= f1)%nat -> (String.length s <= f2)%nat -> quote_loop f1 s = quote_loop f2 s.
Proof.
  revert f2 s. induction f1 as [|f IH]; intros f2 s H1 H2.
  - destruct s; [|cbn in H1; lia]. by destruct f2.
  - destruct s as [|c s']; [by destruct f2|].
    destruct f2 as [|g]; [cbn in H2; lia|].
    cbn [quote_loop]. repeat case_match;
      match goal with |- context [quote_loop f ?X] => rewrite (IH g X); [reflexivity| |] end;
      try match goal with H : DecodeRune _ = (_, _) |- _ => apply DecodeRune_size in H; [|done] end;
      rewrite ?drop_length; cbn in *; lia.
Qed.

Lemma cutspace_length s : (String.length (cutspace s) <= String.length s)%nat.
Proof. induction s as [|c s IH]; cbn; [lia|]. case_match; cbn; lia. Qed.

Lemma skip_loop_fuel f1 f2 value prefix :
  (String.length prefix <= f1)%nat -> (String.length prefix <= f2)%nat ->
  skip_loop f1 value prefix = skip_loop f2 value prefix.
Proof.
  revert f2 value prefix. induction f1 as [|f IH]; intros f2 value prefix H1 H2.
  - destruct prefix; [|cbn in H1; lia]. by destruct f2.
  - destruct prefix as [|p prefix']; [by destruct f2|].
    destruct f2 as [|g]; [cbn in H2; lia|].
    pose proof (cutspace_length prefix').
    cbn [skip_loop]. repeat case_match; try reflexivity; apply IH; cbn in *; lia.
Qed.

(** ** The fast path agrees with [Parse]

    Whatever [parseRFC3339] accepts, [Parse] accepts with the same time.
    The proof runs the loop of [Parse] chunk by chunk on the nineteen
    fixed bytes, then on the fraction and the zone. *)

Lemma parseUint2 a b lo hi x :
  parseUint (String a (String b "")) lo hi = Some x ->
  is_digit a = true /\ is_digit b = true /\ x = (digit_val a * 10 + digit_val b)%Z /\ (lo <= x <= hi)%Z.
Proof.
  unfold parseUint, digits_value. cbn.
  destruct (is_digit a), (is_digit b); cbn; try done.
  case_match eqn:E; [|done]. intros [= <-]. apply andb_true_iff in E as [E1 E2]. lia.
Qed.

Ltac bool_facts :=
  repeat match goal with
  | H : negb _ = false |- _ => apply negb_false_iff in H
  | H : (_ && _) = true |- _ => apply andb_true_iff in H as [? ?]
  | H : (_ || _) = true |- _ => apply orb_true_iff in H as [?|?]
  | H : bool_decide _ = true |- _ => apply bool_decide_eq_true in H; subst
  | H : parseUint (String _ (String _ "")) _ _ = Some _ |- _ =>
      apply parseUint2 in H as (? & ? & -> & ?)
  end.

Lemma parseZone_parse_std r off st :
  parseZone r = Some off -> parse_std stdISO8601ColonTZ r st = (set_zone st off, "", "", false).
Proof.
  unfold parseZone. case_decide as Hz; [intros [= <-]; by subst r|].
  destruct (negb _) eqn:Hl; [done|]. apply negb_false_iff, Nat.eqb_eq in Hl.
  do 6 (destruct r as [|? r]; [done|]). destruct r; [|done].
  cbn -[parseUint].
  destruct (parseUint _ 0 23) eqn:Hh; cbn; [|done].
  destruct (parseUint _ 0 59) eqn:Hm; cbn; [|done].
  destruct (negb _) eqn:Hc; [done|]. intros [= <-]. bool_facts.
  all: unfold zone_fields, getnum; cbn; repeat match goal with H : is_digit _ = true |- _ => rewrite H; clear H end; cbn.
  all: rewrite ?bool_decide_eq_true_2 by done; vm_compute JsonScan.is_char; cbn iota.
  all: repeat match goal with |- context [(?a <? ?b)%Z] => destruct (Z.ltb_spec a b); [lia|] end.
  all: done.
Qed.

Lemma is_char_eq c n : JsonScan.is_char c n = true -> c = ascii_of_nat n.
Proof. unfold JsonScan.is_char. intros H%bool_decide_eq_true. by rewrite <- H, ascii_nat_embedding. Qed.

Lemma parseZone_comma r : parseZone (String "," r) = None.
Proof.
  unfold parseZone. rewrite decide_False by done.
  destruct (negb _); [done|].
  destruct (parseUint _ 0 23); cbn; [|done]. destruct (parseUint _ 0 59); cbn; done.
Qed.

Lemma secFrac_parseFrac r ns r' off :
  parseFrac r = (ns, r') -> parseZone r' = Some off -> secFrac r = (ns, r').
Proof.
  unfold secFrac, parseFrac. destruct r as [|c r]; [done|].
  unfold char_at, commaOrPeriod; cbn [String.get].
  destruct (bool_decide (c = "."%char)) eqn:Hc.
  - apply bool_decide_eq_true in Hc as ->. done.
  - rewrite andb_false_r. cbn [andb]. intros [= <- <-] Hz.
    destruct (_ && _) eqn:E; [|done].
    apply andb_true_iff in E as [[_ E]%andb_true_iff _].
    apply orb_true_iff in E as [E%is_char_eq|E%is_char_eq]; subst c; [done|].
    by rewrite parseZone_comma in Hz.
Qed.

Lemma parseUint_digits s lo hi x :
  parseUint s lo hi = Some x -> digits_value s = Some x /\ (lo <= x <= hi)%Z.
Proof.
  unfold parseUint. destruct (digits_value s); [|intros [=]].
  case_match eqn:E; [|intros [=]]. intros [= <-]. apply andb_true_iff in E as [E1 E2]. split; [done|lia].
Qed.

Ltac zcase :=
  repeat match goal with
  | |- context [(?a <? ?b)%Z] => destruct (Z.ltb_spec a b); try lia
  | |- context [(?a <=? ?b)%Z] => destruct (Z.leb_spec a b); try lia
  end.

Lemma parse_loop_step prefix sd stdstr rest value value1 st st' value2 :
  skip value prefix = (value1, true) ->
  parse_std sd value1 st = (st', value2, "", false) ->
  parse_loop ((prefix, sd, stdstr) :: rest) value st = parse_loop rest value2 st'.
Proof. intros Hs Hp. cbn. rewrite Hs, Hp. done. Qed.

Lemma getnum_2 a b r fixed :
  is_digit a = true -> is_digit b = true ->
  getnum (String a (String b r)) fixed = Some ((digit_val a * 10 + digit_val b)%Z, r).
Proof. intros Ha Hb. cbn. by rewrite Ha, Hb. Qed.

Section Fields.
Context (a b : ascii) (r : string) (st : PState).
Context (Ha : is_digit a = true) (Hb : is_digit b = true).

Lemma parse_std_year c d y :
  is_digit c = true -> digits_value (String c (String d (String a (String b "")))) = Some y ->
  parse_std stdLongYear (String c (String d (String a (String b r)))) st = (set_year st y, r, "", false).
Proof using.
  intros Hc Hy. cbn -[digits_value]. rewrite Hc. cbn -[digits_value].
  by rewrite substring_zero, Hy, Nat.sub_0_r, substring_full.
Qed.

Lemma parse_std_month : (1 <= digit_val a * 10 + digit_val b <= 12)%Z ->
  parse_std stdZeroMonth (String a (String b r)) st
  = (set_month st (digit_val a * 10 + digit_val b), r, "", false).
Proof using Ha Hb. intros. cbn -[getnum]. rewrite getnum_2 by done. zcase. done. Qed.

Lemma parse_std_day :
  parse_std stdZeroDay (String a (String b r)) st
  = (set_day st (digit_val a * 10 + digit_val b), r, "", false).
Proof using Ha Hb. cbn -[getnum]. by rewrite getnum_2. Qed.

Lemma parse_std_hour : (0 <= digit_val a * 10 + digit_val b <= 23)%Z ->
  parse_std stdHour (String a (String b r)) st
  = (set_hour st (digit_val a * 10 + digit_val b), r, "", false).
Proof using Ha Hb. intros. cbn -[getnum]. rewrite getnum_2 by done. zcase. done. Qed.

Lemma parse_std_minute : (0 <= digit_val a * 10 + digit_val b <= 59)%Z ->
  parse_std stdZeroMinute (String a (String b r)) st
  = (set_min st (digit_val a * 10 + digit_val b), r, "", false).
Proof using Ha Hb. intros. cbn -[getnum]. rewrite getnum_2 by done. zcase. done. Qed.

Lemma parse_std_second ns r' : (0 <= digit_val a * 10 + digit_val b <= 59)%Z -> secFrac r = (ns, r') ->
  parse_std stdZeroSecond (String a (String b r)) st
  = (set_sec st (digit_val a * 10 + digit_val b) ns, r', "", false).
Proof using Ha Hb. intros ? Hs. cbn -[getnum secFrac]. rewrite getnum_2 by done. zcase. by rewrite Hs. Qed.
End Fields.

#[local] Hint Resolve parse_std_year parse_std_month parse_std_day parse_std_hour
  parse_std_minute parse_std_second parseZone_parse_std : relay.

Ltac peel H :=
  match type of H with
  | mbind _ ?m = _ =>
      let E := fresh "E" in
      destruct m eqn:E; cbn -[parseUint parseFrac parseZone] in H; [|discriminate H]
  end.

Lemma parseRFC3339_Parse s t : parseRFC3339 s = Some t -> Parse s = inr t.
Proof.
  intros H.
  do 19 (destruct s as [|? s]; [cbn in H; discriminate|]).
  unfold parseRFC3339 in H. cbn -[parseUint parseFrac parseZone] in H.
  rewrite substring_zero, Nat.sub_0_r, substring_full in H.
  do 6 peel H.
  destruct (negb _) eqn:Hsep; cbn -[parseUint parseFrac parseZone] in H; [discriminate|].
  destruct (parseFrac s) as [ns r] eqn:Hf.
  peel H. injection H as <-.
  match goal with H : parseUint (String _ (String _ (String _ _))) _ _ = _ |- _ =>
    apply parseUint_digits in H as [Hy Hyb] end.
  bool_facts.
  assert (is_digit a = true) by (cbn in Hy; destruct (is_digit a); done).
  pose proof (secFrac_parseFrac _ _ _ _ Hf E5) as Hs.
  pose proof (parseZone_parse_std r z5) as Hzs.
  unfold Parse, rfc3339_chunks.
  do 7 (erewrite parse_loop_step by (reflexivity || eauto with relay)).
  cbn [parse_loop]. rewrite decide_True by done. cbn. zcase. done.
Qed.

Lemma parseStrictRFC3339_parsed_time s t : parseStrictRFC3339 s = inr t -> parsed_time t.
Proof.
  unfold parseStrictRFC3339. destruct (parseRFC3339 s) eqn:E; intros H; simplify_eq;
    eauto using valid_parsed_time, parseRFC3339_valid, Parse_parsed_time.
Qed.

(** [parseStrictRFC3339], the fast path with [time.Parse] as its
    fallback, is [time.Parse(time.RFC3339, s)] on every input: the fast
    path is an optimisation that never changes the result. *)
Theorem parseStrictRFC3339_Parse s : parseStrictRFC3339 s = Parse s.
Proof.
  unfold parseStrictRFC3339. destruct (parseRFC3339 s) as [t|] eqn:E; [|done].
  symmetry. by apply parseRFC3339_Parse.
Qed.

(** [Time.UnmarshalJSON] on a quoted text parses the text inside. *)
Lemma UnmarshalJSON_quoted s t0 :
  UnmarshalJSON (quoted s) t0 =
    match parseStrictRFC3339 s with
    | inr t => (t, None)
    | inl e => (zeroTime, Some (mkGoErr (parse_error_msg e)))
    end.
Proof.
  unfold UnmarshalJSON.
  rewrite decide_False by (intros H; injection H; intros; discriminate).
  rewrite quoted_length. cbn [Nat.ltb Nat.leb Nat.sub].
  replace (char_at (quoted s) 0 quote_char) with true
    by (unfold char_at; cbn; by rewrite bool_decide_eq_true_2).
  unfold last_char. rewrite quoted_length. cbn [Nat.sub]. rewrite ?Nat.sub_0_r, quoted_last, quoted_inner.
  by rewrite bool_decide_eq_true_2.
Qed.

(** A successful [UnmarshalJSON] leaves the zero time or a parsed time. *)
Lemma UnmarshalJSON_parsed raw t t' :
  (t = zeroTime \/ parsed_time t) -> UnmarshalJSON raw t = (t', None) ->
  t' = zeroTime \/ parsed_time t'.
Proof.
  intros Ht. unfold UnmarshalJSON.
  case_decide; [congruence|]. case_match; [congruence|].
  destruct (parseStrictRFC3339 _) as [e|t0] eqn:Hp; [congruence|].
  intros [= <-]. right. by eapply parseStrictRFC3339_parsed_time.
Qed.

End TimeParse.
