(* ===== verification/Decode.v ===== *)
(** * Decode: [json.NewDecoder(r.Body).Decode(&count)] into a
    [types.RelayCount]

    [Decode body] is what [CreateCount] gets from its decoder: either the
    decoded record or the error whose message the handler sends back.  It
    composes [readValue] (syntax errors, [EOF], [unexpected EOF]) with
    [decodeState.unmarshal] on the value that was cut off.  For the struct,
    encoding/json matches each member's unquoted key to a field (exactly or
    case-insensitively, [foldName]), ignores unknown keys, lets a later
    duplicate overwrite an earlier one, ignores [null] for the string and
    integer fields, saves the first [UnmarshalTypeError] and goes on, and
    aborts on an error returned by [Time.UnmarshalJSON].  Integers go
    through [strconv.ParseInt(s, 10, 64)]: a fraction, an exponent or a value
    outside the int64 range is a type error.  A [null] body decodes to the
    zero record without error. *)

From S2P Require Import Prelude Time Driver Utf8 JsonScan JsonValue TimeParse.

Module Decode.
Import Time Driver Utf8 JsonScan JsonValue TimeParse.

Inductive DecodeErr :=
| DSyntax (e : ReadErr)
| DType (value : string) (field : option string) (typ : string)  (** [*UnmarshalTypeError] *)
| DHard (e : GoErr).           (** an error returned by an [Unmarshaler] *)

(** [err.Error()] *)
Definition decode_err_msg (e : DecodeErr) : string :=
  match e with
  | DSyntax r => read_err_msg r
  | DType v (Some f) t =>
      "json: cannot unmarshal " +:+ v +:+ " into Go struct field RelayCount." +:+ f
      +:+ " of type " +:+ t
  | DType v None t => "json: cannot unmarshal " +:+ v +:+ " into Go value of type " +:+ t
  | DHard g => err_msg g
  end.

Definition DecodeError (e : DecodeErr) : GoErr := mkGoErr (decode_err_msg e).

(** ** Fields of [types.RelayCount] and their JSON names *)
Inductive Field := FAppPublicKey | FDay | FSuccess | FError.

Definition field_name (f : Field) : string :=
  match f with
  | FAppPublicKey => "appPublicKey"
  | FDay => "day"
  | FSuccess => "success"
  | FError => "error"
  end.

Definition ascii_upper (c : ascii) : ascii :=
  if ((97 <=? byte_val c) && (byte_val c <=? 122))%Z
  then ascii_of_nat (nat_of_ascii c - 32) else c.

Definition upper (s : string) : string := string_of_list_ascii (map ascii_upper (list_ascii_of_string s)).

(** [foldName(key)] as far as it can equal the folding of an ASCII name:
    ASCII letters are upper-cased, KELVIN SIGN folds to K and LATIN SMALL
    LETTER LONG S to S (the only non-ASCII runes whose fold set contains an
    ASCII letter); any other non-ASCII rune folds outside ASCII, which
    [None] records. *)
Fixpoint fold_ascii (fuel : nat) (s : string) : option string :=
  match fuel, s with
  | _, EmptyString => Some EmptyString
  | O, _ => None
  | S f, String c s' =>
      if (byte_val c <? 128)%Z then rest ← fold_ascii f s'; Some (String (ascii_upper c) rest)
      else
        let '(r, size) := DecodeRune s in
        if (r =? 8490)%Z then rest ← fold_ascii f (drop size s); Some (String "K" rest)
        else if (r =? 383)%Z then rest ← fold_ascii f (drop size s); Some (String "S" rest)
        else None
  end.

Definition fields : list Field := [FAppPublicKey; FDay; FSuccess; FError].

(** The field a decoded key selects. *)
Definition field_of_key (key : string) : option Field :=
  match list_find (fun f => field_name f = key) fields with
  | Some (_, f) => Some f
  | None =>
      match fold_ascii (String.length key) key with
      | Some k => snd <$> list_find (fun f => upper (field_name f) = k) fields
      | None => None
      end
  end.

(** the range check of [ParseInt] for [bitSize = 64] *)
Definition int64_check (n : Z) : option Z :=
  if ((- 2 ^ 63 <=? n) && (n <=? 2 ^ 63 - 1))%Z then Some n else None.

(** [strconv.ParseInt(s, 10, 64)] on a JSON number literal. *)
Definition parse_int64 (s : string) : option Z :=
  let '(neg, ds) := match s with
                    | String c r => if is_char c 45 then (true, r) else (false, s)
                    | EmptyString => (false, s)
                    end in
  if decide (ds = "") then None
  else
    v ← digits_value ds;
    int64_check (if neg then (- v)%Z else v).

(** The name of a JSON value's kind in an [UnmarshalTypeError]. *)
Definition kind_name (v : jvalue) : string :=
  match v with
  | JNull => "null" | JBool _ => "bool" | JNum _ => "number" | JStr _ => "string"
  | JArr _ => "array" | JObj _ => "object"
  end.

Definition phasePanic : GoErr := mkGoErr "JSON decoder out of sync - data changing underfoot?".

(** The state of one [Unmarshal] call: the record being filled and the
    saved error. *)
Record DState := mkDState { rec : RelayCount; saved : option DecodeErr }.

Definition save (e : DecodeErr) (d : DState) : DState :=
  match saved d with Some _ => d | None => mkDState (rec d) (Some e) end.

Definition set_rec (r : RelayCount) (d : DState) : DState := mkDState r (saved d).

Definition type_err (v : jvalue) (f : Field) (t : string) : DecodeErr :=
  DType (kind_name v) (Some (field_name f)) t.

(** [d.value(subv)] for one member whose value is [v] with raw text [raw]
    and whose key selected field [f]; [inl] is an aborting error. *)
Definition store_field (f : Field) (raw : string) (v : jvalue) (d : DState)
    : DecodeErr + DState :=
  let r := rec d in
  match f with
  | FAppPublicKey =>
      match v with
      | JNull => inr d
      | JStr q =>
          match unquote q with
          | Some s => inr (set_rec (mkRelayCount s (Day r) (Success r) (Error r)) d)
          | None => inl (DHard phasePanic)
          end
      | _ => inr (save (type_err v f "string") d)
      end
  | FDay =>
      let '(t, err) := TimeParse.UnmarshalJSON raw (Day r) in
      match err with
      | Some e => inl (DHard e)
      | None => inr (set_rec (mkRelayCount (AppPublicKey r) t (Success r) (Error r)) d)
      end
  | FSuccess | FError =>
      match v with
      | JNull => inr d
      | JNum lit =>
          match parse_int64 lit with
          | Some n =>
              inr (set_rec (if f is FSuccess then mkRelayCount (AppPublicKey r) (Day r) n (Error r)
                            else mkRelayCount (AppPublicKey r) (Day r) (Success r) n) d)
          | None => inr (save (DType ("number " +:+ lit) (Some (field_name f)) "int64") d)
          end
      | _ => inr (save (type_err v f "int64") d)
      end
  end.

(** [d.object(v)] for the struct: the members in order. *)
Fixpoint store_members (ms : list (string * string * jvalue)) (d : DState)
    : DecodeErr + DState :=
  match ms with
  | [] => inr d
  | (key, raw, v) :: ms' =>
      match unquote key with
      | None => inl (DHard phasePanic)
      | Some k =>
          match field_of_key k with
          | None => store_members ms' d
          | Some f =>
              match store_field f raw v d with
              | inl e => inl e
              | inr d' => store_members ms' d'
              end
          end
      end
  end.

(** [d.unmarshal(&count)] on a decoded value, starting from [count]. *)
Definition unmarshal (v : jvalue) (count : RelayCount) : DecodeErr + RelayCount :=
  let d0 := mkDState count None in
  let res := match v with
             | JObj ms => store_members ms d0
             | JNull => inr d0
             | _ => inr (save (DType (kind_name v) None "types.RelayCount") d0)
             end in
  match res with
  | inl e => inl e
  | inr d => match saved d with Some e => inl e | None => inr (rec d) end
  end.

(** [json.NewDecoder(body).Decode(&count)] with [var count types.RelayCount]. *)
Definition Decode (body : string) : DecodeErr + RelayCount :=
  match readValue body with
  | inl e => inl (DSyntax e)
  | inr n =>
      match value_of (go_slice body 0 n) with
      | Some (v, _) => unmarshal v zeroRelayCount
      | None => inl (DHard phasePanic)
      end
  end.

(** ** The fuel of [foldName] is enough *)

Lemma fold_ascii_fuel f1 f2 s :
  (String.length s <= f1)%nat -> (String.length s <= f2)%nat -> fold_ascii f1 s = fold_ascii f2 s.
Proof.
  revert f2 s. induction f1 as [|f IH]; intros f2 s H1 H2.
  - destruct s; [|cbn in H1; lia]. by destruct f2.
  - destruct s as [|c s']; [by destruct f2|].
    destruct f2 as [|g]; [cbn in H2; lia|].
    cbn [fold_ascii].
    try match goal with |- context [DecodeRune ?x] =>
      destruct (DecodeRune x) as [r n] eqn:Hd; apply DecodeRune_size in Hd as ?; [|done] end.
    repeat match goal with
           | |- context [fold_ascii f ?X] =>
               rewrite (IH g X) by (rewrite ?drop_length; cbn in *; lia)
           end.
    reflexivity.
Qed.

(** ** The decoded record is a well-formed [types.RelayCount] *)

Definition int64_range (n : Z) : Prop := (- 2 ^ 63 <= n <= 2 ^ 63 - 1)%Z.

(** The type invariant of a decoded record: both counters are int64
    values and the day is either the zero time (absent or [null]) or a
    time [time.Parse] can return: a valid civil time with a zone offset
    of at most [24:60]. *)
Definition decoded_ok (c : RelayCount) : Prop :=
  int64_range (Success c) /\ int64_range (Error c) /\
  (Day c = zeroTime \/ parsed_time (Day c)).

Lemma int64_check_range m n : int64_check m = Some n -> int64_range n.
Proof.
  unfold int64_check, int64_range. case_match eqn:E; [|done].
  intros [= <-]. apply andb_true_iff in E as [E1 E2]. lia.
Qed.

Lemma parse_int64_range s n : parse_int64 s = Some n -> int64_range n.
Proof.
  unfold parse_int64. repeat case_match; cbn; try discriminate.
  all: destruct (digits_value _); cbn; [apply int64_check_range | discriminate].
Qed.

Lemma store_field_ok f raw v d d' :
  decoded_ok (rec d) -> store_field f raw v d = inr d' -> decoded_ok (rec d').
Proof.
  destruct d as [[k dy sc er] sv]. unfold decoded_ok.
  intros (Hs & He & Hd) H. unfold store_field, save, set_rec in H. cbn in H.
  repeat case_match; simplify_eq; cbn; split_and!;
    eauto using UnmarshalJSON_parsed, parse_int64_range.
Qed.

Lemma store_members_ok ms d d' :
  decoded_ok (rec d) -> store_members ms d = inr d' -> decoded_ok (rec d').
Proof.
  revert d. induction ms as [|[[key raw] v] ms IH]; cbn; intros d Hd H.
  - by injection H as <-.
  - destruct (unquote key); [|done]. destruct (field_of_key _); [|by eapply IH].
    destruct (store_field _ _ _ _) eqn:E; [done|].
    eapply IH; [eapply store_field_ok|]; eauto.
Qed.

(** C10: every record that [Decode] returns is well formed: its counters
    are within the int64 range (larger literals are rejected by
    [ParseInt]) and its day is the zero time or a valid civil time
    whose zone offset is at most [24:60] either way. *)
Theorem Decode_ok body c : Decode body = inr c -> decoded_ok c.
Proof.
  unfold Decode. destruct (readValue body) as [|n]; [done|].
  destruct (value_of _) as [[v rest]|]; [|done].
  unfold unmarshal.
  assert (Hz : decoded_ok zeroRelayCount).
  { unfold decoded_ok, int64_range; cbn. split_and!; try lia. by left. }
  destruct (match v with JObj ms => _ | _ => _ end) as [e|d] eqn:Hres; [done|].
  destruct (saved d); [done|]. intros [= <-].
  destruct v; try (injection Hres as <-; by (unfold save; cbn)).
  exact (store_members_ok _ (mkDState zeroRelayCount None) d Hz Hres).
Qed.

(** The fuel of the decoder is enough.  [Decode] computes the value
    of the text [readValue] cut off with [2 * length + 2] fuel; with any
    fuel above [2 * length body + 1] the result is the same, so [Decode]
    never fails for want of fuel and its [phasePanic] is only the
    disagreement of the two passes that Go panics on. *)
Lemma Decode_fuel body f :
  (2 * String.length body + 1 <= f)%nat ->
  Decode body =
  match readValue body with
  | inl e => inl (DSyntax e)
  | inr n =>
      match parse_value f (skip_ws (go_slice body 0 n)) with
      | Some (v, _) => unmarshal v zeroRelayCount
      | None => inl (DHard phasePanic)
      end
  end.
Proof.
  intros Hf. unfold Decode. destruct (readValue body) as [e|n]; [done|].
  rewrite value_of_fuel; [done|].
  pose proof (go_slice_length_le body 0 n). lia.
Qed.

End Decode.
