(* ===== verification/Marshal.v ===== *)
(** * Marshal: the client's encoding of a record

    Clients of [POST /v0/count] send [json.Marshal(count)] for a
    [types.RelayCount], as [router_test.go] does.  This file models that
    encoder:
    - [strconv.AppendInt] for the two int64 counters ([formatInt]);
    - [appendString] for the key (in [JsonValue]);
    - [Time.MarshalJSON] for the day.  It writes [appendFormatRFC3339]
      with nanoseconds, and refuses a year outside [0, 9999] or a zone
      hour of 24 or more;
    - [encode_fields], the struct encoder: the fields in declaration
      order under their JSON names.
    It also proves the inverse lemmas of the parts: [ParseInt] reads back
    what [FormatInt] writes and [parseRFC3339] what [appendFormatRFC3339]
    writes, for every valid time up to the seconds of its zone offset
    ([truncate_zone]).  The
    round trip of the whole record is in [RoundTrip]. *)

From S2P Require Import Prelude Time Driver Utf8 JsonScan JsonValue Decode.

Module Marshal.
Import Time Driver JsonScan JsonValue Decode.

(** ** The encoder *)

(** The decimal digits of [0 <= n < 10 ^ fuel], most significant first,
    as [strconv.AppendInt(b, n, 10)] writes them. *)
Fixpoint utoa (fuel : nat) (n : Z) : string :=
  match fuel with
  | O => EmptyString
  | S f =>
      if (n <? 10)%Z then String (digit_char n) EmptyString
      else utoa f (n / 10) +:+ String (digit_char (n mod 10)) EmptyString
  end.

(** [strconv.FormatInt(n, 10)] on an int64: 19 digits are enough for
    [|n| <= 2 ^ 63]. *)
Definition formatInt (n : Z) : string :=
  if (n <? 0)%Z then "-" +:+ utoa 19 (- n) else utoa 19 n.

(** time's [appendInt(b, x, width)] for [0 <= x < 10 ^ width]: exactly
    [width] digits, zero-padded.  A time that [MarshalJSON] accepts meets
    no other case. *)
Fixpoint appendInt (x : Z) (width : nat) : string :=
  match width with
  | O => EmptyString
  | S w => appendInt (x / 10) w +:+ String (digit_char (x mod 10)) EmptyString
  end.

(** The digits of a string with its trailing zeros removed. *)
Fixpoint trim_zeros (s : string) : string :=
  match s with
  | EmptyString => EmptyString
  | String c s' =>
      let t := trim_zeros s' in
      if bool_decide (t = EmptyString) && is_char c 48 then EmptyString else String c t
  end.

(** [appendNano(b, nanosec, stdFracSecond9)]: nothing for zero, else a
    dot and the nine digits without their trailing zeros. *)
Definition appendNano (ns : Z) : string :=
  if (ns =? 0)%Z then EmptyString else "." +:+ trim_zeros (appendInt ns 9).

(** The zone of [appendFormatRFC3339]: [Z] for offset 0, otherwise the
    sign and [hh:mm] of [offset / 60] minutes (Go's division truncates). *)
Definition appendZone (off : Z) : string :=
  if (off =? 0)%Z then "Z"
  else
    let zone := Z.quot off 60 in
    let '(sign, z) := if (zone <? 0)%Z then ("-", (- zone)%Z) else ("+", zone) in
    sign +:+ appendInt (z / 60) 2 +:+ ":" +:+ appendInt (z mod 60) 2.

(** [t.appendFormatRFC3339(b, true)] *)
Definition formatRFC3339Nano (t : Time) : string :=
  appendInt (year t) 4 +:+ "-" +:+ appendInt (month t) 2 +:+ "-" +:+ appendInt (day t) 2
  +:+ "T" +:+ appendInt (hour t) 2 +:+ ":" +:+ appendInt (minute t) 2
  +:+ ":" +:+ appendInt (second t) 2 +:+ appendNano (nsec t) +:+ appendZone (offset t).

(** [t.MarshalJSON()]: [None] is the error of [appendStrictRFC3339]
    (a year outside [0, 9999], a zone hour outside [0, 23]). *)
Definition MarshalJSON (t : Time) : option string :=
  if ((0 <=? year t) && (year t <=? 9999) && (Z.abs (Z.quot (offset t) 60) / 60 <? 24))%Z
  then Some (quoted (formatRFC3339Nano t))
  else None.

(** [structEncoder.encode] for a [types.RelayCount] whose fields are
    already encoded: the fields in declaration order under their JSON
    names. *)
Definition encode_fields (key day success error : string) : string :=
  "{" +:+ quoted "appPublicKey" +:+ ":" +:+ key
  +:+ "," +:+ quoted "day" +:+ ":" +:+ day
  +:+ "," +:+ quoted "success" +:+ ":" +:+ success
  +:+ "," +:+ quoted "error" +:+ ":" +:+ error +:+ "}".

(** [json.Marshal(count)] for a [types.RelayCount]: the string with HTML
    escaping, the counters in decimal, the day by its [MarshalJSON], whose
    error is the error of [Marshal]. *)
Definition marshalRelayCount (c : RelayCount) : option string :=
  d ← MarshalJSON (Day c);
  Some (encode_fields (appendString (AppPublicKey c)) d (formatInt (Success c)) (formatInt (Error c))).

(** ** Digit strings *)

Fixpoint all_digits (s : string) : bool :=
  match s with
  | EmptyString => true
  | String c s' => is_digit c && all_digits s'
  end.

Lemma all_digits_app a b : all_digits (a +:+ b) = all_digits a && all_digits b.
Proof. induction a as [|c a IH]; [done|]. rewrite string_app_cons. cbn. by rewrite IH, andb_assoc. Qed.

Lemma digit_char_digit d : (0 <= d <= 9)%Z -> all_digits (String (digit_char d) EmptyString) = true.
Proof. intros Hd. cbn. by rewrite is_digit_digit_char. Qed.

Lemma appendInt_length x w : String.length (appendInt x w) = w.
Proof.
  revert x. induction w as [|w IH]; intros x; [done|]. cbn [appendInt].
  rewrite string_length_app, IH. cbn. lia.
Qed.

Lemma appendInt_digits x w : all_digits (appendInt x w) = true.
Proof.
  revert x. induction w as [|w IH]; intros x; [done|]. cbn [appendInt].
  rewrite all_digits_app, IH, digit_char_digit; [done|]. pose proof (Z.mod_pos_bound x 10). lia.
Qed.

Lemma appendInt_value x w : (0 <= x < 10 ^ Z.of_nat w)%Z -> digits_value (appendInt x w) = Some x.
Proof.
  revert x. induction w as [|w IH]; intros x Hx.
  - cbn in Hx. assert (x = 0)%Z as -> by lia. done.
  - cbn [appendInt]. unfold digits_value in *. rewrite digits_value_from_app.
    rewrite (IH (x / 10)%Z).
    + cbn. rewrite is_digit_digit_char, digit_val_digit_char by (pose proof (Z.mod_pos_bound x 10); lia).
      f_equal. pose proof (Z.div_mod x 10). lia.
    + rewrite Nat2Z.inj_succ, Z.pow_succ_r in Hx by lia. split; [apply Z.div_pos; lia|].
      apply Z.div_lt_upper_bound; lia.
Qed.

(** [utoa] of a positive number starts with a digit 1 to 9. *)
Lemma utoa_pos k n : (1 <= n < 10 ^ Z.of_nat k)%Z ->
  exists c r, utoa k n = String c r /\ (49 <= byte_val c <= 57)%Z /\ all_digits r = true.
Proof.
  revert n. induction k as [|k IH]; intros n Hn; [cbn in Hn; lia|]. cbn [utoa].
  destruct (n <? 10)%Z eqn:E.
  - exists (digit_char n), EmptyString. rewrite byte_val_digit_char by lia. split_and!; [done|lia..|done].
  - rewrite Nat2Z.inj_succ, Z.pow_succ_r in Hn by lia.
    destruct (IH (n / 10)%Z) as (c & r & Hu & Hc & Hr).
    { split; [apply Z.div_le_lower_bound; lia | apply Z.div_lt_upper_bound; lia]. }
    exists c, (r +:+ String (digit_char (n mod 10)) EmptyString). rewrite Hu, string_app_cons.
    split_and!; [done | lia | lia |]. rewrite all_digits_app, Hr, digit_char_digit; [done|].
    pose proof (Z.mod_pos_bound n 10). lia.
Qed.

Lemma utoa_value k n : (0 <= n < 10 ^ Z.of_nat k)%Z -> (1 <= k)%nat -> digits_value (utoa k n) = Some n.
Proof.
  revert n. induction k as [|k IH]; intros n Hn Hk; [lia|]. cbn [utoa].
  destruct (n <? 10)%Z eqn:E.
  - cbn. rewrite is_digit_digit_char, digit_val_digit_char by lia. done.
  - rewrite Nat2Z.inj_succ, Z.pow_succ_r in Hn by lia.
    unfold digits_value in *. rewrite digits_value_from_app.
    assert (1 <= k)%nat by (destruct k; [cbn in Hn; lia | lia]).
    rewrite (IH (n / 10)%Z); [| split; [apply Z.div_pos; lia | apply Z.div_lt_upper_bound; lia] | done].
    cbn. rewrite is_digit_digit_char, digit_val_digit_char by (pose proof (Z.mod_pos_bound n 10); lia).
    f_equal. pose proof (Z.div_mod n 10). lia.
Qed.

Lemma int64_bound n : int64_range n -> (Z.abs n < 10 ^ Z.of_nat 19)%Z.
Proof. unfold int64_range. cbn. lia. Qed.

(** [ParseInt] on the digits of a natural number: the int64 range check. *)
Lemma parse_int64_utoa k v : (0 <= v < 10 ^ Z.of_nat k)%Z -> (1 <= k)%nat ->
  parse_int64 (utoa k v) = int64_check v.
Proof.
  intros Hv Hk. unfold parse_int64. destruct (Z.eq_dec v 0%Z) as [->|Hn].
  - destruct k; [lia|]. reflexivity.
  - destruct (utoa_pos k v) as (c & r & Hu & Hc & _); [lia|]. rewrite Hu.
    assert (is_char c 45 = false) as ->.
    { unfold is_char. apply bool_decide_eq_false_2. unfold byte_val in Hc. lia. }
    rewrite decide_False by discriminate. rewrite <- Hu, utoa_value by done. reflexivity.
Qed.

Lemma int64_check_range_eq n : int64_range n -> int64_check n = Some n.
Proof.
  intros [H1 H2]. unfold int64_check. by rewrite (proj2 (Z.leb_le _ _)), (proj2 (Z.leb_le _ _)) by lia.
Qed.

(** [ParseInt] reads back what [FormatInt] writes. *)
Lemma parse_int64_formatInt n : int64_range n -> parse_int64 (formatInt n) = Some n.
Proof.
  intros Hr. pose proof (int64_bound n Hr) as Hb. unfold formatInt.
  destruct (n <? 0)%Z eqn:E.
  - unfold parse_int64. rewrite string_app_cons, string_app_nil_l. cbn -[utoa].
    replace (is_char "-" 45) with true by reflexivity. cbn iota beta. rewrite decide_False.
    2:{ destruct (utoa_pos 19 (- n)) as (c & r & -> & _); [lia | discriminate]. }
    rewrite utoa_value by lia. cbn -[Z.pow]. replace (- - n)%Z with n by lia.
    by apply int64_check_range_eq.
  - rewrite parse_int64_utoa by lia. by apply int64_check_range_eq.
Qed.

(** ** The day: [parseRFC3339] reads back what [appendFormatRFC3339] writes *)

Ltac len_tac := rewrite ?string_length_app, ?appendInt_length; cbn; lia.

(** Slices and bytes of a concatenation, down to its parts. *)
Ltac slice_tac :=
  repeat first
    [ rewrite go_slice_app_r by len_tac
    | rewrite go_slice_app_l by len_tac
    | rewrite get_app_r by len_tac
    | rewrite get_app_l by len_tac ];
  rewrite ?appendInt_length; cbn [String.length Nat.sub].

Fixpoint zeros (k : nat) : string :=
  match k with O => EmptyString | S k => String "0"%char (zeros k) end.

Lemma is_char_0 c : is_char c 48 = true -> c = "0"%char.
Proof.
  unfold is_char. intros H%bool_decide_eq_true_1.
  rewrite <- (ascii_nat_embedding c), H. reflexivity.
Qed.

Lemma trim_zeros_spec s :
  s = trim_zeros s +:+ zeros (String.length s - String.length (trim_zeros s)) /\
  (String.length (trim_zeros s) <= String.length s)%nat.
Proof.
  induction s as [|c s [IH Hl]]; [done|]. cbn [trim_zeros].
  destruct (bool_decide (trim_zeros s = "") && is_char c 48) eqn:E.
  - apply andb_true_iff in E as [E1 E2]. apply bool_decide_eq_true in E1. apply is_char_0 in E2.
    subst c. rewrite E1 in IH. rewrite string_app_nil_l in IH |- *. cbn [String.length] in IH |- *.
    rewrite Nat.sub_0_r in IH |- *. split; [|lia]. cbn [zeros]. by rewrite IH at 1.
  - rewrite string_app_cons. cbn [String.length]. split; [|lia]. by rewrite IH at 1.
Qed.

Lemma digits_zeros v k : digits_value_from v (zeros k) = Some (v * 10 ^ Z.of_nat k)%Z.
Proof.
  revert v. induction k as [|k IH]; intros v; cbn -[Z.pow Z.of_nat]; [f_equal; lia|].
  rewrite IH. f_equal. unfold digit_val, byte_val.
  change (Z.of_nat (nat_of_ascii "0") - 48)%Z with 0%Z.
  rewrite Nat2Z.inj_succ, Z.pow_succ_r by lia. ring.
Qed.

(** The nine digits of a non-zero nanosecond count without their
    trailing zeros: at least one digit, and their value scaled back is
    the count. *)
Lemma trim_appendInt ns T : (0 < ns < 10 ^ 9)%Z -> T = trim_zeros (appendInt ns 9) ->
  T <> "" /\ all_digits T = true /\ (String.length T <= 9)%nat /\
  exists v, digits_value T = Some v /\ (v * 10 ^ Z.of_nat (9 - String.length T))%Z = ns.
Proof.
  intros Hns HTe. destruct (trim_zeros_spec (appendInt ns 9)) as [Hd Hl].
  rewrite <- HTe in Hd, Hl. rewrite appendInt_length in Hd, Hl.
  pose proof (appendInt_digits ns 9) as Ha. pose proof (appendInt_value ns 9) as Hv.
  rewrite Hd in Ha, Hv. rewrite all_digits_app in Ha. apply andb_true_iff in Ha as [HT _].
  unfold digits_value in Hv. specialize (Hv ltac:(cbn; lia)). rewrite digits_value_from_app in Hv.
  destruct (digits_value_from 0 T) as [v|] eqn:E; cbn in Hv; [|done].
  rewrite digits_zeros in Hv. injection Hv as Hv'.
  split_and!; [| done | done | exists v; split; [done | lia]].
  intros HT0. rewrite HT0 in E. cbn in E. injection E as <-. lia.
Qed.

Lemma count_digits_app T c z :
  all_digits T = true -> is_digit c = false -> count_digits (T +:+ String c z) = String.length T.
Proof.
  induction T as [|d T IH]; intros HT Hc.
  - rewrite string_app_nil_l. cbn. by rewrite Hc.
  - rewrite string_app_cons. cbn in HT |- *. apply andb_true_iff in HT as [Hd HT].
    rewrite Hd. by rewrite IH.
Qed.

Lemma parseFrac_format ns c z :
  (0 <= ns < 10 ^ 9)%Z -> is_digit c = false -> c <> "."%char ->
  parseFrac (appendNano ns +:+ String c z) = (ns, String c z).
Proof.
  intros Hns Hc Hdot. unfold parseFrac, appendNano.
  destruct (ns =? 0)%Z eqn:E0.
  - apply Z.eqb_eq in E0 as ->. rewrite string_app_nil_l. unfold char_at. cbn -[String.length].
    rewrite bool_decide_eq_false_2 by done. by rewrite andb_false_r.
  - apply Z.eqb_neq in E0.
    destruct (trim_appendInt ns _ ltac:(lia) eq_refl) as (Hne & HT & Hl & v & Hv & Hval).
    revert Hne HT Hl Hv Hval. generalize (trim_zeros (appendInt ns 9)). intros T Hne HT Hl Hv Hval.
    assert (Hcond : ((2 <=? String.length (("." +:+ T) +:+ String c z))%nat
                     && char_at (("." +:+ T) +:+ String c z) 0 "."
                     && isDigitAt (("." +:+ T) +:+ String c z) 1) = true).
    { rewrite string_app_assoc. destruct T as [|d T']; [done|].
      cbn in HT. apply andb_true_iff in HT as [Hd _].
      rewrite string_app_cons, string_app_nil_l, string_app_cons.
      unfold char_at, isDigitAt. cbn [String.get String.length]. rewrite Hd, bool_decide_eq_true_2 by done.
      done. }
    rewrite Hcond. cbv zeta.
    assert (H1 : go_slice (("." +:+ T) +:+ String c z) 1 (String.length (("." +:+ T) +:+ String c z))
                 = T +:+ String c z).
    { rewrite string_app_assoc. exact (go_slice_suffix "." (T +:+ String c z)). }
    rewrite H1. rewrite count_digits_app by done.
    assert (H2 : go_slice (("." +:+ T) +:+ String c z) (S (String.length T))
                   (String.length (("." +:+ T) +:+ String c z)) = String c z).
    { exact (go_slice_suffix ("." +:+ T) (String c z)). }
    rewrite H2. f_equal. unfold parseNanoseconds. rewrite Nat.min_l by lia.
    assert (H3 : go_slice (("." +:+ T) +:+ String c z) 1 (S (String.length T)) = T).
    { rewrite string_app_assoc, go_slice_app_r by (cbn; lia). cbn [String.length Nat.sub].
      rewrite go_slice_app_l by lia. apply go_slice_full. lia. }
    rewrite H3, Hv. cbn [default]. rewrite <- Hval. reflexivity.
Qed.

Lemma parseUint_appendInt x w lo hi :
  (lo <= x <= hi)%Z -> (0 <= x < 10 ^ Z.of_nat w)%Z -> parseUint (appendInt x w) lo hi = Some x.
Proof.
  intros H1 H2. unfold parseUint. rewrite appendInt_value by done.
  by rewrite (proj2 (Z.leb_le _ _)), (proj2 (Z.leb_le _ _)) by lia.
Qed.

Lemma parseZone_hhmm (neg : bool) z : (0 <= z < 1440)%Z ->
  parseZone ((if neg then "-" else "+") +:+ appendInt (z / 60) 2 +:+ ":" +:+ appendInt (z mod 60) 2)
  = Some (if neg then (- (z * 60))%Z else (z * 60)%Z).
Proof.
  intros Hz. unfold parseZone.
  set (s := (if neg then "-" else "+") +:+ appendInt (z / 60) 2 +:+ ":" +:+ appendInt (z mod 60) 2).
  assert (Hlen : String.length s = 6%nat) by (unfold s; destruct neg; len_tac).
  rewrite decide_False by (intros Hs; rewrite Hs in Hlen; discriminate).
  rewrite Hlen. cbn [Nat.eqb negb].
  assert (E1 : go_slice s 1 3 = appendInt (z / 60) 2).
  { unfold s. destruct neg; slice_tac; apply go_slice_full; len_tac. }
  assert (E2 : go_slice s 4 6 = appendInt (z mod 60) 2).
  { unfold s. destruct neg; slice_tac; apply go_slice_full; len_tac. }
  assert (Hd : (0 <= z / 60 < 24)%Z) by (split; [apply Z.div_pos | apply Z.div_lt_upper_bound]; lia).
  pose proof (Z.mod_pos_bound z 60). pose proof (Z.div_mod z 60).
  rewrite E1, E2, !parseUint_appendInt by (cbn; lia).
  assert (C : char_at s 0 "-" = neg /\ char_at s 0 "+" = negb neg /\ char_at s 3 ":" = true).
  { unfold char_at, s. destruct neg; slice_tac; cbn; split_and!; reflexivity. }
  destruct C as (-> & -> & ->). destruct neg; cbn; f_equal; lia.
Qed.

Lemma appendZone_head off :
  exists c z, appendZone off = String c z /\ is_digit c = false /\ c <> "."%char.
Proof.
  unfold appendZone. destruct (off =? 0)%Z; [by exists "Z"%char, ""|].
  destruct (Z.quot off 60 <? 0)%Z; rewrite string_app_cons, string_app_nil_l; eexists _, _; by split.
Qed.

(** [parseZone] reads back the zone of an offset of less than a day as
    the whole minutes [appendZone] wrote: the seconds of the offset are
    lost. *)
Lemma parseZone_format off :
  (- 86400 < off < 86400)%Z -> parseZone (appendZone off) = Some (60 * Z.quot off 60)%Z.
Proof.
  intros Hb. unfold appendZone. destruct (off =? 0)%Z eqn:E0.
  - apply Z.eqb_eq in E0 as ->. reflexivity.
  - assert (Hq : (Z.abs (Z.quot off 60) < 1440)%Z).
    { rewrite <- (Z.quot_abs off 60) by lia. change (Z.abs 60) with 60%Z.
      rewrite Z.quot_div_nonneg by lia. apply Z.div_lt_upper_bound; lia. }
    destruct (Z.quot off 60 <? 0)%Z eqn:Es; cbv zeta.
    + rewrite (parseZone_hhmm true) by lia. f_equal. lia.
    + rewrite (parseZone_hhmm false) by lia. f_equal. lia.
Qed.

(** The time [time.Parse] reads from the text [appendFormatRFC3339]
    writes: the zone offset truncated to whole minutes. *)
Definition truncate_zone (t : Time) : Time :=
  mkTime (year t) (month t) (day t) (hour t) (minute t) (second t) (nsec t)
         (60 * Z.quot (offset t) 60).

Lemma truncate_zone_id t : (offset t mod 60 = 0)%Z -> truncate_zone t = t.
Proof.
  intros H60. destruct t as [y mo d h mi sc ns off]. unfold truncate_zone. cbn in *. f_equal.
  pose proof (Z.quot_rem' off 60). rewrite (proj2 (Z.rem_mod_eq_0 off 60 ltac:(lia)) H60) in *. lia.
Qed.

(** [parseRFC3339] reads back what [appendFormatRFC3339] writes, for
    every valid time, up to the seconds of its zone offset. *)
Lemma parseRFC3339_format_trunc t :
  valid_time t -> parseRFC3339 (formatRFC3339Nano t) = Some (truncate_zone t).
Proof.
  intros (Hy & Hmo & Hd & Hh & Hmi & Hs & Hns & Ho).
  assert (Hdm : (daysIn (month t) (year t) <= 31)%Z) by (unfold daysIn; repeat case_match; lia).
  destruct (appendZone_head (offset t)) as (zc & zr & Hz & Hzc & Hzd).
  unfold parseRFC3339, formatRFC3339Nano. rewrite Hz.
  set (s := appendInt (year t) 4 +:+ _).
  assert (Hlen : (19 <= String.length s)%nat) by (unfold s; len_tac).
  rewrite (proj2 (Nat.ltb_ge _ _) Hlen).
  assert (Es : go_slice s 0 4 = appendInt (year t) 4 /\ go_slice s 5 7 = appendInt (month t) 2 /\
               go_slice s 8 10 = appendInt (day t) 2 /\ go_slice s 11 13 = appendInt (hour t) 2 /\
               go_slice s 14 16 = appendInt (minute t) 2 /\ go_slice s 17 19 = appendInt (second t) 2 /\
               go_slice s 19 (String.length s) = appendNano (nsec t) +:+ String zc zr).
  { unfold s. split_and!; slice_tac; apply go_slice_full; len_tac. }
  destruct Es as (-> & -> & -> & -> & -> & -> & ->).
  assert (Ec : char_at s 4 "-" && char_at s 7 "-" && char_at s 10 "T" && char_at s 13 ":"
               && char_at s 16 ":" = true).
  { unfold char_at, s. slice_tac. reflexivity. }
  rewrite Ec. rewrite !parseUint_appendInt by (cbn; lia). cbn [mbind option_bind negb].
  rewrite parseFrac_format by (done || cbn; lia). rewrite <- Hz, parseZone_format by done.
  rewrite parseUint_appendInt by (cbn; lia). by destruct t.
Qed.

Lemma parseRFC3339_format t :
  valid_time t -> (offset t mod 60 = 0)%Z -> parseRFC3339 (formatRFC3339Nano t) = Some t.
Proof. intros Ht H60. by rewrite parseRFC3339_format_trunc, truncate_zone_id. Qed.

End Marshal.
