(* ===== verification/RoundTrip.v ===== *)
(** * RoundTrip: [Decode] reads back what [json.Marshal] writes

    A client of [POST /v0/count] (as in [router_test.go]) sends
    [json.Marshal(count)]; [CreateCount] decodes it with
    [json.NewDecoder(r.Body).Decode(&count)].  This file follows the text
    that [Marshal.marshalRelayCount] writes through every stage of the
    decoder: the scanner of [readValue] runs over it without error and
    stops at its last byte, [parse_value] cuts it into the four members,
    [unquote] gives the key back from its HTML-escaped form (coerced to
    UTF-8), [ParseInt] the counters and [parseRFC3339] the day (its zone
    in whole minutes).  The text after the object is never read.  The lemmas are stated per
    word of the text: a byte escape [esc b], a run of plain string bytes,
    a decimal integer, so that the proof of the round trip is a walk over
    the members. *)

From S2P Require Import Prelude Time Driver Utf8 JsonScan JsonValue TimeParse Decode Marshal.

Module RoundTrip.
Import Time Driver JsonScan JsonValue TimeParse Decode Marshal.

(** ** Keys: [unquote] inverts [appendString] on ASCII text *)

(** Bytes below 128: [appendString] escapes them one by one. *)
Fixpoint ascii_only (s : string) : bool :=
  match s with
  | EmptyString => true
  | String c s' => (byte_val c <? 128)%Z && ascii_only s'
  end.

(** [is_char] as a comparison of byte values. *)
Lemma is_char_byte c n : is_char c n = (byte_val c =? Z.of_nat n)%Z.
Proof.
  unfold is_char, byte_val. destruct (Z.eqb_spec (Z.of_nat (nat_of_ascii c)) (Z.of_nat n)).
  - apply bool_decide_eq_true_2. lia.
  - apply bool_decide_eq_false_2. lia.
Qed.

(** The escape [appendString] writes for one byte. *)
Definition esc (b : ascii) : string := escape_loop 1 (String b EmptyString).

(** Replace [esc b] for a concrete byte by its text. *)
Ltac eval_esc :=
  match goal with |- context [esc ?b] =>
    let e := eval vm_compute in (esc b) in change (esc b) with e end.

Lemma escape_loop_cons b k s : (byte_val b <? 128)%Z = true ->
  escape_loop (S k) (String b s) = esc b +:+ escape_loop k s.
Proof. intros Hb. destruct b as [[] [] [] [] [] [] [] []]; try discriminate Hb; reflexivity. Qed.

Lemma unquote_esc b f rest : (byte_val b <? 128)%Z = true ->
  unquote_loop (S f) (esc b +:+ rest) = r ← unquote_loop f rest; Some (String b r).
Proof.
  intros Hb. destruct b as [[] [] [] [] [] [] [] []]; try discriminate Hb;
    first [reflexivity | idtac].
  all: eval_esc; rewrite !string_app_cons, string_app_nil_l; simpl; unfold drop; simpl;
    rewrite Nat.sub_0_r, substring_full;
    match goal with |- context [Utf8.EncodeRune ?x] =>
      let e := eval vm_compute in (Utf8.EncodeRune x) in change (Utf8.EncodeRune x) with e end;
    destruct (unquote_loop f rest); simpl; rewrite ?string_app_cons, ?string_app_nil_l; reflexivity.
Qed.

(** ** Keys that are not valid UTF-8

    [appendString] coerces its input to valid UTF-8: a byte that starts no
    UTF-8 sequence ([lead_class] is [None]: [80]-[c1] and [f5]-[ff]) is
    written as the escape [\ufffd], which [unquote] reads as the three
    bytes of U+FFFD. *)

Definition key_byte (b : ascii) : bool :=
  (byte_val b <? 128)%Z || match Utf8.lead_class (byte_val b) with None => true | Some _ => false end.

Fixpoint key_bytes (s : string) : bool :=
  match s with EmptyString => true | String c s' => key_byte c && key_bytes s' end.

(** The escape of a key byte, and what [unquote] makes of it. *)
Definition key_esc (b : ascii) : string :=
  if (byte_val b <? 128)%Z then esc b else "\ufffd".

Definition coerce_byte (b : ascii) : string :=
  if (byte_val b <? 128)%Z then String b EmptyString else Utf8.EncodeRune Utf8.RuneError.

Fixpoint coerce_utf8 (s : string) : string :=
  match s with EmptyString => EmptyString | String c s' => coerce_byte c +:+ coerce_utf8 s' end.

Lemma ascii_key_bytes s : ascii_only s = true -> key_bytes s = true.
Proof. induction s as [|c s IH]; [done|]. cbn. unfold key_byte. intros [-> ?]%andb_prop. auto. Qed.

Lemma coerce_utf8_ascii s : ascii_only s = true -> coerce_utf8 s = s.
Proof.
  induction s as [|c s IH]; [done|]. cbn. intros [Hc ?]%andb_prop.
  unfold coerce_byte. rewrite Hc, IH by done. reflexivity.
Qed.

Lemma DecodeRune_bad b s : (128 <= byte_val b)%Z -> Utf8.lead_class (byte_val b) = None ->
  Utf8.DecodeRune (String b s) = (Utf8.RuneError, 1%nat).
Proof. intros H1 H2. unfold Utf8.DecodeRune. rewrite (proj2 (Z.ltb_ge _ _) H1), H2. reflexivity. Qed.

(** The byte class of a key byte that is not ASCII. *)
Lemma key_byte_bad b : key_byte b = true -> (byte_val b <? 128)%Z = false ->
  (128 <= byte_val b)%Z /\ Utf8.lead_class (byte_val b) = None.
Proof.
  unfold key_byte. intros Hk Ha. rewrite Ha in Hk. cbn in Hk.
  split; [by apply Z.ltb_ge | by destruct (Utf8.lead_class _)].
Qed.

Lemma escape_loop_key b k s : key_byte b = true ->
  escape_loop (S k) (String b s) = key_esc b +:+ escape_loop k s.
Proof.
  intros Hk. unfold key_esc. destruct (byte_val b <? 128)%Z eqn:Ha; [by apply escape_loop_cons|].
  destruct (key_byte_bad b Hk Ha) as [H1 H2].
  cbn [escape_loop]. rewrite Ha, DecodeRune_bad by done. cbn. by rewrite Nat.sub_0_r, substring_full.
Qed.

Lemma unquote_fffd f rest :
  unquote_loop (S f) ("\ufffd" +:+ rest) = r ← unquote_loop f rest; Some (Utf8.EncodeRune Utf8.RuneError +:+ r).
Proof.
  rewrite !string_app_cons, string_app_nil_l. cbn. unfold drop. cbn.
  rewrite Nat.sub_0_r, substring_full. reflexivity.
Qed.

Lemma unquote_key_esc b f rest : key_byte b = true ->
  unquote_loop (S f) (key_esc b +:+ rest) = r ← unquote_loop f rest; Some (coerce_byte b +:+ r).
Proof.
  intros Hk. unfold key_esc, coerce_byte. destruct (byte_val b <? 128)%Z eqn:Ha.
  - by rewrite unquote_esc.
  - apply unquote_fffd.
Qed.

Lemma key_esc_nonempty b : (1 <= String.length (key_esc b))%nat.
Proof.
  unfold key_esc. destruct (byte_val b <? 128)%Z eqn:Ha; [|cbn; lia].
  destruct b as [[] [] [] [] [] [] [] []]; try discriminate Ha; vm_compute; lia.
Qed.

Lemma escape_loop_length s k : key_bytes s = true -> (String.length s <= k)%nat ->
  (String.length s <= String.length (escape_loop k s))%nat.
Proof.
  revert k. induction s as [|b s IH]; intros k Ha Hk; [cbn; lia|].
  cbn [String.length key_bytes] in Ha, Hk |- *. destruct k as [|k]; [lia|].
  apply andb_prop in Ha as [Hb Ha]. rewrite escape_loop_key, string_length_app by done.
  pose proof (key_esc_nonempty b). specialize (IH k Ha ltac:(lia)). lia.
Qed.

Lemma unquote_escape_loop s k f : key_bytes s = true -> (String.length s <= k)%nat ->
  (String.length s <= f)%nat -> unquote_loop f (escape_loop k s) = Some (coerce_utf8 s).
Proof.
  revert k f. induction s as [|b s IH]; intros k f Ha Hk Hf.
  - destruct k, f; reflexivity.
  - destruct k as [|k], f as [|f]; cbn in Hk, Hf; try lia. cbn in Ha. apply andb_prop in Ha as [Hb Ha].
    rewrite escape_loop_key, unquote_key_esc by done. rewrite IH by (done || lia). reflexivity.
Qed.

Lemma is_char_quote : is_char quote_char 34 = true.
Proof. by rewrite is_char_byte. Qed.

Lemma unquote_quoted e : unquote (quoted e) = unquote_loop (String.length e) e.
Proof.
  unfold unquote, char_is. rewrite quoted_length. cbn [Nat.ltb Nat.leb Nat.sub].
  rewrite ?Nat.sub_0_r, quoted_last, quoted_inner. cbn [String.get quoted]. by rewrite is_char_quote.
Qed.

Lemma unquote_appendString s : key_bytes s = true -> unquote (appendString s) = Some (coerce_utf8 s).
Proof.
  intros Ha. unfold appendString. rewrite unquote_quoted.
  apply unquote_escape_loop; [done | lia | by apply escape_loop_length].
Qed.

(** ** The scanner over a run of bytes *)

(** The op codes after which [readValue] goes on to the next byte. *)
Definition plain_op (op : scanOp) : bool :=
  match op with scanEnd | scanEndObject | scanEndArray | scanError => false | _ => true end.

(** The scanner after the bytes of [w], when each of them gives a plain op
    code; [None] as soon as one does not. *)
Fixpoint scan_run (sc : scanner) (w : string) : option scanner :=
  match w with
  | EmptyString => Some sc
  | String c w' => let '(sc', op) := scan_step sc c in if plain_op op then scan_run sc' w' else None
  end.

Lemma scan_run_app sc a b : scan_run sc (a +:+ b) = sc' ← scan_run sc a; scan_run sc' b.
Proof.
  revert sc. induction a as [|c a IH]; intros sc; [done|].
  rewrite string_app_cons. cbn. destruct (scan_step sc c) as [sc' op]. by destruct (plain_op op).
Qed.

Lemma scan_bytes_run buf sc sc' w r n : scan_run sc w = Some sc' ->
  scan_bytes buf sc (w +:+ r) n = scan_bytes buf sc' r (n + String.length w).
Proof.
  revert sc n. induction w as [|c w IH]; intros sc n H.
  - injection H as <-. cbn. by rewrite Nat.add_0_r.
  - rewrite string_app_cons. cbn in H |- *. destruct (scan_step sc c) as [sc1 op].
    destruct op; try discriminate H; rewrite IH by done; f_equal; lia.
Qed.

(** Inside a string literal: [ps] and [e] are the parse stack and the
    error, which a string literal leaves as they are. *)
Definition in_string (ps : list parseState) (e : option string) : scanner :=
  mkScanner stateInString ps e.

(** A string byte that needs no escape. *)
Definition str_char (c : ascii) : bool :=
  negb (is_char c 34) && negb (is_char c 92) && (32 <=? byte_val c)%Z.

Fixpoint str_plain (s : string) : bool :=
  match s with EmptyString => true | String c s' => str_char c && str_plain s' end.

(** A word of a string literal's body: the scanner stays in
    [stateInString] over it, and [rescanLiteral] ([string_span]) takes it
    whole. *)
Definition str_word (w : string) : Prop :=
  (forall ps e, scan_run (in_string ps e) w = Some (in_string ps e)) /\
  (forall r, string_span (w +:+ r) = '(body, rest) ← string_span r; Some (w +:+ body, rest)).

Lemma str_word_app a b : str_word a -> str_word b -> str_word (a +:+ b).
Proof.
  intros [Sa Pa] [Sb Pb]. split.
  - intros ps e. rewrite scan_run_app, Sa. apply Sb.
  - intros r. rewrite string_app_assoc, Pa, Pb.
    destruct (string_span r) as [[body rest]|]; cbn; by rewrite ?string_app_assoc.
Qed.

Lemma str_word_esc b : (byte_val b <? 128)%Z = true -> str_word (esc b).
Proof.
  intros Hb. split; intros; destruct b as [[] [] [] [] [] [] [] []]; try discriminate Hb;
    first [reflexivity | idtac].
  (* [\u00XX]: four nested spans *)
  all: eval_esc; rewrite !string_app_cons, string_app_nil_l; cbn;
    destruct (string_span r) as [[]|]; reflexivity.
Qed.

Lemma str_word_char c : str_char c = true -> str_word (String c EmptyString).
Proof.
  unfold str_char. rewrite !andb_true_iff, !negb_true_iff. intros [[H1 H2] H3]. split.
  - intros ps e. cbn -[byte_val is_char]. rewrite H1, H2.
    apply Z.leb_le in H3. by rewrite (proj2 (Z.ltb_ge _ _) H3).
  - intros r. rewrite string_app_cons, string_app_nil_l. cbn -[is_char]. rewrite H1, H2. by destruct (string_span r) as [[]|].
Qed.

#[local] Hint Resolve str_word_app str_word_esc str_word_char : relay.

Lemma str_word_nil : str_word EmptyString.
Proof. split; [done|]. intros r. rewrite string_app_nil_l. by destruct (string_span r) as [[]|]. Qed.

Lemma str_word_plain w : str_plain w = true -> str_word w.
Proof.
  induction w as [|c w IH]; intros H; [apply str_word_nil|].
  cbn in H. apply andb_prop in H as [Hc Hw].
  change (String c w) with (String c EmptyString +:+ w). auto with relay.
Qed.

Lemma str_word_fffd : str_word "\ufffd".
Proof.
  split; [done|]. intros r. rewrite !string_app_cons, string_app_nil_l. cbn.
  destruct (string_span r) as [[]|]; reflexivity.
Qed.

Lemma str_word_key_esc b : str_word (key_esc b).
Proof.
  unfold key_esc. destruct (byte_val b <? 128)%Z eqn:Ha; [by apply str_word_esc | apply str_word_fffd].
Qed.

Lemma str_word_escape_loop s k : key_bytes s = true -> (String.length s <= k)%nat ->
  str_word (escape_loop k s).
Proof.
  revert k. induction s as [|b s IH]; intros k Ha Hk; [destruct k; apply str_word_nil|].
  cbn [String.length key_bytes] in Ha, Hk. destruct k as [|k]; [lia|].
  apply andb_prop in Ha as [Hb Ha]. rewrite escape_loop_key by done.
  apply str_word_app; [apply str_word_key_esc | apply IH; [done | lia]].
Qed.

(** ** Strings: the scanner and [parse_value] over a quoted word *)

Lemma scan_quoted w ps e : str_word w ->
  scan_run (mkScanner stateBeginValue ps e) (quoted w) = Some (mkScanner stateEndValue ps e).
Proof.
  intros [Sw _]. unfold quoted. cbn [scan_run]. change (scan_step _ quote_char) with
    (in_string ps e, scanBeginLiteral). cbn [plain_op].
  rewrite scan_run_app, Sw. reflexivity.
Qed.

Lemma parse_value_quoted w f r : str_word w ->
  parse_value (S f) (quoted w +:+ r) = Some (JStr (quoted w), r).
Proof.
  intros [_ Pw]. unfold quoted. rewrite string_app_cons, string_app_assoc. cbn -[string_span].
  rewrite Pw. reflexivity.
Qed.

Lemma consumed_app a r : consumed (a +:+ r) r = a.
Proof.
  unfold consumed. rewrite string_length_app, Nat.add_sub.
  rewrite substring_app_within by lia. apply substring_full.
Qed.

(** ** The day: a text of plain bytes *)

Lemma str_plain_app a b : str_plain (a +:+ b) = str_plain a && str_plain b.
Proof. induction a as [|c a IH]; [done|]. rewrite string_app_cons. cbn. by rewrite IH, andb_assoc. Qed.

Lemma all_digits_str_plain s : all_digits s = true -> str_plain s = true.
Proof.
  induction s as [|c s IH]; [done|]. cbn. rewrite !andb_true_iff. intros [Hc Hs]. split; [|auto].
  unfold str_char, is_digit in *. rewrite !is_char_byte. apply andb_true_iff in Hc as [H1 H2].
  rewrite (proj2 (Z.eqb_neq _ _)), (proj2 (Z.eqb_neq _ _)) by lia. cbn. lia.
Qed.

Lemma trim_zeros_digits s : all_digits s = true -> all_digits (trim_zeros s) = true.
Proof.
  intros H. destruct (trim_zeros_spec s) as [Hs _]. rewrite Hs, all_digits_app in H.
  by apply andb_prop in H as [H _].
Qed.

Lemma formatRFC3339Nano_plain t : str_plain (formatRFC3339Nano t) = true.
Proof.
  assert (Hd : forall x w, str_plain (appendInt x w) = true)
    by (intros; apply all_digits_str_plain, appendInt_digits).
  assert (Hn : str_plain (appendNano (nsec t)) = true).
  { unfold appendNano. destruct (nsec t =? 0)%Z; [done|]. rewrite str_plain_app, (all_digits_str_plain (trim_zeros _));
      [done | apply trim_zeros_digits, appendInt_digits]. }
  assert (Hz : str_plain (appendZone (offset t)) = true).
  { unfold appendZone. destruct (offset t =? 0)%Z; [done|].
    destruct (Z.quot (offset t) 60 <? 0)%Z; by rewrite !str_plain_app, !Hd. }
  unfold formatRFC3339Nano. by rewrite !str_plain_app, !Hd, Hn, Hz.
Qed.

(** ** The counters: integer literals under the scanner and [parse_value] *)

Lemma is_char_off c m : byte_val c <> Z.of_nat m -> is_char c m = false.
Proof. intros H. rewrite is_char_byte. by apply Z.eqb_neq. Qed.

(** [is_char c m] is false for every [m] that the bounds known of [c]
    exclude. *)
Ltac chars_off :=
  repeat match goal with |- context [is_char ?c ?m] => rewrite (is_char_off c m) by lia end.

Lemma digit_is_digit c : (48 <= byte_val c <= 57)%Z -> is_digit c = true.
Proof. intros H. unfold is_digit. lia. Qed.

(** The text of a JSON integer as [strconv.FormatInt] writes it: an
    optional minus sign, then [0] alone or a digit [1..9] and digits. *)
Definition int_text (w : string) : Prop :=
  exists (neg : bool) c r, w = (if neg then "-" else "") +:+ String c r /\
    ((c = "0"%char /\ r = "") \/ ((49 <= byte_val c <= 57)%Z /\ all_digits r = true)).

Lemma formatInt_int_text n : int64_range n -> int_text (formatInt n).
Proof.
  intros Hr. pose proof (int64_bound n Hr). unfold formatInt.
  destruct (Z.eqb_spec n 0) as [->|Hn]; [by exists false, "0"%char, ""; split; [|left]|].
  destruct (n <? 0)%Z eqn:E.
  - destruct (utoa_pos 19 (- n)) as (c & r & Hu & Hc & Hd); [lia|].
    exists true, c, r. rewrite Hu. by split; [|right].
  - destruct (utoa_pos 19 n) as (c & r & Hu & Hc & Hd); [lia|].
    exists false, c, r. rewrite Hu. by split; [|right].
Qed.

Lemma int_text_cons w : int_text w ->
  exists h t, w = String h t /\ (h = "-"%char \/ is_digit h = true) /\ all_digits t = true.
Proof.
  intros (neg & c & r & -> & Hcr).
  assert (Hd : is_digit c && all_digits r = true).
  { destruct Hcr as [[-> ->] | [Hc Hr]]; [done|]. by rewrite digit_is_digit by lia. }
  apply andb_prop in Hd as [Hc Hr]. destruct neg.
  - exists "-"%char, (String c r). split_and!; [done | by left | cbn; by rewrite Hc, Hr].
  - exists c, r. split_and!; [done | by right | done].
Qed.

Lemma scan_digits w ps e : all_digits w = true ->
  scan_run (mkScanner state1 ps e) w = Some (mkScanner state1 ps e).
Proof.
  induction w as [|c w IH]; intros H; [done|]. cbn in H. apply andb_prop in H as [Hc Hw].
  cbn. rewrite Hc. auto.
Qed.

(** A first digit [1..9], at the start of a value or after a minus sign. *)
Lemma scan_lead st c r ps e : st = stateBeginValue \/ st = stateNeg ->
  (49 <= byte_val c <= 57)%Z -> all_digits r = true ->
  scan_run (mkScanner st ps e) (String c r) = Some (mkScanner state1 ps e).
Proof.
  intros Hst Hc Hr. cbn [scan_run].
  destruct Hst as [-> | ->]; cbn [scan_step step]; unfold stBeginValue, isSpace; chars_off;
    rewrite digit_is_digit by lia; cbn; by apply scan_digits.
Qed.

Lemma scan_int_text w ps e : int_text w -> exists st,
  scan_run (mkScanner stateBeginValue ps e) w = Some (mkScanner st ps e) /\
  (st = state0 \/ st = state1).
Proof.
  intros (neg & c & r & -> & [[-> ->] | [Hc Hr]]).
  - exists state0. split; [by destruct neg | by left].
  - exists state1. split; [|by right]. destruct neg.
    + rewrite scan_run_app. apply scan_lead; [by right | done..].
    + apply scan_lead; [by left | done..].
Qed.

Lemma number_span_digits w r : all_digits w = true ->
  number_span (w +:+ r) = let '(m, rest) := number_span r in (w +:+ m, rest).
Proof.
  induction w as [|c w IH]; intros H; [rewrite string_app_nil_l; by destruct (number_span r)|].
  cbn in H. apply andb_prop in H as [Hc Hw]. rewrite string_app_cons. cbn.
  unfold is_num_char. rewrite Hc, IH by done. by destruct (number_span r).
Qed.

Lemma parse_value_int_text w f c r : int_text w -> is_num_char c = false ->
  parse_value (S f) (w +:+ String c r) = Some (JNum w, String c r).
Proof.
  intros Hw Hc. destruct (int_text_cons w Hw) as (h & t & -> & Hh & Ht).
  assert (Hn : number_span (String h t +:+ String c r) = (String h t, String c r)).
  { rewrite string_app_cons. cbn [number_span].
    replace (is_num_char h) with true by (destruct Hh as [->|Hh]; [done | unfold is_num_char; by rewrite Hh]).
    rewrite number_span_digits by done. cbn. by rewrite Hc, string_app_nil_r. }
  cbn [parse_value]. rewrite string_app_cons.
  destruct Hh as [->|Hh].
  - rewrite <- string_app_cons, Hn. reflexivity.
  - unfold is_digit in Hh. apply andb_true_iff in Hh as [H1 H2]. chars_off.
    rewrite <- string_app_cons, Hn. reflexivity.
Qed.

(** ** [readValue] over an encoded record *)

(** Peel the first word off the text under the scanner: by computation
    when the word and the scanner are known, by [tac] otherwise. *)
Ltac scan_word tac :=
  lazymatch goal with
  | |- context [scan_bytes ?buf ?sc (?w +:+ ?r) ?n] =>
      erewrite (scan_bytes_run buf sc _ w r n) by (first [reflexivity | tac]);
      cbn [parseStack serr step sc_set scan_reset]
  end.

(** The closing brace of a top-level object ends the value: [readValue]
    reads no byte after it. *)
Lemma scan_bytes_close buf st n r : st = state0 \/ st = state1 ->
  scan_bytes buf (mkScanner st [parseObjectValue] None) ("}" +:+ r) n = inr (S n).
Proof. by intros [-> | ->]. Qed.

Lemma readValue_encode_fields k d s e r :
  str_word k -> str_word d -> int_text s -> int_text e ->
  let body := encode_fields (quoted k) (quoted d) s e in
  readValue (body +:+ r) = inr (String.length body).
Proof.
  intros Hk Hd Hs He body. unfold readValue.
  destruct (scan_int_text s [parseObjectValue] None Hs) as (st1 & Hs1 & Hst1).
  destruct (scan_int_text e [parseObjectValue] None He) as (st2 & He1 & Hst2).
  set (buf := body +:+ r) at 1. unfold body at 1, encode_fields. rewrite !string_app_assoc.
  do 3 scan_word idtac. scan_word ltac:(apply scan_quoted; exact Hk).
  do 3 scan_word idtac. scan_word ltac:(apply scan_quoted; exact Hd).
  do 3 scan_word idtac. scan_word ltac:(exact Hs1).
  destruct Hst1 as [-> | ->]; do 3 scan_word idtac; scan_word ltac:(exact He1);
    rewrite scan_bytes_close by done; f_equal; unfold body, encode_fields;
    rewrite !string_length_app, !quoted_length; cbn; lia.
Qed.

(** ** [parse_value] over an encoded record *)

Lemma quoted_app w r : quoted w +:+ r = String quote_char (w +:+ String quote_char r).
Proof. unfold quoted. by rewrite string_app_cons, string_app_assoc. Qed.

(** One member [key:value] followed by the byte [c]. *)
Lemma parse_members_member f key vtext v c r acc :
  str_word key -> isSpace c = false ->
  skip_ws (vtext +:+ String c r) = vtext +:+ String c r ->
  parse_value f (vtext +:+ String c r) = Some (v, String c r) ->
  parse_members (S f) (quoted key +:+ ":" +:+ vtext +:+ String c r) acc =
    let acc' := acc ++ [(quoted key, vtext, v)] in
    if is_char c 44 then parse_members f (skip_ws r) acc'
    else if is_char c 125 then Some (JObj acc', r) else None.
Proof.
  intros [_ Pk] Hc Hw Hv. rewrite quoted_app. cbn [parse_members].
  rewrite is_char_quote. cbn [negb]. rewrite Pk. cbn. rewrite is_char_quote. cbn.
  rewrite string_app_cons, string_app_nil_l. cbn [skip_ws].
  change (isSpace ":") with false. change (is_char ":" 58) with true. cbn iota beta.
  rewrite Hw, Hv. cbn. rewrite Hc, consumed_app. reflexivity.
Qed.

Lemma char_app (a : ascii) s : String a EmptyString +:+ s = String a s.
Proof. reflexivity. Qed.

Lemma skip_ws_quoted w r : skip_ws (quoted w +:+ r) = quoted w +:+ r.
Proof. by rewrite quoted_app. Qed.

Lemma skip_ws_int_text w r : int_text w -> skip_ws (w +:+ r) = w +:+ r.
Proof.
  intros Hw. destruct (int_text_cons w Hw) as (h & t & -> & [->|Hh] & _); rewrite string_app_cons;
    [reflexivity|]. unfold is_digit in Hh. apply andb_true_iff in Hh as [H1 H2].
  cbn. unfold isSpace. chars_off. reflexivity.
Qed.

(** The members of an encoded record, as [parse_value] cuts them. *)
Definition encoded_members (k d s e : string) : list (string * string * jvalue) :=
  [(quoted "appPublicKey", k, JStr k); (quoted "day", d, JStr d);
   (quoted "success", s, JNum s); (quoted "error", e, JNum e)].

(** One step of [parse_members]: a member and the separator after it. *)
Ltac member_step :=
  erewrite parse_members_member;
  [ cbv zeta; first [change (is_char "," 44) with true | change (is_char "}" 44) with false;
                     change (is_char "}" 125) with true]; cbv iota beta
  | .. ];
  [ idtac
  | first [ apply str_word_plain; reflexivity
          | apply skip_ws_quoted | apply skip_ws_int_text; assumption
          | apply parse_value_quoted; assumption
          | apply parse_value_int_text; [assumption | reflexivity]
          | reflexivity ] .. ].

Lemma value_of_encode_fields k d s e :
  str_word k -> str_word d -> int_text s -> int_text e ->
  value_of (encode_fields (quoted k) (quoted d) s e) =
  Some (JObj (encoded_members (quoted k) (quoted d) s e), EmptyString).
Proof.
  intros Hk Hd Hs He. unfold value_of.
  set (text := encode_fields _ _ _ _).
  assert (Hl : (2 <= String.length text)%nat)
    by (unfold text, encode_fields; rewrite !string_length_app; cbn; lia).
  destruct (2 * String.length text + 2)%nat as [|[|[|[|[|[|f]]]]]] eqn:Hf; [lia..|].
  unfold text, encode_fields. rewrite (char_app "{"), !(char_app ","). cbn [skip_ws].
  change (isSpace "{") with false. cbv iota.
  cbn [parse_value]. change (is_char "{" 123) with true. cbv iota. rewrite skip_ws_quoted, quoted_app.
  change (is_char quote_char 125) with false. cbv iota. rewrite <- quoted_app.
  do 3 (member_step; rewrite skip_ws_quoted). member_step. reflexivity.
Qed.

(** ** [unmarshal] of the members *)

Lemma field_keys :
  unquote (quoted "appPublicKey") = Some "appPublicKey" /\ field_of_key "appPublicKey" = Some FAppPublicKey /\
  unquote (quoted "day") = Some "day" /\ field_of_key "day" = Some FDay /\
  unquote (quoted "success") = Some "success" /\ field_of_key "success" = Some FSuccess /\
  unquote (quoted "error") = Some "error" /\ field_of_key "error" = Some FError.
Proof. split_and!; reflexivity. Qed.

(** The four members of an encoded record, stored in turn: the first
    counter that [ParseInt] refuses is the saved type error. *)
Lemma unmarshal_encoded_members k d s e ve :
  key_bytes k = true -> parse_int64 e = Some ve ->
  unmarshal (JObj (encoded_members (appendString k) (quoted d) s e)) zeroRelayCount
  = match parseStrictRFC3339 d with
    | inl pe => inl (DHard (mkGoErr (parse_error_msg pe)))
    | inr t =>
        match parse_int64 s with
        | Some vs => inr (mkRelayCount (coerce_utf8 k) t vs ve)
        | None => inl (DType ("number " +:+ s) (Some "success") "int64")
        end
    end.
Proof.
  intros Hk He. destruct field_keys as (K1 & F1 & K2 & F2 & K3 & F3 & K4 & F4).
  unfold unmarshal, encoded_members. cbn [store_members].
  rewrite K1, F1. cbn [store_field]. rewrite unquote_appendString by done. cbn.
  rewrite K2, F2. cbn [store_field]. rewrite UnmarshalJSON_quoted.
  destruct (parseStrictRFC3339 d); cbn; [done|].
  rewrite K3, F3. cbn [store_field]. destruct (parse_int64 s); cbn;
    rewrite K4, F4; cbn [store_field]; rewrite He; reflexivity.
Qed.

(** The fast path reads a marshalled day, up to the seconds of its zone. *)
Lemma parseStrictRFC3339_format t : valid_time t ->
  parseStrictRFC3339 (formatRFC3339Nano t) = inr (truncate_zone t).
Proof. intros. unfold parseStrictRFC3339. by rewrite parseRFC3339_format_trunc. Qed.

(** ** The round trip *)

(** [MarshalJSON] accepts every valid time: its year has four digits and
    its zone less than 24 hours. *)
Lemma MarshalJSON_valid t : valid_time t ->
  MarshalJSON t = Some (quoted (formatRFC3339Nano t)).
Proof.
  intros (Hy & _ & _ & _ & _ & _ & _ & Ho). unfold MarshalJSON.
  assert (Hq : (Z.abs (Z.quot (offset t) 60) < 1440)%Z).
  { rewrite <- (Z.quot_abs (offset t) 60) by lia. change (Z.abs 60) with 60%Z.
    rewrite Z.quot_div_nonneg by lia.
    apply Z.div_lt_upper_bound; lia. }
  assert (Hz : (Z.abs (Z.quot (offset t) 60) / 60 < 24)%Z)
    by (apply Z.div_lt_upper_bound; lia).
  rewrite (proj2 (Z.leb_le _ _)), (proj2 (Z.leb_le _ _)), (proj2 (Z.ltb_lt _ _)) by lia.
  reflexivity.
Qed.

(** [Decode] of an encoded record, followed by any text, is [unmarshal]
    of its four members: the text after the closing brace is not read. *)
Lemma Decode_encoded_app k d s e r :
  key_bytes k = true -> str_plain d = true -> int_text s -> int_text e ->
  Decode (encode_fields (appendString k) (quoted d) s e +:+ r)
  = unmarshal (JObj (encoded_members (appendString k) (quoted d) s e)) zeroRelayCount.
Proof.
  intros Hk Hd Hs He.
  assert (Wk : str_word (escape_loop (String.length k) k)) by (apply str_word_escape_loop; auto).
  assert (Wd : str_word d) by by apply str_word_plain.
  unfold Decode, appendString. rewrite readValue_encode_fields by done.
  by rewrite go_slice_app_l, go_slice_full, value_of_encode_fields.
Qed.

Lemma Decode_encoded k d s e :
  key_bytes k = true -> str_plain d = true -> int_text s -> int_text e ->
  Decode (encode_fields (appendString k) (quoted d) s e)
  = unmarshal (JObj (encoded_members (appendString k) (quoted d) s e)) zeroRelayCount.
Proof. rewrite <- (string_app_nil_r (encode_fields _ _ _ _)). apply Decode_encoded_app. Qed.

(** What [Decode] reads from the encoded fields of a record followed by
    any text: the key coerced to UTF-8 and the day with its zone
    truncated to whole minutes. *)
Lemma Decode_encode_fields_app k t s e r :
  key_bytes k = true -> valid_time t -> int64_range s -> int64_range e ->
  Decode (encode_fields (appendString k) (quoted (formatRFC3339Nano t)) (formatInt s) (formatInt e) +:+ r)
  = inr (mkRelayCount (coerce_utf8 k) (truncate_zone t) s e).
Proof.
  intros Hk Ht Hs He.
  rewrite Decode_encoded_app by auto using formatInt_int_text, formatRFC3339Nano_plain.
  rewrite unmarshal_encoded_members with (ve := e) by auto using parse_int64_formatInt.
  by rewrite parseStrictRFC3339_format, parse_int64_formatInt.
Qed.

Lemma Decode_encode_fields_gen k t s e :
  key_bytes k = true -> valid_time t -> int64_range s -> int64_range e ->
  Decode (encode_fields (appendString k) (quoted (formatRFC3339Nano t)) (formatInt s) (formatInt e))
  = inr (mkRelayCount (coerce_utf8 k) (truncate_zone t) s e).
Proof. rewrite <- (string_app_nil_r (encode_fields _ _ _ _)). apply Decode_encode_fields_app. Qed.

Lemma Decode_encode_fields k t s e :
  ascii_only k = true -> valid_time t -> (offset t mod 60 = 0)%Z -> int64_range s -> int64_range e ->
  Decode (encode_fields (appendString k) (quoted (formatRFC3339Nano t)) (formatInt s) (formatInt e))
  = inr (mkRelayCount k t s e).
Proof.
  intros Hk Ht H60 Hs He. rewrite Decode_encode_fields_gen by auto using ascii_key_bytes.
  by rewrite coerce_utf8_ascii, truncate_zone_id.
Qed.

(** [json.Marshal] of a record with a valid day is the text of its
    encoded fields: the first step of every round trip below. *)
Ltac marshal_body :=
  eexists; split; [unfold marshalRelayCount; by rewrite MarshalJSON_valid|].

(** A coerced key is the key only when it was ASCII: U+FFFD takes three
    bytes where the invalid byte took one. *)
Lemma coerce_utf8_length s : (String.length s <= String.length (coerce_utf8 s))%nat.
Proof.
  induction s as [|c s IH]; [done|]. cbn. rewrite string_length_app.
  unfold coerce_byte. destruct (byte_val c <? 128)%Z; cbn; lia.
Qed.

Lemma coerce_utf8_id s : coerce_utf8 s = s -> ascii_only s = true.
Proof.
  induction s as [|c s IH]; [done|]. cbn. unfold coerce_byte. destruct (byte_val c <? 128)%Z.
  - intros [= H]. by apply IH.
  - intros H. exfalso. pose proof (coerce_utf8_length s).
    apply (f_equal String.length) in H. rewrite string_length_app in H. cbn in H. lia.
Qed.

Lemma truncate_zone_whole t : truncate_zone t = t -> (offset t mod 60 = 0)%Z.
Proof.
  intros H. rewrite <- H. unfold truncate_zone. cbn. by rewrite Z.mul_comm, Z.mod_mul.
Qed.

Lemma mkRelayCount_eta c :
  mkRelayCount (AppPublicKey c) (Day c) (Success c) (Error c) = c.
Proof. by destruct c. Qed.

(** The digits of a natural number below [10 ^ k] are an integer text. *)
Lemma utoa_int_text k v : (0 <= v < 10 ^ Z.of_nat k)%Z -> (1 <= k)%nat -> int_text (utoa k v).
Proof.
  intros Hv Hk. destruct (Z.eq_dec v 0%Z) as [->|Hn].
  - destruct k; [lia|]. by exists false, "0"%char, ""; split; [|left].
  - destruct (utoa_pos k v) as (c & r & Hu & Hc & Hd); [lia|].
    exists false, c, r. rewrite Hu. by split; [|right].
Qed.

(** ** What the decoder of [CreateCount] accepts from a client *)

(** C27: round trip.  A client that sends [json.Marshal(count)] has its
    record decoded back unchanged by [Decode], the first step of
    [CreateCount], for every record whose key is ASCII, whose counters are
    int64 values and whose day is a valid time with a zone offset of whole
    minutes; [Marshal] itself succeeds on every such record. *)
Theorem Decode_marshalRelayCount c :
  ascii_only (AppPublicKey c) = true -> valid_time (Day c) -> (offset (Day c) mod 60 = 0)%Z ->
  int64_range (Success c) -> int64_range (Error c) ->
  exists body, marshalRelayCount c = Some body /\ Decode body = inr c.
Proof.
  intros Hk Ht H60 Hs He. marshal_body. destruct c. by apply Decode_encode_fields.
Qed.

(** C28: the int64 bound of the counters.  In a body written like
    [json.Marshal] but whose [success] is the decimal text of any natural
    number below [10 ^ 20] (every uint64 value), [Decode] gives back the
    number exactly when it is at most [2 ^ 63 - 1], and above that fails
    with the [UnmarshalTypeError] "number ... of type int64" for the field
    [success]. *)
Theorem Decode_success_int64_bound k t e v :
  ascii_only k = true -> valid_time t -> (offset t mod 60 = 0)%Z -> int64_range e ->
  (0 <= v < 10 ^ 20)%Z ->
  Decode (encode_fields (appendString k) (quoted (formatRFC3339Nano t)) (utoa 20 v) (formatInt e)) =
  if (v <=? 2 ^ 63 - 1)%Z then inr (mkRelayCount k t v e)
  else inl (DType ("number " +:+ utoa 20 v) (Some "success") "int64").
Proof.
  intros Hk Ht H60 He Hv. pose proof (ascii_key_bytes k Hk).
  rewrite Decode_encoded
    by (auto using formatInt_int_text, formatRFC3339Nano_plain; apply utoa_int_text; cbn; lia).
  rewrite unmarshal_encoded_members with (ve := e) by auto using parse_int64_formatInt.
  rewrite parseStrictRFC3339_format, parse_int64_utoa by (cbn; lia || done). unfold int64_check.
  rewrite coerce_utf8_ascii, truncate_zone_id by done.
  rewrite (proj2 (Z.leb_le _ _)) by lia. by destruct (v <=? 2 ^ 63 - 1)%Z.
Qed.

(** C33: the day a client sends is read by [time.Parse].  In a body
    written like [json.Marshal] but whose day is any text of plain
    characters, [Decode] returns the record with the time that
    [time.Parse(time.RFC3339, day)] returns, or aborts with the message of
    its [ParseError]: the RFC 3339 fast path of [Time.UnmarshalJSON]
    changes neither the result nor the message of the 400 answer. *)
Theorem Decode_day_is_Parse k d s e :
  ascii_only k = true -> str_plain d = true -> int64_range s -> int64_range e ->
  Decode (encode_fields (appendString k) (quoted d) (formatInt s) (formatInt e)) =
  match Parse d with
  | inr t => inr (mkRelayCount k t s e)
  | inl pe => inl (DHard (mkGoErr (parse_error_msg pe)))
  end.
Proof.
  intros Hk Hd Hs He. pose proof (ascii_key_bytes k Hk).
  rewrite Decode_encoded by auto using formatInt_int_text.
  rewrite unmarshal_encoded_members with (ve := e) by auto using parse_int64_formatInt.
  rewrite parseStrictRFC3339_Parse. destruct (Parse d); [done|].
  by rewrite parse_int64_formatInt, coerce_utf8_ascii.
Qed.

(** C25: [Decode] reads one JSON value and ignores what follows it.  A
    body made of [json.Marshal(count)] followed by any text at all,
    however malformed, decodes to the record [count], for every record of
    the round trip (ASCII key, int64 counters, valid day in a zone of whole
    minutes): the scanner stops at the closing brace of the object and
    [CreateCount] never sees the rest of the body. *)
Theorem Decode_marshal_trailing c r :
  ascii_only (AppPublicKey c) = true -> valid_time (Day c) -> (offset (Day c) mod 60 = 0)%Z ->
  int64_range (Success c) -> int64_range (Error c) ->
  exists body, marshalRelayCount c = Some body /\ Decode (body +:+ r) = inr c.
Proof.
  intros Hk Ht H60 Hs He. marshal_body.
  rewrite Decode_encode_fields_app by auto using ascii_key_bytes.
  by rewrite coerce_utf8_ascii, truncate_zone_id, mkRelayCount_eta.
Qed.

(** C30: a day whose zone offset is not a whole number of minutes does
    not come back.  For every record with an ASCII key, int64 counters and
    any valid day, [Decode] of [json.Marshal(count)] returns the record
    with the zone offset truncated toward zero to whole minutes (the
    seconds of [offset / 60] that [appendFormatRFC3339] drops), and it
    returns the record itself exactly when the offset is a whole number of
    minutes. *)
Theorem Decode_marshal_truncates_zone c :
  ascii_only (AppPublicKey c) = true -> valid_time (Day c) ->
  int64_range (Success c) -> int64_range (Error c) ->
  exists body, marshalRelayCount c = Some body /\
    Decode body = inr (mkRelayCount (AppPublicKey c) (truncate_zone (Day c)) (Success c) (Error c)) /\
    (Decode body = inr c <-> (offset (Day c) mod 60 = 0)%Z).
Proof.
  intros Hk Ht Hs He. marshal_body.
  rewrite Decode_encode_fields_gen, coerce_utf8_ascii by auto using ascii_key_bytes.
  split; [done|]. split.
  - intros [= Hc]. apply (f_equal Day) in Hc. by apply truncate_zone_whole.
  - intros H60. by rewrite truncate_zone_id, mkRelayCount_eta.
Qed.

(** C31: a key that is not valid UTF-8 does not come back either.  For
    every key made of ASCII bytes and of bytes that start no UTF-8
    sequence ([0x80]-[0xc1], [0xf5]-[0xff]), [json.Marshal] writes each
    invalid byte as [\ufffd] and [Decode] returns the record with each of
    them replaced by the three bytes [ef bf bd] of U+FFFD; the key comes
    back unchanged exactly when it was ASCII. *)
Theorem Decode_marshal_coerces_key c :
  key_bytes (AppPublicKey c) = true -> valid_time (Day c) -> (offset (Day c) mod 60 = 0)%Z ->
  int64_range (Success c) -> int64_range (Error c) ->
  exists body, marshalRelayCount c = Some body /\
    Decode body = inr (mkRelayCount (coerce_utf8 (AppPublicKey c)) (Day c) (Success c) (Error c)) /\
    (Decode body = inr c <-> ascii_only (AppPublicKey c) = true).
Proof.
  intros Hk Ht H60 Hs He. marshal_body.
  rewrite Decode_encode_fields_gen, truncate_zone_id by done.
  split; [done|]. split.
  - intros [= Hc]. apply (f_equal AppPublicKey) in Hc. by apply coerce_utf8_id.
  - intros Ha. by rewrite coerce_utf8_ascii, mkRelayCount_eta.
Qed.

End RoundTrip.
