(* ===== verification/Handlers.v ===== *)
(** * Handlers: [HealthCheck], [CreateCount] and their helpers

    [logError], [respondWithResultOK], [HealthCheck] and [CreateCount] of
    [router.go], with utils-go's [jsonresponse.RespondWithJSON] and
    [RespondWithError] (set [Content-Type: application/json], write the
    status, write the marshalled payload, panic if the write fails).
    [CreateCount] is generic in the driver: it takes any [Driver D] and
    runs in [Go (World D)], so its theorems hold for every record store;
    those that speak of the stored records assume [StoreContract]. *)

From S2P Require Import Prelude Http Time Driver Utf8 JsonScan JsonValue Decode.

Module Handlers.
Import Http Time Driver JsonValue Decode.

Section Handlers.
Context {D : Type} `{Driver D}.

(** [rt.logError(err)]: logrus [WithFields({"err": err.Error()}).Error(err)] *)
Definition logError (err : GoErr) : Go (World D) unit :=
  log_entry (mkLog ErrorLevel (err_msg err) [("err", err_msg err)]).

(** [jsonresponse.RespondWithJSON(w, code, payload)], with the payload
    already marshalled. *)
Definition RespondWithJSON (code : Z) (payload : string) : Go (World D) unit :=
  _ ← HeaderSet "Content-Type" "application/json";
  _ ← WriteHeader code;
  WriteOrPanic payload.

(** [jsonresponse.RespondWithError(w, code, message)] *)
Definition RespondWithError (code : Z) (message : string) : Go (World D) unit :=
  RespondWithJSON code (marshal_string_map1 "error" message).

Definition resultOK : string := marshal_string_map1 "result" "ok".

(** [respondWithResultOK(w)] *)
Definition respondWithResultOK : Go (World D) unit := RespondWithJSON StatusOK resultOK.

Definition healthText : string := "Transaction HTTP DB is up and running!".

(** [rt.HealthCheck(w, r)] *)
Definition HealthCheck : Handler D :=
  fun _ => _ ← WriteHeader StatusOK; WriteOrPanic healthText.

(** [r.Context()] *)
Definition request_ctx (r : Request) : Context := mkContext (CtxDone r).

(** [rt.CreateCount(w, r)] *)
Definition CreateCount : Handler D :=
  fun r =>
    let ctx := request_ctx r in
    match Decode (Body r) with
    | inl e =>
        let err := DecodeError e in
        _ ← logError (errorf_w "WriteCount in JSON decoding failed: " err);
        RespondWithError StatusBadRequest (err_msg err)
    | inr count =>
        go_defer
          (res ← lift_store (WriteRelayCount ctx count);
           match res with
           | Some err =>
               _ ← logError (errorf_w "WriteCount in WriteSession failed: " err);
               RespondWithError StatusInternalServerError (err_msg err)
           | None => respondWithResultOK
           end)
          CloseBody
    end.
End Handlers.

(** The handlers read the request only through its payload. *)
#[export] Instance CreateCount_proper {D} `{Driver D} : Proper (same_payload ==> eq) (CreateCount (D:=D)).
Proof. intros r1 r2 [Hb Hc]. unfold CreateCount, request_ctx. by rewrite Hb, Hc. Qed.

#[export] Instance HealthCheck_proper {D} `{Driver D} (R : relation Request) :
  Proper (R ==> eq) (HealthCheck (D:=D)).
Proof. by intros r1 r2 _. Qed.

(** ** The responses *)
Section Responses.
Context {D : Type} `{Driver D}.
Implicit Types (w : World D).

(** The world after [RespondWithJSON code payload] on a writer that has
    not sent its header and whose connection is alive. *)
Definition sent_json (code : Z) (payload : string) w : World D :=
  set_rw (fun x => mkRW (Some (code, header_set (liveHeader x) "Content-Type" "application/json"))
                        (header_set (liveHeader x) "Content-Type" "application/json")
                        (written x +:+ payload) (broken x)) w.

Lemma marshal_string_map1_nonempty k v : marshal_string_map1 k v <> "".
Proof. unfold marshal_string_map1. cbn. discriminate. Qed.

(** The header map once [Content-Type: application/json] is set. *)
Definition json_header w : World D :=
  set_rw (fun x => mkRW (wroteHeader x) (header_set (liveHeader x) "Content-Type" "application/json")
                        (written x) (broken x)) w.

(** [RespondWithJSON] on a writer that has not sent its header: the
    connection decides between the full response and a panic with the
    write error after the header. *)
Lemma RespondWithJSON_run w code payload :
  wroteHeader (rw w) = None ->
  (200 <= code <= 999)%Z -> payload <> "" -> bodyAllowedForStatus code = true ->
  RespondWithJSON code payload w =
    if broken (rw w) then (Panicked ErrBrokenConn, sent_header code (json_header w))
    else (Returned tt, sent_json code payload w).
Proof.
  intros Hn Hc Hp Ha. unfold RespondWithJSON.
  erewrite go_bind_returned by reflexivity.
  rewrite header_then_write_fresh by (cbn; done).
  destruct w as [[wh lh wr br] st lg bc]; cbn in *. by destruct br.
Qed.

Lemma RespondWithJSON_fresh w code payload :
  wroteHeader (rw w) = None -> broken (rw w) = false ->
  (200 <= code <= 999)%Z -> payload <> "" -> bodyAllowedForStatus code = true ->
  RespondWithJSON code payload w = (Returned tt, sent_json code payload w).
Proof. intros Hn Hb Hc Hp Ha. rewrite RespondWithJSON_run by done. by rewrite Hb. Qed.

Lemma RespondWithError_fresh w code msg :
  wroteHeader (rw w) = None -> broken (rw w) = false ->
  (200 <= code <= 999)%Z -> bodyAllowedForStatus code = true ->
  RespondWithError code msg w =
    (Returned tt, sent_json code (marshal_string_map1 "error" msg) w).
Proof.
  intros. apply RespondWithJSON_fresh; auto using marshal_string_map1_nonempty.
Qed.

Lemma keeps_store_RespondWithJSON code payload : keeps_store (D:=D) (RespondWithJSON code payload).
Proof. unfold RespondWithJSON. eauto with relay. Qed.

Lemma keeps_store_logError e : keeps_store (D:=D) (logError e).
Proof. unfold logError. eauto with relay. Qed.
End Responses.

#[export] Hint Resolve keeps_store_RespondWithJSON keeps_store_logError : relay.

(** ** [CreateCount], branch by branch *)
Section CreateCountSpec.
Context {D : Type} `{Driver D}.
Implicit Types (w : World D).

(** The log entry [logError(fmt.Errorf(prefix + "%w", err))] writes. *)
Definition error_entry (prefix msg : string) : LogEntry :=
  mkLog ErrorLevel (prefix +:+ msg) [("err", prefix +:+ msg)].

Definition decodeFailedPrefix : string := "WriteCount in JSON decoding failed: ".
Definition writeFailedPrefix : string := "WriteCount in WriteSession failed: ".

(** The handler after a successful decode, as a function of the driver's
    answer: the store becomes the driver's new state, and the body is
    closed by the deferred [Close] whatever happens next. *)
Lemma CreateCount_decoded r w c :
  Decode (Body r) = inr c ->
  CreateCount r w =
    go_defer
      (fun w0 => let '(o, s') := WriteRelayCount (request_ctx r) c (store w0) in
                 match o with
                 | Returned (Some err) =>
                     (_ ← logError (errorf_w writeFailedPrefix err);
                      RespondWithError StatusInternalServerError (err_msg err))
                       (mkWorld (rw w0) s' (logs w0) (bodyClosed w0))
                 | Returned None => respondWithResultOK (mkWorld (rw w0) s' (logs w0) (bodyClosed w0))
                 | Panicked e => (Panicked e, mkWorld (rw w0) s' (logs w0) (bodyClosed w0))
                 end)
      CloseBody w.
Proof.
  intros Hd. unfold CreateCount. rewrite Hd. unfold go_defer.
  go_simpl. unfold lift_store.
  destruct (WriteRelayCount _ c (store w)) as [[[err|]|e] s']; reflexivity.
Qed.

(** The whole handler in closed form, on a writer that has not sent its
    header and a live connection: one case per branch of [CreateCount]. *)
Definition CreateCount_result r w : outcome unit * World D :=
  match Decode (Body r) with
  | inl e =>
      (Returned tt,
       sent_json StatusBadRequest (marshal_string_map1 "error" (decode_err_msg e))
         (mkWorld (rw w) (store w)
                  (logs w ++ [error_entry decodeFailedPrefix (decode_err_msg e)]) (bodyClosed w)))
  | inr c =>
      match WriteRelayCount (request_ctx r) c (store w) with
      | (Returned None, s') => (Returned tt, mkWorld (rw (sent_json StatusOK resultOK w)) s' (logs w) true)
      | (Returned (Some err), s') =>
          (Returned tt,
           mkWorld (rw (sent_json StatusInternalServerError (marshal_string_map1 "error" (err_msg err)) w))
                   s' (logs w ++ [error_entry writeFailedPrefix (err_msg err)]) true)
      | (Panicked e, s') => (Panicked e, mkWorld (rw w) s' (logs w) true)
      end
  end.

Lemma CreateCount_run r w :
  wroteHeader (rw w) = None -> broken (rw w) = false -> CreateCount r w = CreateCount_result r w.
Proof.
  intros Hn Hb. unfold CreateCount_result. destruct (Decode (Body r)) as [e|c] eqn:Hd.
  - unfold CreateCount. rewrite Hd. go_simpl. apply RespondWithError_fresh; status_tac.
  - rewrite (CreateCount_decoded r w c Hd). unfold go_defer.
    destruct (WriteRelayCount _ c (store w)) as [[[err|]|e] s']; cbn beta iota; [| |reflexivity].
    + erewrite go_bind_returned by reflexivity.
      rewrite RespondWithError_fresh by status_tac. reflexivity.
    + unfold respondWithResultOK.
      rewrite RespondWithJSON_fresh by (unfold resultOK; status_tac || apply marshal_string_map1_nonempty).
      reflexivity.
Qed.

(** C1: a body that does not decode is answered 400 with the decoder's
    message in a JSON error envelope, the failure is logged, and the
    store is never touched: the outcome does not mention the driver. *)
Theorem CreateCount_bad_request r w e :
  Decode (Body r) = inl e -> wroteHeader (rw w) = None -> broken (rw w) = false ->
  CreateCount r w =
    (Returned tt,
     sent_json StatusBadRequest (marshal_string_map1 "error" (decode_err_msg e))
       (mkWorld (rw w) (store w)
                (logs w ++ [error_entry decodeFailedPrefix (decode_err_msg e)]) (bodyClosed w))).
Proof. intros Hd Hn Hb. rewrite CreateCount_run by done. unfold CreateCount_result. by rewrite Hd. Qed.

(** C2: after a successful decode the driver's [WriteRelayCount] is run
    exactly once, with the decoded record and the request's context:
    the final store is the store that one call produces, whatever the
    driver answers (error or panic included) and whatever happens to
    the response. *)
Theorem CreateCount_writes_once r w c :
  Decode (Body r) = inr c ->
  store (snd (CreateCount r w)) = snd (WriteRelayCount (request_ctx r) c (store w)).
Proof.
  intros Hd. rewrite (CreateCount_decoded r w c Hd), store_defer by eauto with relay.
  destruct (WriteRelayCount _ c (store w)) as [[[err|]|e] s'].
  - exact (keeps_store_bind _ _ (keeps_store_logError _)
             (fun _ => keeps_store_RespondWithJSON _ _) (mkWorld (rw w) s' (logs w) (bodyClosed w))).
  - exact (keeps_store_RespondWithJSON _ _ (mkWorld (rw w) s' (logs w) (bodyClosed w))).
  - reflexivity.
Qed.

(** C3: when the store accepts the record the answer is 200
    [{"result":"ok"}], nothing is logged and the body is closed. *)
Theorem CreateCount_ok r w c s' :
  Decode (Body r) = inr c ->
  WriteRelayCount (request_ctx r) c (store w) = (Returned None, s') ->
  wroteHeader (rw w) = None -> broken (rw w) = false ->
  CreateCount r w = (Returned tt, mkWorld (rw (sent_json StatusOK resultOK w)) s' (logs w) true).
Proof.
  intros Hd Hw Hn Hb. rewrite CreateCount_run by done. unfold CreateCount_result. by rewrite Hd, Hw.
Qed.

(** C4: when the store fails the answer is 500 with the store's message
    in a JSON error envelope, the failure is logged once, and the body
    is closed. *)
Theorem CreateCount_driver_error r w c err s' :
  Decode (Body r) = inr c ->
  WriteRelayCount (request_ctx r) c (store w) = (Returned (Some err), s') ->
  wroteHeader (rw w) = None -> broken (rw w) = false ->
  CreateCount r w =
    (Returned tt,
     mkWorld (rw (sent_json StatusInternalServerError (marshal_string_map1 "error" (err_msg err)) w))
             s' (logs w ++ [error_entry writeFailedPrefix (err_msg err)]) true).
Proof.
  intros Hd Hw Hn Hb. rewrite CreateCount_run by done. unfold CreateCount_result. by rewrite Hd, Hw.
Qed.

(** C9: refinement of the ingestion contract.  Against any record store
    that meets [StoreContract], [CreateCount] never panics on a live
    connection, and either answers 200 after appending exactly the
    decoded record, or answers 400 or 500 and leaves the stored records
    as they were. *)
Theorem CreateCount_store_contract (SC : StoreContract D) r w :
  wroteHeader (rw w) = None -> broken (rw w) = false ->
  exists w', CreateCount r w = (Returned tt, w') /\
    ((resp_status (rw w') = StatusOK /\
      exists c, Decode (Body r) = inr c /\ contents (store w') = contents (store w) ++ [c]) \/
     (resp_status (rw w') ∈ [StatusBadRequest; StatusInternalServerError] /\
      contents (store w') = contents (store w))).
Proof.
  intros Hn Hb. rewrite CreateCount_run by done. unfold CreateCount_result.
  destruct (Decode (Body r)) as [e|c] eqn:Hd.
  - eexists; split; [reflexivity|]. right. split; [cbn; set_solver | done].
  - pose proof (write_contract (request_ctx r) c (store w)) as Hc.
    destruct (WriteRelayCount (request_ctx r) c (store w)) as [[[err|]|e] s'] eqn:Hw; [| |done].
    + eexists; split; [reflexivity|]. right. split; [cbn; set_solver | done].
    + eexists; split; [reflexivity|]. left. split; [done|]. eauto.
Qed.
(** C20: a failed write of the response is not swallowed: on a broken
    connection [HealthCheck] panics with the write error after sending
    its header, as the [panic(err)] of the handler says. *)
Theorem HealthCheck_broken_conn_panics r w :
  wroteHeader (rw w) = None -> broken (rw w) = true ->
  HealthCheck r w = (Panicked ErrBrokenConn, sent_header StatusOK w).
Proof.
  intros Hn Hb. unfold HealthCheck.
  rewrite header_then_write_fresh by (status_tac || (cbn; discriminate)). by rewrite Hb.
Qed.

(** C21: when the response cannot be written after a successful store
    write, [CreateCount] panics with the write error; the record stays
    written and the deferred [r.Body.Close()] still runs. *)
Theorem CreateCount_broken_conn_panics r w c s' :
  Decode (Body r) = inr c ->
  WriteRelayCount (request_ctx r) c (store w) = (Returned None, s') ->
  wroteHeader (rw w) = None -> broken (rw w) = true ->
  CreateCount r w =
    (Panicked ErrBrokenConn, mkWorld (rw (sent_header StatusOK (json_header w))) s' (logs w) true).
Proof.
  intros Hd Hw Hn Hb. rewrite (CreateCount_decoded r w c Hd). unfold go_defer.
  rewrite Hw. unfold respondWithResultOK.
  rewrite RespondWithJSON_run by (unfold resultOK; status_tac || apply marshal_string_map1_nonempty).
  cbn [rw broken]. rewrite Hb. reflexivity.
Qed.
End CreateCountSpec.

End Handlers.
