(* ===== verification/Mux.v ===== *)
(** * Mux: the gorilla/mux router that [NewRouter] builds

    [NewRouter] registers [GET /] -> [HealthCheck] and [POST /v0/count] ->
    [CreateCount] and installs [AuthorizationHandler] with [Use].  The
    dispatch follows mux's [Router.ServeHTTP] and [Router.Match]: the
    request path is first cleaned ([cleanPath], i.e. [path.Clean] keeping a
    trailing slash) and an unclean path is redirected with 301; then the
    routes are tried in order, a route whose path matches but whose method
    does not records a method mismatch, and the first route that matches
    both gets the middlewares applied around its handler.  With no full
    match the answer is mux's 405 handler after a method mismatch and
    [http.NotFound] otherwise; neither goes through the middlewares. *)

From S2P Require Import Prelude Http Time Driver Utf8 JsonScan JsonValue Decode Auth Handlers.

Module Mux.
Import Http Driver Auth Handlers.

(** ** [path.Clean] on a rooted path, and mux's [cleanPath] *)
Fixpoint split_slash (s : string) : list string :=
  match s with
  | EmptyString => [EmptyString]
  | String c s' =>
      match split_slash s' with
      | seg :: segs => if bool_decide (c = "/"%char) then EmptyString :: seg :: segs
                       else String c seg :: segs
      | [] => [String c EmptyString]
      end
  end.

(** The stack of kept elements (innermost first) after each element. *)
Definition clean_step (acc : list string) (seg : string) : list string :=
  if bool_decide (seg = "") || bool_decide (seg = ".") then acc
  else if decide (seg = "..") then tail acc
  else seg :: acc.

Fixpoint join_slash (segs : list string) : string :=
  match segs with
  | [] => ""
  | [s] => s
  | s :: segs' => s +:+ "/" +:+ join_slash segs'
  end.

Definition path_Clean_rooted (p : string) : string :=
  "/" +:+ join_slash (rev (foldl clean_step [] (split_slash p))).

Definition cleanPath (p : string) : string :=
  if decide (p = "") then "/"
  else
    let p := if bool_decide (String.get 0 p = Some "/"%char) then p else "/" +:+ p in
    let np := path_Clean_rooted p in
    if bool_decide (String.get (String.length p - 1) p = Some "/"%char) && negb (bool_decide (np = "/"))
    then np +:+ "/" else np.

(** ** Routes and the router *)
Record Route (D : Type) := mkRoute {
  rpath : string;
  rmethods : list string;
  rhandler : Handler D
}.
Arguments mkRoute {D} _ _ _.
Arguments rpath {D} _.
Arguments rmethods {D} _.
Arguments rhandler {D} _.

Record Router (D : Type) := mkRouter {
  routes : list (Route D);
  middlewares : list (Handler D -> Handler D)
}.
Arguments mkRouter {D} _ _.
Arguments routes {D} _.
Arguments middlewares {D} _.

Inductive MatchResult (D : Type) :=
| Matched (h : Handler D)
| MethodMismatch
| NoMatch.
Arguments Matched {D} _.
Arguments MethodMismatch {D}.
Arguments NoMatch {D}.

Section Dispatch.
Context {D : Type}.

(** The routes tried in order: the first full match, or whether some
    route matched the path but not the method. *)
Fixpoint match_routes (rs : list (Route D)) (r : Request) (mismatch : bool)
    : option (Handler D) * bool :=
  match rs with
  | [] => (None, mismatch)
  | rt :: rs' =>
      if decide (rpath rt = URLPath r) then
        if decide (Method r ∈ rmethods rt) then (Some (rhandler rt), false)
        else match_routes rs' r true
      else match_routes rs' r mismatch
  end.

(** [mw[0](mw[1](... h))], as [Router.Match] builds the chain. *)
Definition apply_middlewares (mws : list (Handler D -> Handler D)) (h : Handler D) : Handler D :=
  foldr (fun mw acc => mw acc) h mws.

(** [Router.Match] *)
Definition router_match (rt : Router D) (r : Request) : MatchResult D :=
  match match_routes (routes rt) r false with
  | (Some h, _) => Matched (apply_middlewares (middlewares rt) h)
  | (None, true) => MethodMismatch
  | (None, false) => NoMatch
  end.

(** mux's [methodNotAllowed] *)
Definition methodNotAllowedHandler : Go (World D) unit := WriteHeader StatusMethodNotAllowed.

Definition notFoundText : string := "404 page not found" +:+ String (ascii_of_nat 10) EmptyString.

(** [http.NotFound]: [http.Error(w, "404 page not found", 404)] *)
Definition NotFoundHandler : Go (World D) unit :=
  _ ← HeaderDel "Content-Length";
  _ ← HeaderSet "Content-Type" "text/plain; charset=utf-8";
  _ ← HeaderSet "X-Content-Type-Options" "nosniff";
  _ ← WriteHeader StatusNotFound;
  _ ← Write notFoundText;
  mret tt.

(** [Router.ServeHTTP] *)
Definition ServeHTTP (rt : Router D) : Handler D :=
  fun r =>
    let p := URLPath r in
    let cp := cleanPath p in
    if negb (bool_decide (cp = p)) then
      _ ← HeaderSet "Location" cp; WriteHeader StatusMovedPermanently
    else match router_match rt r with
         | Matched h => h r
         | MethodMismatch => methodNotAllowedHandler
         | NoMatch => NotFoundHandler
         end.
End Dispatch.

(** ** [NewRouter] *)
Definition countPath : string := "/v0/count".

(** The [Router] struct of [router.go]: the mux router, the key set and
    the port; the driver is the [Driver D] instance and the logger is the
    world's log. *)
Record RelayRouter (D : Type) := mkRelayRouter {
  router : Router D;
  apiKeys : gmap string bool;
  port : string
}.
Arguments mkRelayRouter {D} _ _ _.
Arguments router {D} _.
Arguments apiKeys {D} _.
Arguments port {D} _.

Definition NewRouter {D} `{Driver D} (keys : gmap string bool) (p : string) : RelayRouter D :=
  mkRelayRouter
    (mkRouter [mkRoute healthPath [MethodGet] HealthCheck;
               mkRoute countPath [MethodPost] CreateCount]
              [AuthorizationHandler keys])
    keys p.

(** The whole HTTP surface: [rt.router.ServeHTTP(w, r)]. *)
Definition serve {D} (rt : RelayRouter D) : Handler D := ServeHTTP (router rt).

(** ** Dispatch of the two routes *)
Section Routes.
Context {D : Type} `{Driver D}.
Implicit Types (r : Request) (w : World D).

Lemma serve_clean_dispatch keys port r :
  cleanPath (URLPath r) = URLPath r ->
  serve (NewRouter keys port) r =
    match router_match (router (NewRouter keys port)) r with
    | Matched h => h r
    | MethodMismatch => methodNotAllowedHandler
    | NoMatch => NotFoundHandler
    end.
Proof. intros Hc. unfold serve, ServeHTTP. rewrite Hc, bool_decide_eq_true_2 by done. done. Qed.

Lemma router_match_health keys port r :
  URLPath r = healthPath -> Method r = MethodGet ->
  router_match (router (NewRouter keys port)) r = Matched (AuthorizationHandler keys HealthCheck).
Proof.
  intros Hp Hm. unfold router_match. cbn. rewrite Hp, Hm.
  rewrite decide_True by done. rewrite decide_True by (left; done). reflexivity.
Qed.

Lemma router_match_count keys port r :
  URLPath r = countPath -> Method r = MethodPost ->
  router_match (router (NewRouter keys port)) r = Matched (AuthorizationHandler keys CreateCount).
Proof.
  intros Hp Hm. unfold router_match. cbn. rewrite Hp, Hm.
  rewrite decide_False by done. rewrite decide_True by done.
  rewrite decide_True by (left; done). reflexivity.
Qed.

Lemma router_match_mismatch keys port r :
  (URLPath r = healthPath /\ Method r <> MethodGet) \/
  (URLPath r = countPath /\ Method r <> MethodPost) ->
  router_match (router (NewRouter keys port)) r = MethodMismatch.
Proof.
  intros [[Hp Hm]|[Hp Hm]]; unfold router_match; cbn; rewrite Hp.
  - rewrite decide_True by done. rewrite decide_False by set_solver.
    rewrite decide_False by done. reflexivity.
  - rewrite decide_False by done. rewrite decide_True by done.
    rewrite decide_False by set_solver. reflexivity.
Qed.

Lemma router_match_none keys port r :
  URLPath r <> healthPath -> URLPath r <> countPath ->
  router_match (router (NewRouter keys port)) r = NoMatch.
Proof.
  intros H1 H2. unfold router_match. cbn.
  rewrite decide_False by congruence. rewrite decide_False by congruence. reflexivity.
Qed.

Lemma NotFoundHandler_fresh w :
  wroteHeader (rw w) = None -> broken (rw w) = false ->
  NotFoundHandler w =
    (Returned tt,
     sent_text StatusNotFound notFoundText
       (set_rw (fun x => mkRW (wroteHeader x)
                  (header_set (header_set (delete "Content-Length" (liveHeader x))
                                 "Content-Type" "text/plain; charset=utf-8")
                     "X-Content-Type-Options" "nosniff") (written x) (broken x)) w)).
Proof.
  intros Hn Hb. destruct w as [[wh lh wr br] st lg bc]; cbn in *; subst.
  reflexivity.
Qed.

(** Route matching reads the method and the path only. *)
Lemma match_routes_equiv (rs : list (Route D)) r1 r2 mm :
  Method r1 = Method r2 -> URLPath r1 = URLPath r2 -> match_routes rs r1 mm = match_routes rs r2 mm.
Proof.
  intros Hm Hp. revert mm. induction rs as [|rt rs IH]; intros mm; cbn; [done|].
  rewrite Hm, Hp. by repeat case_decide.
Qed.

(** The handlers of [NewRouter]'s routes. *)
Lemma NewRouter_routes_handler keys port r h b :
  match_routes (routes (router (NewRouter keys port))) r false = (Some h, b) ->
  h = HealthCheck \/ h = CreateCount.
Proof. cbn. repeat case_decide; intros; simplify_eq; auto. Qed.
End Routes.

(** ** What the router answers *)
Section Serve.
Context {D : Type} `{Driver D}.
Implicit Types (r : Request) (w : World D).

(** C6: [GET /] is answered 200 with the health text, whatever the key
    set and whatever credential the request carries. *)
Theorem serve_health_ok keys port r w :
  URLPath r = healthPath -> Method r = MethodGet ->
  wroteHeader (rw w) = None -> broken (rw w) = false ->
  serve (NewRouter keys port) r w = (Returned tt, sent_text StatusOK healthText w).
Proof.
  intros Hp Hm Hn Hb. rewrite serve_clean_dispatch by (rewrite Hp; reflexivity).
  rewrite router_match_health, auth_health_passthrough by done.
  unfold HealthCheck. rewrite header_then_write_fresh by (status_tac || (cbn; discriminate)).
  by rewrite Hb.
Qed.

(** C5: [POST /v0/count] with a credential that is not a key mapped to
    [true] is answered 401 "Unauthorized" and [CreateCount] does not
    run: the store is untouched. *)
Theorem serve_count_unauthorized keys port r w :
  URLPath r = countPath -> Method r = MethodPost ->
  keys !! header_get (ReqHeader r) "Authorization" <> Some true ->
  wroteHeader (rw w) = None -> broken (rw w) = false ->
  serve (NewRouter keys port) r w = (Returned tt, sent_text StatusUnauthorized "Unauthorized" w).
Proof.
  intros Hp Hm Hk Hn Hb. rewrite serve_clean_dispatch by (rewrite Hp; reflexivity).
  rewrite router_match_count by done.
  rewrite auth_reject_run by (rewrite ?Hp; auto using not_authorized; discriminate).
  by rewrite Hb.
Qed.

(** C8: [POST /v0/count] with an authorized credential is exactly
    [CreateCount]. *)
Theorem serve_count_authorized keys port r :
  URLPath r = countPath -> Method r = MethodPost ->
  keys !! header_get (ReqHeader r) "Authorization" = Some true ->
  serve (NewRouter keys port) r = CreateCount r.
Proof.
  intros Hp Hm Hk. rewrite serve_clean_dispatch by (rewrite Hp; reflexivity).
  rewrite router_match_count by done. by apply auth_accepts.
Qed.

(** C16: a request on a registered path with another method is answered
    405 with an empty body by mux itself: the authorization middleware
    is not run, so no credential is checked. *)
Theorem serve_method_mismatch_skips_auth keys port r w :
  (URLPath r = healthPath /\ Method r <> MethodGet) \/
  (URLPath r = countPath /\ Method r <> MethodPost) ->
  wroteHeader (rw w) = None ->
  serve (NewRouter keys port) r w = (Returned tt, sent_header StatusMethodNotAllowed w).
Proof.
  intros Hr Hn.
  rewrite serve_clean_dispatch
    by (destruct Hr as [[Hp _]|[Hp _]]; rewrite Hp; reflexivity).
  rewrite router_match_mismatch by done.
  unfold methodNotAllowedHandler. by rewrite WriteHeader_fresh by status_tac.
Qed.

(** C17: a clean path that is not registered is answered 404
    "404 page not found" by [http.NotFound], whatever the credential:
    the authorization middleware is not run. *)
Theorem serve_unknown_path_not_found keys port r w :
  cleanPath (URLPath r) = URLPath r ->
  URLPath r <> healthPath -> URLPath r <> countPath ->
  wroteHeader (rw w) = None -> broken (rw w) = false ->
  exists w', serve (NewRouter keys port) r w = (Returned tt, w') /\
    resp_status (rw w') = StatusNotFound /\ written (rw w') = written (rw w) +:+ notFoundText /\
    store w' = store w.
Proof.
  intros Hc H1 H2 Hn Hb. rewrite serve_clean_dispatch, router_match_none by done.
  rewrite NotFoundHandler_fresh by done. eexists; split; [reflexivity|]. done.
Qed.

(** C18: a path that [cleanPath] changes is redirected with 301 to the
    clean path, before any route or middleware runs. *)
Theorem serve_unclean_redirect keys port r w :
  cleanPath (URLPath r) <> URLPath r -> wroteHeader (rw w) = None ->
  serve (NewRouter keys port) r w =
    (Returned tt,
     sent_header StatusMovedPermanently
       (set_rw (fun x => mkRW (wroteHeader x) (header_set (liveHeader x) "Location" (cleanPath (URLPath r)))
                              (written x) (broken x)) w)).
Proof.
  intros Hc Hn. unfold serve, ServeHTTP.
  rewrite bool_decide_eq_false_2 by done. cbn [negb].
  erewrite go_bind_returned by reflexivity.
  by rewrite WriteHeader_fresh by status_tac.
Qed.

(** C19: when the key set maps the empty string to [true] (the
    configuration of the repository's tests), a [POST /v0/count] that
    carries no [Authorization] header at all reaches [CreateCount]:
    [Header.Get] returns "" for a missing header. *)
Theorem serve_empty_key_admits_anonymous keys port r :
  keys !! "" = Some true -> ReqHeader r !! "Authorization" = None ->
  URLPath r = countPath -> Method r = MethodPost ->
  serve (NewRouter keys port) r = CreateCount r.
Proof.
  intros Hk Hh Hp Hm. rewrite serve_clean_dispatch by (rewrite Hp; reflexivity).
  rewrite router_match_count by done. apply auth_accepts. unfold header_get.
  change (CanonicalMIMEHeaderKey "Authorization") with "Authorization". by rewrite Hh.
Qed.

(** C32: equivalence.  The router's answer (outcome, response, log and
    store) depends on the request only through its method, path, body
    and context and on whether its credential is authorized: two
    callers with different valid keys get the same answer and store the
    same record, and likewise two with different invalid ones. *)
Theorem serve_credential_equiv keys port r1 r2 :
  req_equiv keys r1 r2 -> serve (NewRouter keys port) r1 = serve (NewRouter keys port) r2.
Proof.
  intros Hr. pose proof Hr as (Hm & Hp & _ & _). unfold serve, ServeHTTP, router_match.
  rewrite Hp, (match_routes_equiv _ r1 r2) by done.
  destruct (match_routes _ r2 false) as [[h|] b] eqn:E; [|by destruct b].
  case_match; [done|].
  apply NewRouter_routes_handler in E as [-> | ->]; cbn; apply AuthorizationHandler_proper; [| done | | done].
  - apply HealthCheck_proper.
  - intros q1 q2 Hq. by apply CreateCount_proper, req_equiv_same_payload with keys.
Qed.
End Serve.

End Mux.
