(* ===== verification/Server.v ===== *)
(** * Server: the lifecycle of [RunServer]

    [RunServer(ctx)] logs the port, creates an errgroup derived from [ctx]
    and runs two goroutines:
    - the serve task, [httpServer.ListenAndServe()], which returns
      [ErrServerClosed] when the server is (or is being) shut down, or the
      error of [net.Listen];
    - the watcher, which waits for the group's context, logs
      "HTTP router context finished", calls [Shutdown(context.Background())]
      (close the listener, then wait until no connection is active), logs
      a shutdown error, and returns nil.
    [g.Wait()] returns the first non-nil error of a task (the errgroup also
    cancels its context on that error), and [RunServer] logs it as the exit
    reason.

    The model is a state ([State]) and a nondeterministic step relation
    ([step]) whose steps are the atomic actions of the two tasks, of the
    main goroutine and of the environment (cancelling [ctx], a failing
    [net.Listen], connections arriving and finishing, a failing listener
    close).  Interleavings are the sequences of steps. *)

From S2P Require Import Prelude Http.

Module Server.
Import Http.

Inductive ServePC :=
| SStart                  (** about to call [ListenAndServe] *)
| SServing                (** in [Serve]'s accept loop *)
| SDone (e : GoErr).      (** returned [e] *)

Inductive WatchPC :=
| WWait                   (** [<-gCtx.Done()] *)
| WShutdown               (** in [Shutdown], waiting for active connections *)
| WDone.                  (** returned nil *)

Record State := mkState {
  parentCancelled : bool;   (** the caller's [ctx] *)
  gctxCancelled : bool;     (** the errgroup's [gCtx] *)
  inShutdown : bool;        (** [srv.inShutdown] *)
  listening : bool;         (** the listener is open *)
  active : nat;             (** connections being served *)
  serveT : ServePC;
  watchT : WatchPC;
  groupErr : option GoErr;  (** the errgroup's first error *)
  returned : bool;          (** [g.Wait()] has returned and the reason is logged *)
  slog : list LogEntry
}.

Definition ErrServerClosed : GoErr := mkGoErr "http: Server closed".

Definition info (m : string) : LogEntry := mkLog InfoLevel m [].

(** The four lines [RunServer] logs. *)

(** [rt.log.Printf("Relay Counter is running in port: %s", rt.port)] *)
Definition running_log (port : string) : LogEntry := info ("Relay Counter is running in port: " +:+ port).

(** [rt.log.Info("HTTP router context finished")] *)
Definition finished_log : LogEntry := info "HTTP router context finished".

(** [rt.logError(fmt.Errorf("Error closing http server: %s", err))] *)
Definition close_error_log (e : GoErr) : LogEntry :=
  let m := "Error closing http server: " +:+ err_msg e in mkLog ErrorLevel m [("err", m)].

(** [rt.log.Infof("exit reason: %s", err.Error())] *)
Definition exit_log (e : GoErr) : LogEntry := info ("exit reason: " +:+ err_msg e).

(** [RunServer(ctx)] up to the two [g.Go] calls. *)
Definition init (port : string) (ctxCancelled : bool) : State :=
  mkState ctxCancelled ctxCancelled false false 0 SStart WWait None false
          [running_log port].

(** The serve task returns [e]: the errgroup keeps the first error and
    cancels its context. *)
Definition serve_returns (e : GoErr) (s : State) : State :=
  mkState (parentCancelled s) true (inShutdown s) (listening s) (active s) (SDone e)
          (watchT s) (match groupErr s with Some e0 => Some e0 | None => Some e end)
          (returned s) (slog s).

Inductive step : State -> State -> Prop :=
| step_cancel s :
    parentCancelled s = false ->
    step s (mkState true true (inShutdown s) (listening s) (active s) (serveT s) (watchT s)
                    (groupErr s) (returned s) (slog s))
| step_listen s :
    serveT s = SStart -> inShutdown s = false ->
    step s (mkState (parentCancelled s) (gctxCancelled s) false true (active s) SServing
                    (watchT s) (groupErr s) (returned s) (slog s))
| step_listen_fail s e :
    serveT s = SStart -> inShutdown s = false -> e <> ErrServerClosed ->
    step s (serve_returns e s)
| step_listen_closed s :
    serveT s = SStart -> inShutdown s = true ->
    step s (serve_returns ErrServerClosed s)
| step_accept s :
    serveT s = SServing -> listening s = true ->
    step s (mkState (parentCancelled s) (gctxCancelled s) (inShutdown s) true (S (active s))
                    (serveT s) (watchT s) (groupErr s) (returned s) (slog s))
| step_finish s :
    (0 < active s)%nat ->
    step s (mkState (parentCancelled s) (gctxCancelled s) (inShutdown s) (listening s)
                    (pred (active s)) (serveT s) (watchT s) (groupErr s) (returned s) (slog s))
| step_serve_closed s :
    serveT s = SServing -> listening s = false ->
    step s (serve_returns ErrServerClosed s)
| step_wake s :
    watchT s = WWait -> gctxCancelled s = true ->
    step s (mkState (parentCancelled s) (gctxCancelled s) true false (active s) (serveT s)
                    WShutdown (groupErr s) (returned s)
                    (slog s ++ [finished_log]))
| step_shutdown_done s :
    watchT s = WShutdown -> active s = 0%nat ->
    step s (mkState (parentCancelled s) (gctxCancelled s) (inShutdown s) (listening s) 0
                    (serveT s) WDone (groupErr s) (returned s) (slog s))
| step_shutdown_err s e :
    watchT s = WShutdown -> active s = 0%nat ->
    step s (mkState (parentCancelled s) (gctxCancelled s) (inShutdown s) (listening s) 0
                    (serveT s) WDone (groupErr s) (returned s)
                    (slog s ++ [close_error_log e]))
| step_wait s e :
    serveT s = SDone e -> watchT s = WDone -> returned s = false ->
    step s (mkState (parentCancelled s) true (inShutdown s) (listening s) (active s)
                    (serveT s) (watchT s) (groupErr s) true
                    (slog s ++ match groupErr s with
                               | Some g => [exit_log g]
                               | None => []
                               end)).

Definition reachable (port : string) (c : bool) (s : State) : Prop := star step (init port c) s.

(** ** The invariant of the lifecycle *)

Definition exit_logged (s : State) : Prop :=
  exists e, serveT s = SDone e /\ groupErr s = Some e /\ watchT s = WDone /\
            last (slog s) = Some (exit_log e).

Record Inv (s : State) : Prop := {
  inv_parent : parentCancelled s = true -> gctxCancelled s = true;
  inv_listening : listening s = true -> serveT s = SServing /\ inShutdown s = false;
  inv_shutdown : inShutdown s = true <-> watchT s <> WWait;
  inv_watch : watchT s <> WWait -> gctxCancelled s = true;
  inv_serving : serveT s = SServing -> listening s = true \/ inShutdown s = true;
  inv_done : forall e, serveT s = SDone e -> groupErr s = Some e /\ gctxCancelled s = true;
  inv_not_done : (forall e, serveT s <> SDone e) -> groupErr s = None;
  inv_wdone : watchT s = WDone -> active s = 0%nat;
  inv_returned : returned s = true -> exit_logged s;
  inv_cause : gctxCancelled s = true ->
              parentCancelled s = true \/ exists e, serveT s = SDone e /\ e <> ErrServerClosed;
  inv_closed : serveT s = SDone ErrServerClosed -> parentCancelled s = true
}.

Lemma Inv_init port c : Inv (init port c).
Proof. split; cbn; intros; try split; try congruence; try done; auto. Qed.

(** Closing tactic for the invariant: a task that has not returned has
    no error recorded, a state that has returned is finished, and the
    watcher never leaves [WWait] before the group context is cancelled. *)
Ltac inv_solve :=
  repeat match goal with H : _ /\ _ |- _ => destruct H end;
  repeat match goal with
    | H : returned ?s = true, Hr : returned ?s = true -> exit_logged ?s |- _ =>
        destruct (Hr H) as (? & ? & ? & ? & ?); clear Hr
    | H : watchT ?s = WDone, Hw : watchT ?s = WDone -> active ?s = 0%nat |- _ =>
        specialize (Hw H)
    | H : forall e, SDone ?x <> SDone e |- _ => by destruct (H x)
    end;
  try (match goal with
       | Hn : (forall e, serveT ?s <> SDone e) -> groupErr ?s = None |- _ =>
           rewrite Hn by congruence
       end);
  try solve [eauto | congruence | intuition congruence | lia
            | eexists; cbn; split_and!; eauto; congruence].

Lemma step_Inv s s' : Inv s -> step s s' -> Inv s'.
Proof.
  intros HI Hs. destruct HI.
  assert (Hsd : forall e, serveT s = SDone e -> groupErr s = Some e)
    by (intros e He; apply (inv_done0 e He)).
  assert (Hpar : inShutdown s = true -> parentCancelled s = true \/
                 exists e, serveT s = SDone e /\ e <> ErrServerClosed)
    by (intros Hi; apply inv_cause0, inv_watch0, inv_shutdown0, Hi).
  inversion Hs; subst; constructor; cbn; intros; inv_solve.
  (* the serve task leaves [SStart] with the group context cancelled *)
  all: try (destruct (inv_cause0 ltac:(assumption)) as [?|(?&?&?)]; [by left|congruence]).
  (* [ErrServerClosed] is only returned after the caller cancelled *)
  all: try (match goal with
            | Hv : serveT ?x = SServing, Hl : listening ?x = false |- _ =>
                assert (inShutdown x = true) by (destruct (inv_serving0 Hv); congruence)
            end).
  all: try (match goal with
            | Hi : inShutdown ?x = true |- _ =>
                assert (parentCancelled x = true)
                  by (destruct (Hpar Hi) as [?|(?&?&?)]; [done|congruence])
            end; first [by left | done]).
  (* [g.Wait()] logs the serve task's error *)
  match goal with
  | He : serveT ?x = SDone ?e |- exit_logged _ =>
      exists e; cbn; rewrite (Hsd e He); split_and!; [done|done|done|by rewrite last_snoc]
  end.
Qed.

Lemma reachable_Inv port c s : reachable port c s -> Inv s.
Proof.
  intros Hr. eapply (star_invariant step Inv); [exact step_Inv | exact Hr | apply Inv_init].
Qed.

(** A state of the invariant that has returned was cancelled by the
    caller or saw [ListenAndServe] fail. *)
Lemma Inv_returned_cause s :
  Inv s -> returned s = true ->
  parentCancelled s = true \/ exists e, serveT s = SDone e /\ e <> ErrServerClosed.
Proof.
  intros HI Hret. destruct (inv_returned _ HI Hret) as (e & He & _).
  apply (inv_cause _ HI), (inv_done _ HI e He).
Qed.

(** ** What [RunServer] guarantees *)

(** C11: when [RunServer] returns, the exit reason it logs is the error of
    the serve task and the errgroup's error is that same error: the
    watcher, which always returns nil, never supplies the reason. *)
Theorem exit_reason_is_serve_error port c s :
  reachable port c s -> returned s = true ->
  exists e, serveT s = SDone e /\ groupErr s = Some e /\
            last (slog s) = Some (exit_log e).
Proof.
  intros Hr Hret. destruct (inv_returned _ (reachable_Inv _ _ _ Hr) Hret) as (e & ? & ? & ? & ?).
  eauto.
Qed.

(** C12: [RunServer] returns only after the caller cancelled its context or
    [ListenAndServe] failed with an error other than [ErrServerClosed]
    (typically the port could not be bound). *)
Theorem returns_only_if_cancelled_or_failed port c s :
  reachable port c s -> returned s = true ->
  parentCancelled s = true \/ exists e, serveT s = SDone e /\ e <> ErrServerClosed.
Proof. intros Hr. apply Inv_returned_cause, (reachable_Inv _ _ _ Hr). Qed.

(** C22: [RunServer] returns only when both tasks have completed, as
    [g.Wait()] requires, and every connection has been served: the serve
    task has returned, the watcher has returned and no connection is
    active. *)
Theorem returns_after_both_tasks port c s :
  reachable port c s -> returned s = true ->
  (exists e, serveT s = SDone e) /\ watchT s = WDone /\ active s = 0%nat.
Proof.
  intros Hr Hret. pose proof (reachable_Inv _ _ _ Hr) as HI.
  destruct (inv_returned _ HI Hret) as (e & He & _ & Hw & _).
  split_and!; [eauto | done | by apply (inv_wdone _ HI)].
Qed.

(** C23: once the shutdown has begun the listener is closed and stays
    closed, and no step accepts a connection: the number of active
    connections can only go down. *)
Theorem no_accept_after_shutdown port c s s' :
  reachable port c s -> inShutdown s = true -> step s s' ->
  listening s' = false /\ (active s' <= active s)%nat.
Proof.
  intros Hr Hi Hs. pose proof (reachable_Inv _ _ _ Hr) as HI.
  assert (Hl : listening s = false).
  { destruct (listening s) eqn:E; [|done]. destruct (inv_listening _ HI E). congruence. }
  inversion Hs; subst; cbn; split; try lia; congruence.
Qed.

Definition serve_rank (p : ServePC) : nat :=
  match p with SStart => 2 | SServing => 1 | SDone _ => 0 end.

Definition watch_rank (w : WatchPC) : nat :=
  match w with WWait => 2 | WShutdown => 1 | WDone => 0 end.

(** Decreases on every step once the shutdown has begun. *)
Definition measure (s : State) : nat :=
  active s + serve_rank (serveT s) + watch_rank (watchT s)
  + (if returned s then 0 else 1) + (if parentCancelled s then 0 else 1).

Definition shutting_down (s : State) : Prop := Inv s /\ inShutdown s = true.

Lemma shutting_down_step s s' : shutting_down s -> step s s' -> shutting_down s'.
Proof.
  intros [HI Hi] Hs. split; [eauto using step_Inv|].
  inversion Hs; subst; cbn; try done; congruence.
Qed.

(** A step of [RunServer]'s own tasks and connections: the caller's
    context is not cancelled by it. *)
Definition task_step (s s' : State) : Prop := step s s' /\ parentCancelled s' = parentCancelled s.

Lemma shutting_down_progress s :
  shutting_down s -> returned s = false -> exists s', task_step s s'.
Proof.
  intros [HI Hi] Hret.
  destruct (active s) as [|n] eqn:Ha; [|eexists; split; [apply step_finish; lia | done]].
  destruct (watchT s) eqn:Hw.
  - exfalso. by apply (inv_shutdown _ HI) in Hi.
  - eexists. split; [by apply step_shutdown_done | done].
  - destruct (serveT s) as [| |e] eqn:Hsv.
    + eexists. split; [by apply step_listen_closed | done].
    + eexists. split; [apply step_serve_closed; [done|] | done].
      destruct (listening s) eqn:Hl; [|done].
      destruct (inv_listening _ HI Hl). congruence.
    + eexists. split; [by eapply step_wait | done].
Qed.

Lemma shutting_down_measure s s' :
  shutting_down s -> returned s = false -> step s s' -> measure s' < measure s.
Proof.
  intros [HI Hi] Hret Hs. unfold measure.
  inversion Hs; subst; cbn; rewrite ?Hret;
    repeat match goal with H : ?f s = _ |- _ => rewrite H end; cbn; try lia.
  all: first [destruct (inv_listening _ HI ltac:(done)); congruence
             | exfalso; by apply (inv_shutdown _ HI) in Hi].
Qed.

(** Once the shutdown has begun, every execution returns, over any
    relation of steps that contains the tasks' own steps. *)
Lemma shutting_down_returns_in (R : State -> State -> Prop) s :
  (forall x y, R x y -> step x y) -> (forall x y, task_step x y -> R x y) ->
  shutting_down s -> eventually R (fun x => returned x = true) s.
Proof.
  intros Hsub Hsup.
  apply (eventually_by_measure R shutting_down _ measure).
  - intros x. destruct (returned x); [left|right]; done.
  - intros x y Hx Hxy. by eapply shutting_down_step, Hsub.
  - intros x Hx Hn. destruct (shutting_down_progress x) as [y Hy]; [done | by destruct (returned x) |].
    eauto.
  - intros x y Hx Hn Hxy. apply shutting_down_measure; [done | by destruct (returned x) | auto].
Qed.

Lemma shutting_down_returns s :
  shutting_down s -> eventually step (fun x => returned x = true) s.
Proof. apply shutting_down_returns_in; [done | intros x y []; done]. Qed.

(** C13: once the watcher has started the shutdown, every execution reaches
    the return of [RunServer], provided in-flight connections finish
    (the end of a connection is a step the model always allows): whatever
    the interleaving, the steps that remain are finitely many and one is
    always enabled. *)
Theorem shutdown_terminates port c s :
  reachable port c s -> inShutdown s = true -> eventually step (fun x => returned x = true) s.
Proof. intros Hr Hi. apply shutting_down_returns. split; [apply (reachable_Inv _ _ _ Hr) | done]. Qed.

(** C14: after the group context is cancelled (by the caller or by a
    failing [ListenAndServe]), [RunServer] returns without any further
    action of the caller: one of its own steps (the watcher's wake-up or
    the next step of the shutdown) is enabled, and from there every
    execution of its own steps returns.  A watcher that waited on the
    caller's [ctx] instead of [gCtx] would hang after a failed listen. *)
Theorem cancel_leads_to_return port c s :
  reachable port c s -> gctxCancelled s = true -> returned s = false ->
  exists s', task_step s s' /\ eventually task_step (fun x => returned x = true) s'.
Proof.
  intros Hr Hg Hret. pose proof (reachable_Inv _ _ _ Hr) as HI.
  assert (Hdown : forall s', shutting_down s' ->
                   eventually task_step (fun x => returned x = true) s')
    by (intros; apply shutting_down_returns_in; [intros ? ? []; done | done | done]).
  destruct (inShutdown s) eqn:Hi.
  - destruct (shutting_down_progress s) as [s' Hs]; [split; done | done |].
    exists s'. split; [done|]. apply Hdown. by eapply shutting_down_step, Hs.
  - destruct (watchT s) eqn:Hw;
      [| assert (inShutdown s = true) by (apply (inv_shutdown _ HI); congruence); congruence..].
    assert (Hs : task_step s (mkState (parentCancelled s) (gctxCancelled s) true false (active s)
                                  (serveT s) WShutdown (groupErr s) (returned s)
                                  (slog s ++ [finished_log]))) by (split; [by apply step_wake | done]).
    eexists. split; [exact Hs|]. apply Hdown. split; [|done].
    eapply step_Inv; [exact HI | apply Hs].
Qed.

(** Steps in which no connection finishes. *)
Definition step_no_finish (s s' : State) : Prop := step s s' /\ (active s <= active s')%nat.

(** C15: [Shutdown(context.Background())] has no grace period: while a
    connection stays active, no interleaving of the other actions lets
    the shutdown complete or [RunServer] return. *)
Theorem shutdown_waits_for_connections port c s s' :
  reachable port c s -> watchT s = WShutdown -> (0 < active s)%nat ->
  star step_no_finish s s' -> watchT s' = WShutdown /\ returned s' = false.
Proof.
  intros Hr Hw Ha Hs.
  assert (HI : Inv s) by exact (reachable_Inv _ _ _ Hr).
  assert (Hret : returned s = false).
  { destruct (returned s) eqn:E; [|done].
    destruct (inv_returned _ HI E) as (? & ? & ? & ? & ?). congruence. }
  cut (Inv s' /\ watchT s' = WShutdown /\ (0 < active s')%nat /\ returned s' = false); [tauto|].
  clear Hr. revert HI Hw Ha Hret. induction Hs as [x|x y z [Hxy Hle] _ IH]; [tauto|].
  intros HI Hw Ha Hret.
  assert (watchT y = WShutdown /\ (0 < active y)%nat /\ returned y = false) as (Hw' & Ha' & Hr').
  { inversion Hxy; subst; cbn in *; try congruence; try (exfalso; lia); split_and!; done || lia. }
  apply IH; eauto using step_Inv.
Qed.

(** ** What [RunServer] logs *)

(** The log of a state: the port line, then "HTTP router context
    finished" once the watcher has woken, then at most one shutdown
    error (only when the watcher has returned), then the exit reason
    once [RunServer] has returned and the group has an error. *)
Definition log_shape (port : string) (s : State) : Prop :=
  exists cl,
    (cl = [] \/ exists e, cl = [close_error_log e] /\ watchT s = WDone) /\
    slog s = running_log port ::
               match watchT s with WWait => [] | _ => [finished_log] end ++ cl ++
               (if returned s then match groupErr s with Some e => [exit_log e] | None => [] end
                else []).

Lemma log_shape_step port s s' : Inv s -> log_shape port s -> step s s' -> log_shape port s'.
Proof.
  intros HI (cl & Hcl & Hlog) Hs.
  assert (Hret : returned s = true -> watchT s = WDone /\ exists e, serveT s = SDone e)
    by (intros Hr; destruct (inv_returned _ HI Hr) as (e & ? & ? & ? & ?); eauto).
  inversion Hs; subst; unfold log_shape; cbn;
    lazymatch goal with
    | |- context [slog s ++ [close_error_log ?e]] => exists [close_error_log e]
    | _ => exists cl
    end;
    rewrite ?Hlog;
    destruct Hcl as [->|(e0 & -> & Hw0)];
    destruct (watchT s) eqn:Hw; destruct (returned s) eqn:Hr;
    try (destruct (Hret eq_refl) as [? [? ?]]; congruence);
    split; try (left; done); try (right; eexists; split; [done | congruence]);
    try reflexivity; congruence.
Qed.

(** C26: in every reachable state, [RunServer]'s log is exactly the line
    "Relay Counter is running in port: <port>", then "HTTP router context
    finished" once the watcher has woken, then at most one "Error closing
    http server" entry (only after [Shutdown] returned), then the exit
    reason as the last entry once [RunServer] has returned: no line is
    written twice or out of this order. *)
Theorem RunServer_log_shape port c s : reachable port c s -> log_shape port s.
Proof.
  intros Hr.
  refine (proj2 (star_invariant step (fun x => Inv x /\ log_shape port x) _ _ _ Hr _)).
  - intros x y [HI Hl] Hxy. split; eauto using step_Inv, log_shape_step.
  - split; [apply Inv_init|]. exists []. split; [by left | done].
Qed.

End Server.
