(* ===== verification/Tests.v ===== *)
(** * Tests: the repository's tests and the spec's scenarios on the model

    [router_test.go] builds a router with the key set [{"": true}] and a
    testify mock driver, and checks the status codes of a health check and
    of four [POST /v0/count] requests that share the mock; its
    [TestRouter_RunServer] starts the server with a context that times out.
    These tests, and the scenarios of the spec's section 8, are run here on
    the model by evaluation.  The request body of the tests is
    [json.Marshal(rawCountToSend)], computed by [Marshal]; the evaluated
    runs fix [time.Now()] to one day, and [TestRouter_CreateSession_any_now]
    proves the test for every valid instant.  The file also holds the
    witnesses: each theorem with hypotheses applied where they hold. *)

From S2P Require Import Prelude Http Time Driver Utf8 JsonScan JsonValue TimeParse Decode Marshal RoundTrip Auth Handlers Mux Server.

Module Tests.
Import Http Time Driver JsonScan JsonValue TimeParse Decode Auth Handlers Mux Server Marshal RoundTrip.

(** ** Fixtures *)

(** [map[string]bool{"": true}] *)
Definition testKeys : gmap string bool := {["" := true]}.

(** [rawCountToSend], whose day is [time.Now()] *)
Definition rawCountToSend (now : Time) : RelayCount := mkRelayCount "21" now 21 7.

(** A JSON object written from its keys and the raw text of its values. *)
Fixpoint json_members (ms : list (string * string)) : string :=
  match ms with
  | [] => ""
  | [(k, v)] => quoted k +:+ ":" +:+ v
  | (k, v) :: ms' => quoted k +:+ ":" +:+ v +:+ "," +:+ json_members ms'
  end.

Definition json_obj (ms : list (string * string)) : string := "{" +:+ json_members ms +:+ "}".

(** [countToSend, err := json.Marshal(rawCountToSend)]; [None] is the
    error that [c.NoError(err)] rejects. *)
Definition countToSend (now : Time) : option string := marshalRelayCount (rawCountToSend now).

(** The runs below fix [time.Now()] to this instant. *)
Definition testNow : Time := mkTime 2023 1 1 0 0 0 0 0.
Definition testBody : string := default "" (countToSend testNow).

(** The table of [TestRouter_HealthCheck]: names and expected codes. *)
Definition healthCheckTests : list (string * Z) := [("Success", StatusOK)].

(** [http.NewRequest(http.MethodGet, "/", nil)]: no header at all *)
Definition healthRequest : Request := mkRequest MethodGet healthPath ∅ "" false.

(** [http.NewRequest(method, path, body)] then
    [req.Header.Set("Authorization", apiKey)] *)
Definition newRequest (method path body apiKey : string) : Request :=
  mkRequest method path (header_set ∅ "Authorization" apiKey) body false.

(** [httptest.NewRecorder()] with the shared mock as the store *)
Definition recorder (m : Mock) : World Mock := mkWorld (fresh_rw false) m [] false.

Record TestCase := mkTestCase {
  name : string;
  expectedStatusCode : Z;
  reqInput : string;
  errReturnedByDriver : option GoErr;
  apiKey : string;
  setMock : bool
}.

(** The table of [TestRouter_CreateSession]. *)
Definition createSessionCases (countToSend : string) : list TestCase :=
  [ mkTestCase "Success" StatusOK countToSend None "" true;
    mkTestCase "Wrong input" StatusBadRequest "wrong" None "" false;
    mkTestCase "Failure on driver" StatusInternalServerError countToSend
               (Some (mkGoErr "dummy")) "" true;
    mkTestCase "Not authorized" StatusUnauthorized "" None "wrong" false ].

(** The loop of [TestRouter_CreateSession]: every case uses the same
    router and the same mock, so expectations and recorded calls carry
    over from one case to the next.  Each case gives the outcome of
    [ServeHTTP] (a panic reaches the test) and the code [rr.Code]. *)
Fixpoint run_cases (rt : RelayRouter Mock) (cases : list TestCase) (m : Mock)
    : list (outcome unit * Z) * Mock :=
  match cases with
  | [] => ([], m)
  | tc :: rest =>
      let req := newRequest MethodPost countPath (reqInput tc) (apiKey tc) in
      let m1 := if setMock tc then mock_on (errReturnedByDriver tc) m else m in
      let '(o, w') := serve rt req (recorder m1) in
      let '(results, m2) := run_cases rt rest (store w') in
      ((o, resp_status (rw w')) :: results, m2)
  end.

(** [c.Equal(expected, rr.Code)] after a [ServeHTTP] that returned:
    [require] stops the test at the first failed assertion, and a panic
    of the handler fails it too. *)
Definition case_passed (expected : Z) (r : outcome unit * Z) : bool :=
  match r with
  | (Returned _, code) => bool_decide (code = expected)
  | (Panicked _, _) => false
  end.

(** What a passing run of the loop gets: every case returns with its
    expected code. *)
Definition expected_results (cases : list TestCase) : list (outcome unit * Z) :=
  map (fun tc => (Returned tt, expectedStatusCode tc)) cases.

(** [TestRouter_CreateSession] with [time.Now()] returning [now]: [true]
    when no assertion fails ([json.Marshal] succeeds and every case gets
    its code). *)
Definition TestRouter_CreateSession (now : Time) : bool :=
  match countToSend now with
  | None => false
  | Some body =>
      let cases := createSessionCases body in
      let results := fst (run_cases (NewRouter testKeys "8080") cases (mkMock [] [])) in
      bool_decide (length results = length cases)
      && forallb (fun p => case_passed (expectedStatusCode p.1) p.2) (zip cases results)
  end.

(** The loop of [TestRouter_HealthCheck]: each case serves [GET /] on a
    fresh recorder; the codes [rr.Code] it gets. *)
Definition run_health_tests (rt : RelayRouter Mock) (tests : list (string * Z)) : list Z :=
  map (fun _ => resp_status (rw (snd (serve rt healthRequest (recorder (mkMock [] [])))))) tests.

(** [TestRouter_HealthCheck]: [true] when every case returns with its
    expected code. *)
Definition TestRouter_HealthCheck : bool :=
  let rt := NewRouter testKeys "8080" in
  forallb (fun tt =>
             let '(o, w) := serve rt healthRequest (recorder (mkMock [] [])) in
             case_passed tt.2 (o, resp_status (rw w)))
          healthCheckTests.

(** The table of [TestRouter_RunServer]; durations in nanoseconds. *)
Record RunServerCase := mkRunServerCase {
  rs_name : string;
  ctxTimeout : Z
}.

Definition Millisecond : Z := 1000000.
Definition Second : Z := 1000 * Millisecond.
Definition Minute : Z := 60 * Second.

Definition runServerTests : list RunServerCase :=
  [mkRunServerCase "Context finished" Millisecond;
   mkRunServerCase "Context not finished" Minute].

(** One iteration of [TestRouter_RunServer]: [go router.RunServer(ctxTimeout)]
    and [time.Sleep(time.Second)].  While the test sleeps, [RunServer]
    takes any steps of [step]; the caller's context can be cancelled only
    if its timeout falls within the sleep.  The iteration asserts nothing
    about [RunServer]. *)
Definition sleep_step (expired : bool) (s s' : State) : Prop :=
  step s s' /\ (parentCancelled s' = true -> expired = true \/ parentCancelled s = true).

Definition at_sleep_end (tt : RunServerCase) (s : State) : Prop :=
  star (sleep_step (ctxTimeout tt <? Second)%Z) (init "8080" false) s.

(** The spec's configuration and requests. *)
Definition validKeys : gmap string bool := {["validkey" := true]}.
Definition specRouter : RelayRouter Mock := NewRouter validKeys "8080".
Definition validReq : Request := newRequest MethodPost countPath testBody "validkey".
Definition wrongReq : Request := newRequest MethodPost countPath "wrong" "validkey".
Definition bogusReq : Request := newRequest MethodPost countPath testBody "bogus".
Definition healthReq : Request := newRequest MethodGet healthPath "" "bogus".

Definition wrongErr : DecodeErr :=
  DSyntax (JsonScan.ReadSyntax "invalid character 'w' looking for beginning of value").

Definition dummy : GoErr := mkGoErr "dummy".

(** ** Runs of [RunServer] *)

(** [TestRouter_RunServer], case "Context finished": the listener is up,
    the context times out, the watcher shuts the server down, [Serve]
    returns [ErrServerClosed] and [RunServer] returns. *)
Definition ctxFinishedEnd : State :=
  mkState true true true false 0 (SDone ErrServerClosed) WDone (Some ErrServerClosed) true
    [info "Relay Counter is running in port: 8080"; info "HTTP router context finished";
     info "exit reason: http: Server closed"].

Lemma ctx_finished_reachable : reachable "8080" false ctxFinishedEnd.
Proof.
  unfold reachable.
  eapply star_step; [apply step_listen; reflexivity|].
  eapply star_step; [apply step_cancel; reflexivity|].
  eapply star_step; [apply step_wake; reflexivity|].
  eapply star_step; [apply step_serve_closed; reflexivity|].
  eapply star_step; [apply step_shutdown_done; reflexivity|].
  eapply star_step; [eapply step_wait; reflexivity|].
  apply star_refl.
Qed.

(** A shutdown that waits for one active connection. *)
Definition busyShutdown : State :=
  mkState true true true false 1 SServing WShutdown None false
    [info "Relay Counter is running in port: 8080"; info "HTTP router context finished"].

Lemma busy_shutdown_reachable : reachable "8080" false busyShutdown.
Proof.
  unfold reachable.
  eapply star_step; [apply step_listen; reflexivity|].
  eapply star_step; [apply step_accept; reflexivity|].
  eapply star_step; [apply step_cancel; reflexivity|].
  eapply star_step; [apply step_wake; reflexivity|].
  apply star_refl.
Qed.

(** [ListenAndServe] fails (the port is taken) while the caller's
    context is still live: the errgroup cancels [gCtx] and the watcher
    has not yet woken. *)
Definition addrInUse : GoErr := mkGoErr "listen tcp :8080: bind: address already in use".

Definition listenFailed : State :=
  mkState false true false false 0 (SDone addrInUse) WWait (Some addrInUse) false
    [info "Relay Counter is running in port: 8080"].

Lemma listen_failed_reachable : reachable "8080" false listenFailed.
Proof.
  unfold reachable.
  eapply star_step; [apply (step_listen_fail _ addrInUse); [reflexivity | reflexivity | done]|].
  apply star_refl.
Qed.

(** ** [TestRouter_RunServer] on the model *)

(** One step during the sleep of a case whose context has expired. *)
Ltac sleep_step_by c :=
  eapply star_step; [split; [apply c; reflexivity | intros; by left] |].

(** During the sleep of a case whose context has not expired, the caller's
    context stays live and the lifecycle invariant holds. *)
Lemma sleep_live_Inv s :
  star (sleep_step false) (init "8080" false) s -> Inv s /\ parentCancelled s = false.
Proof.
  intros Hs.
  refine (star_invariant (sleep_step false) (fun x => Inv x /\ parentCancelled x = false) _ _ _ Hs _);
    [|split; [apply Inv_init | done]].
  intros x y [HI Hp] [Hxy Hc]. split; [eauto using step_Inv|].
  destruct (parentCancelled y); [|done]. destruct (Hc eq_refl); congruence.
Qed.

(** C24: [TestRouter_RunServer]: in "Context finished" (1 ms, within the
    one-second sleep) [RunServer] can have shut down and returned by the
    end of the sleep, logging [ErrServerClosed] as the exit reason; in
    "Context not finished" (one minute) it has not returned when the
    sleep ends unless [ListenAndServe] failed.  The test asserts neither. *)
Theorem TestRouter_RunServer_sleep_end :
  match runServerTests with
  | [finished; not_finished] =>
      at_sleep_end finished ctxFinishedEnd /\ returned ctxFinishedEnd = true /\
      slog ctxFinishedEnd = [info "Relay Counter is running in port: 8080";
                             info "HTTP router context finished";
                             info "exit reason: http: Server closed"] /\
      forall s, at_sleep_end not_finished s -> returned s = true ->
        exists e, serveT s = SDone e /\ e <> ErrServerClosed
  | _ => False
  end.
Proof.
  cbn. split_and!; [| done | done |].
  { unfold at_sleep_end; cbn.
    sleep_step_by step_listen. sleep_step_by step_cancel. sleep_step_by step_wake.
    sleep_step_by step_serve_closed. sleep_step_by step_shutdown_done.
    eapply star_step; [split; [eapply step_wait; reflexivity | intros; by left] |].
    apply star_refl. }
  intros s Hs Hret. unfold at_sleep_end in Hs. cbn in Hs.
  destruct (sleep_live_Inv s Hs) as [HI Hp].
  destruct (Inv_returned_cause s HI Hret) as [?|?]; [congruence | done].
Qed.

(** ** [TestRouter_CreateSession] whatever [time.Now()] returns *)

Lemma newRequest_auth method path body key :
  header_get (ReqHeader (newRequest method path body key)) "Authorization" = key.
Proof. reflexivity. Qed.

(** A [POST /v0/count] of the test loop with an authorized key runs
    [CreateCount] on the recorder. *)
Lemma serve_test_authorized body key m :
  testKeys !! key = Some true ->
  serve (NewRouter testKeys "8080") (newRequest MethodPost countPath body key) (recorder m) =
  CreateCount_result (newRequest MethodPost countPath body key) (recorder m).
Proof.
  intros Hk. rewrite serve_clean_dispatch, router_match_count by reflexivity.
  rewrite auth_accepts by (by rewrite newRequest_auth).
  by apply CreateCount_run.
Qed.

(** The test's key ["wrong"] is refused before [CreateCount] runs. *)
Lemma serve_test_unauthorized body m :
  serve (NewRouter testKeys "8080") (newRequest MethodPost countPath body "wrong") (recorder m) =
  (Returned tt, sent_text StatusUnauthorized "Unauthorized" (recorder m)).
Proof.
  rewrite serve_clean_dispatch, router_match_count by reflexivity.
  by rewrite auth_reject_run by (rewrite ?newRequest_auth; first [reflexivity | vm_compute; discriminate]).
Qed.

Lemma Decode_wrong : Decode "wrong" = inl wrongErr.
Proof. vm_compute. reflexivity. Qed.

(** One authorized case of the loop, once its body is decoded. *)
Ltac run_case Hd :=
  rewrite serve_test_authorized by reflexivity; unfold CreateCount_result at 1; cbn [Body newRequest];
  rewrite Hd; cbn.

Lemma Decode_testBody now body : valid_time now -> (offset now mod 60 = 0)%Z ->
  countToSend now = Some body -> Decode body = inr (rawCountToSend now).
Proof.
  intros Ht H60. unfold countToSend, marshalRelayCount. cbn [Day]. rewrite MarshalJSON_valid by done.
  intros [= <-]. apply Decode_encode_fields; try done; unfold int64_range; lia.
Qed.

(** C29: [TestRouter_CreateSession] passes whatever instant [time.Now()]
    returns (a valid time whose zone offset is whole minutes, as every
    zone in use today): [json.Marshal] succeeds, the four cases get 200,
    400, 500 and 401, and the mock was called twice with the record the
    test built. *)
Theorem TestRouter_CreateSession_any_now now :
  valid_time now -> (offset now mod 60 = 0)%Z ->
  TestRouter_CreateSession now = true /\
  exists body, countToSend now = Some body /\
    run_cases (NewRouter testKeys "8080") (createSessionCases body) (mkMock [] []) =
    (expected_results (createSessionCases body),
     mkMock [] [rawCountToSend now; rawCountToSend now]).
Proof.
  intros Ht H60. destruct (countToSend now) as [body|] eqn:Hb.
  2:{ unfold countToSend, marshalRelayCount in Hb. cbn in Hb. by rewrite MarshalJSON_valid in Hb. }
  pose proof (Decode_testBody now body Ht H60 Hb) as Hd.
  assert (Hr : run_cases (NewRouter testKeys "8080") (createSessionCases body) (mkMock [] []) =
               (expected_results (createSessionCases body),
                mkMock [] [rawCountToSend now; rawCountToSend now])).
  { cbn [run_cases createSessionCases reqInput apiKey setMock errReturnedByDriver].
    run_case Hd. run_case Decode_wrong. run_case Hd.
    rewrite serve_test_unauthorized. reflexivity. }
  split; [|eauto]. unfold TestRouter_CreateSession. rewrite Hb. cbv zeta. rewrite Hr. reflexivity.
Qed.

(** ** Decoding behaviours the spec leaves open *)

(** The body [null] decodes without error to the zero record, so the
    handler stores an empty record and answers 200. *)
Example Decode_null :
  Decode "null" = inr zeroRelayCount /\
  (let '(o, w) := serve specRouter (newRequest MethodPost countPath "null" "validkey")
                        (recorder (mkMock [None] [])) in
   resp_status (rw w) = StatusOK /\ calls (store w) = [zeroRelayCount]).
Proof. vm_compute. repeat split. Qed.

(** Keys match the field names case-insensitively. *)
Example Decode_keys_fold_case :
  Decode (json_obj [("SUCCESS", "21"); ("Error", "7"); ("appPublicKey", quoted "21");
                    ("DAY", quoted "2023-01-01T00:00:00Z")]) = inr (rawCountToSend testNow).
Proof. vm_compute. reflexivity. Qed.

(** ** Witnesses: each theorem with hypotheses, where they hold *)

Definition w0 : World Mock := recorder (mkMock [None] []).
Definition wFail : World Mock := recorder (mkMock [Some dummy] []).
Definition wMem : World MemStore := mkWorld (fresh_rw false) (mkMemStore []) [] false.
Definition getCountReq : Request := newRequest MethodGet countPath "" "".
Definition otherPathReq : Request := newRequest MethodGet "/v1/other" "" "".
Definition uncleanReq : Request := newRequest MethodPost "/v0//count" testBody "validkey".
Definition anonymousReq : Request := mkRequest MethodPost countPath ∅ testBody false.

Lemma CreateCount_bad_request_witness :
  Decode (Body wrongReq) = inl wrongErr /\ wroteHeader (rw w0) = None /\ broken (rw w0) = false /\
  CreateCount wrongReq w0 =
    (Returned tt,
     sent_json StatusBadRequest (marshal_string_map1 "error" (decode_err_msg wrongErr))
       (mkWorld (rw w0) (store w0)
                (logs w0 ++ [error_entry decodeFailedPrefix (decode_err_msg wrongErr)]) (bodyClosed w0))).
Proof.
  assert (Hd : Decode (Body wrongReq) = inl wrongErr) by (vm_compute; reflexivity).
  split_and!; [exact Hd | reflexivity | reflexivity |].
  apply (CreateCount_bad_request wrongReq w0 wrongErr Hd); reflexivity.
Defined.

Lemma CreateCount_writes_once_witness :
  Decode (Body validReq) = inr (rawCountToSend testNow) /\
  store (snd (CreateCount validReq w0)) =
    snd (WriteRelayCount (request_ctx validReq) (rawCountToSend testNow) (store w0)).
Proof.
  assert (Hd : Decode (Body validReq) = inr (rawCountToSend testNow)) by (vm_compute; reflexivity).
  split; [exact Hd | exact (CreateCount_writes_once validReq w0 (rawCountToSend testNow) Hd)].
Defined.

Lemma CreateCount_ok_witness :
  Decode (Body validReq) = inr (rawCountToSend testNow) /\
  WriteRelayCount (request_ctx validReq) (rawCountToSend testNow) (store w0) =
    (Returned None, mkMock [] [rawCountToSend testNow]) /\
  wroteHeader (rw w0) = None /\ broken (rw w0) = false /\
  CreateCount validReq w0 =
    (Returned tt, mkWorld (rw (sent_json StatusOK resultOK w0)) (mkMock [] [rawCountToSend testNow]) (logs w0) true).
Proof.
  assert (Hd : Decode (Body validReq) = inr (rawCountToSend testNow)) by (vm_compute; reflexivity).
  split_and!; [exact Hd | reflexivity.. |].
  apply (CreateCount_ok validReq w0 (rawCountToSend testNow) _ Hd); reflexivity.
Defined.

Lemma CreateCount_driver_error_witness :
  Decode (Body validReq) = inr (rawCountToSend testNow) /\
  WriteRelayCount (request_ctx validReq) (rawCountToSend testNow) (store wFail) =
    (Returned (Some dummy), mkMock [] [rawCountToSend testNow]) /\
  wroteHeader (rw wFail) = None /\ broken (rw wFail) = false /\
  CreateCount validReq wFail =
    (Returned tt,
     mkWorld (rw (sent_json StatusInternalServerError (marshal_string_map1 "error" (err_msg dummy)) wFail))
             (mkMock [] [rawCountToSend testNow]) (logs wFail ++ [error_entry writeFailedPrefix (err_msg dummy)]) true).
Proof.
  assert (Hd : Decode (Body validReq) = inr (rawCountToSend testNow)) by (vm_compute; reflexivity).
  split_and!; [exact Hd | reflexivity.. |].
  apply (CreateCount_driver_error validReq wFail (rawCountToSend testNow) dummy _ Hd); reflexivity.
Defined.

Lemma serve_count_unauthorized_witness :
  URLPath bogusReq = countPath /\ Method bogusReq = MethodPost /\
  validKeys !! header_get (ReqHeader bogusReq) "Authorization" <> Some true /\
  wroteHeader (rw w0) = None /\ broken (rw w0) = false /\
  serve specRouter bogusReq w0 = (Returned tt, sent_text StatusUnauthorized "Unauthorized" w0).
Proof.
  assert (Hk : validKeys !! header_get (ReqHeader bogusReq) "Authorization" <> Some true)
    by (vm_compute; discriminate).
  split_and!; [reflexivity | reflexivity | exact Hk | reflexivity | reflexivity |].
  apply (serve_count_unauthorized validKeys "8080" bogusReq w0); [reflexivity | reflexivity | exact Hk | ..];
    reflexivity.
Defined.

Lemma serve_health_ok_witness :
  URLPath healthReq = healthPath /\ Method healthReq = MethodGet /\
  wroteHeader (rw w0) = None /\ broken (rw w0) = false /\
  serve specRouter healthReq w0 = (Returned tt, sent_text StatusOK healthText w0).
Proof.
  split_and!; [reflexivity.. |].
  apply (serve_health_ok validKeys "8080" healthReq w0); reflexivity.
Defined.

Lemma auth_rejects_unauthorized_witness :
  URLPath bogusReq <> healthPath /\
  validKeys !! header_get (ReqHeader bogusReq) "Authorization" <> Some true /\
  wroteHeader (rw w0) = None /\ broken (rw w0) = false /\
  AuthorizationHandler validKeys CreateCount bogusReq w0 =
    (Returned tt, sent_text StatusUnauthorized "Unauthorized" w0).
Proof.
  assert (Hp : URLPath bogusReq <> healthPath) by (vm_compute; discriminate).
  assert (Hk : validKeys !! header_get (ReqHeader bogusReq) "Authorization" <> Some true)
    by (vm_compute; discriminate).
  split_and!; [exact Hp | exact Hk | reflexivity | reflexivity |].
  apply (auth_rejects_unauthorized validKeys CreateCount bogusReq w0 Hp Hk); reflexivity.
Defined.

Lemma serve_count_authorized_witness :
  URLPath validReq = countPath /\ Method validReq = MethodPost /\
  validKeys !! header_get (ReqHeader validReq) "Authorization" = Some true /\
  serve (D:=Mock) specRouter validReq = CreateCount validReq.
Proof.
  split_and!; [reflexivity.. |].
  apply (serve_count_authorized validKeys "8080" validReq); reflexivity.
Defined.

Lemma CreateCount_store_contract_witness :
  wroteHeader (rw wMem) = None /\ broken (rw wMem) = false /\
  exists w', CreateCount validReq wMem = (Returned tt, w') /\
    ((resp_status (rw w') = StatusOK /\
      exists c, Decode (Body validReq) = inr c /\ contents (store w') = contents (store wMem) ++ [c]) \/
     (resp_status (rw w') ∈ [StatusBadRequest; StatusInternalServerError] /\
      contents (store w') = contents (store wMem))).
Proof.
  split_and!; [reflexivity | reflexivity |].
  apply (CreateCount_store_contract MemStore_contract validReq wMem); reflexivity.
Defined.

Lemma Decode_ok_witness : Decode testBody = inr (rawCountToSend testNow) /\ decoded_ok (rawCountToSend testNow).
Proof.
  assert (Hd : Decode testBody = inr (rawCountToSend testNow)) by (vm_compute; reflexivity).
  split; [exact Hd | exact (Decode_ok testBody (rawCountToSend testNow) Hd)].
Defined.

Lemma exit_reason_is_serve_error_witness :
  reachable "8080" false ctxFinishedEnd /\ returned ctxFinishedEnd = true /\
  exists e, serveT ctxFinishedEnd = SDone e /\ groupErr ctxFinishedEnd = Some e /\
            last (slog ctxFinishedEnd) = Some (info ("exit reason: " +:+ err_msg e)).
Proof.
  split_and!; [exact ctx_finished_reachable | reflexivity |].
  exact (exit_reason_is_serve_error "8080" false ctxFinishedEnd ctx_finished_reachable eq_refl).
Defined.

Lemma returns_only_if_cancelled_or_failed_witness :
  reachable "8080" false ctxFinishedEnd /\ returned ctxFinishedEnd = true /\
  (parentCancelled ctxFinishedEnd = true \/
   exists e, serveT ctxFinishedEnd = SDone e /\ e <> ErrServerClosed).
Proof.
  split_and!; [exact ctx_finished_reachable | reflexivity |].
  exact (returns_only_if_cancelled_or_failed "8080" false ctxFinishedEnd ctx_finished_reachable eq_refl).
Defined.

Lemma shutdown_terminates_witness :
  reachable "8080" false busyShutdown /\ inShutdown busyShutdown = true /\
  eventually step (fun x => returned x = true) busyShutdown.
Proof.
  split_and!; [exact busy_shutdown_reachable | reflexivity |].
  exact (shutdown_terminates "8080" false busyShutdown busy_shutdown_reachable eq_refl).
Defined.

Lemma cancel_leads_to_return_witness :
  reachable "8080" false listenFailed /\ gctxCancelled listenFailed = true /\
  returned listenFailed = false /\
  exists s', task_step listenFailed s' /\ eventually task_step (fun x => returned x = true) s'.
Proof.
  split_and!; [exact listen_failed_reachable | reflexivity | reflexivity |].
  exact (cancel_leads_to_return "8080" false listenFailed listen_failed_reachable eq_refl eq_refl).
Defined.

Lemma shutdown_waits_for_connections_witness :
  reachable "8080" false busyShutdown /\ watchT busyShutdown = WShutdown /\
  (0 < active busyShutdown)%nat /\
  star step_no_finish busyShutdown (serve_returns ErrServerClosed busyShutdown) /\
  (watchT (serve_returns ErrServerClosed busyShutdown) = WShutdown /\
   returned (serve_returns ErrServerClosed busyShutdown) = false).
Proof.
  assert (Hs : star step_no_finish busyShutdown (serve_returns ErrServerClosed busyShutdown)).
  { apply star_one. split; [apply step_serve_closed; reflexivity | cbn; lia]. }
  assert (Ha : (0 < active busyShutdown)%nat) by (cbn; lia).
  refine (conj busy_shutdown_reachable (conj eq_refl (conj Ha (conj Hs _)))).
  exact (shutdown_waits_for_connections "8080" false _ _ busy_shutdown_reachable eq_refl Ha Hs).
Defined.

Lemma serve_method_mismatch_skips_auth_witness :
  ((URLPath getCountReq = healthPath /\ Method getCountReq <> MethodGet) \/
   (URLPath getCountReq = countPath /\ Method getCountReq <> MethodPost)) /\
  wroteHeader (rw w0) = None /\
  serve specRouter getCountReq w0 = (Returned tt, sent_header StatusMethodNotAllowed w0).
Proof.
  assert (Hm : (URLPath getCountReq = healthPath /\ Method getCountReq <> MethodGet) \/
               (URLPath getCountReq = countPath /\ Method getCountReq <> MethodPost))
    by (right; split; [reflexivity | vm_compute; discriminate]).
  split_and!; [exact Hm | reflexivity |].
  apply (serve_method_mismatch_skips_auth validKeys "8080" getCountReq w0 Hm); reflexivity.
Defined.

Lemma serve_unknown_path_not_found_witness :
  cleanPath (URLPath otherPathReq) = URLPath otherPathReq /\
  URLPath otherPathReq <> healthPath /\ URLPath otherPathReq <> countPath /\
  wroteHeader (rw w0) = None /\ broken (rw w0) = false /\
  exists w', serve specRouter otherPathReq w0 = (Returned tt, w') /\
    resp_status (rw w') = StatusNotFound /\ written (rw w') = written (rw w0) +:+ notFoundText /\
    store w' = store w0.
Proof.
  assert (Hc : cleanPath (URLPath otherPathReq) = URLPath otherPathReq) by (vm_compute; reflexivity).
  assert (H1 : URLPath otherPathReq <> healthPath) by (vm_compute; discriminate).
  assert (H2 : URLPath otherPathReq <> countPath) by (vm_compute; discriminate).
  split_and!; [exact Hc | exact H1 | exact H2 | reflexivity | reflexivity |].
  apply (serve_unknown_path_not_found validKeys "8080" otherPathReq w0 Hc H1 H2); reflexivity.
Defined.

Lemma serve_unclean_redirect_witness :
  cleanPath (URLPath uncleanReq) <> URLPath uncleanReq /\ wroteHeader (rw w0) = None /\
  serve specRouter uncleanReq w0 =
    (Returned tt,
     sent_header StatusMovedPermanently
       (set_rw (fun x => mkRW (wroteHeader x) (header_set (liveHeader x) "Location" (cleanPath (URLPath uncleanReq)))
                              (written x) (broken x)) w0)).
Proof.
  assert (Hc : cleanPath (URLPath uncleanReq) <> URLPath uncleanReq) by (vm_compute; discriminate).
  split_and!; [exact Hc | reflexivity |].
  apply (serve_unclean_redirect validKeys "8080" uncleanReq w0 Hc); reflexivity.
Defined.

Lemma serve_empty_key_admits_anonymous_witness :
  testKeys !! "" = Some true /\ ReqHeader anonymousReq !! "Authorization" = None /\
  URLPath anonymousReq = countPath /\ Method anonymousReq = MethodPost /\
  serve (D:=Mock) (NewRouter testKeys "8080") anonymousReq = CreateCount anonymousReq.
Proof.
  split_and!; [reflexivity.. |].
  apply (serve_empty_key_admits_anonymous testKeys "8080" anonymousReq); reflexivity.
Defined.

Definition wBroken : World Mock := mkWorld (fresh_rw true) (mkMock [None] []) [] false.

Lemma HealthCheck_broken_conn_panics_witness :
  wroteHeader (rw wBroken) = None /\ broken (rw wBroken) = true /\
  HealthCheck healthReq wBroken = (Panicked ErrBrokenConn, sent_header StatusOK wBroken).
Proof.
  refine (conj eq_refl (conj eq_refl _)).
  exact (HealthCheck_broken_conn_panics healthReq wBroken eq_refl eq_refl).
Defined.

Lemma CreateCount_broken_conn_panics_witness :
  Decode (Body validReq) = inr (rawCountToSend testNow) /\
  WriteRelayCount (request_ctx validReq) (rawCountToSend testNow) (store wBroken) =
    (Returned None, mkMock [] [rawCountToSend testNow]) /\
  wroteHeader (rw wBroken) = None /\ broken (rw wBroken) = true /\
  CreateCount validReq wBroken =
    (Panicked ErrBrokenConn,
     mkWorld (rw (sent_header StatusOK (json_header wBroken))) (mkMock [] [rawCountToSend testNow]) (logs wBroken) true).
Proof.
  assert (Hd : Decode (Body validReq) = inr (rawCountToSend testNow)) by (vm_compute; reflexivity).
  refine (conj Hd (conj eq_refl (conj eq_refl (conj eq_refl _)))).
  exact (CreateCount_broken_conn_panics validReq wBroken (rawCountToSend testNow) _ Hd eq_refl eq_refl eq_refl).
Defined.

Lemma returns_after_both_tasks_witness :
  reachable "8080" false ctxFinishedEnd /\ returned ctxFinishedEnd = true /\
  ((exists e, serveT ctxFinishedEnd = SDone e) /\ watchT ctxFinishedEnd = WDone /\
   active ctxFinishedEnd = 0%nat).
Proof.
  refine (conj ctx_finished_reachable (conj eq_refl _)).
  exact (returns_after_both_tasks "8080" false ctxFinishedEnd ctx_finished_reachable eq_refl).
Defined.

Lemma no_accept_after_shutdown_witness :
  reachable "8080" false busyShutdown /\ inShutdown busyShutdown = true /\
  step busyShutdown (serve_returns ErrServerClosed busyShutdown) /\
  (listening (serve_returns ErrServerClosed busyShutdown) = false /\
   (active (serve_returns ErrServerClosed busyShutdown) <= active busyShutdown)%nat).
Proof.
  assert (Hs : step busyShutdown (serve_returns ErrServerClosed busyShutdown))
    by (apply step_serve_closed; reflexivity).
  refine (conj busy_shutdown_reachable (conj eq_refl (conj Hs _))).
  exact (no_accept_after_shutdown "8080" false _ _ busy_shutdown_reachable eq_refl Hs).
Defined.

(** A day with nanoseconds and a zone west of UTC that is not a whole
    hour ([-05:30]), on the last day of a leap February. *)
Definition leapNow : Time := mkTime 2024 2 29 23 59 58 123456789 (-19800).

Lemma Decode_marshalRelayCount_witness :
  ascii_only (AppPublicKey (rawCountToSend leapNow)) = true /\ valid_time (Day (rawCountToSend leapNow)) /\
  exists body, marshalRelayCount (rawCountToSend leapNow) = Some body /\
               Decode body = inr (rawCountToSend leapNow).
Proof.
  assert (Ht : valid_time leapNow)
    by (unfold valid_time; replace (daysIn _ _) with 29%Z by reflexivity; cbn; lia).
  refine (conj eq_refl (conj Ht _)).
  apply Decode_marshalRelayCount; [reflexivity | exact Ht | reflexivity | unfold int64_range; cbn; lia ..].
Defined.

Lemma Decode_success_int64_bound_witness :
  (0 <= 2 ^ 63 < 10 ^ 20)%Z /\
  Decode (encode_fields (appendString "21") (quoted (formatRFC3339Nano testNow))
                        (utoa 20 (2 ^ 63)) (formatInt 7)) =
  inl (DType ("number " +:+ utoa 20 (2 ^ 63)) (Some "success") "int64").
Proof.
  split; [lia|].
  apply (Decode_success_int64_bound "21" testNow 7 (2 ^ 63));
    [reflexivity | unfold valid_time; cbn; lia | reflexivity | unfold int64_range; lia | lia].
Defined.

Lemma TestRouter_CreateSession_any_now_witness :
  valid_time leapNow /\
  TestRouter_CreateSession leapNow = true /\
  exists body, countToSend leapNow = Some body /\
    run_cases (NewRouter testKeys "8080") (createSessionCases body) (mkMock [] []) =
    (expected_results (createSessionCases body),
     mkMock [] [rawCountToSend leapNow; rawCountToSend leapNow]).
Proof.
  assert (Ht : valid_time leapNow)
    by (unfold valid_time; replace (daysIn _ _) with 29%Z by reflexivity; cbn; lia).
  split; [exact Ht|]. apply (TestRouter_CreateSession_any_now leapNow Ht). reflexivity.
Defined.

(** A day in a zone whose offset has seconds (local mean time of
    Amsterdam before 1937, [+00:19:32]). *)
Definition lmtNow : Time := mkTime 1900 6 1 12 0 0 0 1172.

Lemma Decode_marshal_trailing_witness :
  valid_time testNow /\
  exists body, marshalRelayCount (rawCountToSend testNow) = Some body /\
    Decode (body +:+ " trailing garbage") = inr (rawCountToSend testNow).
Proof.
  assert (Ht : valid_time testNow) by (unfold valid_time; cbn; lia).
  split; [exact Ht|].
  apply (Decode_marshal_trailing (rawCountToSend testNow) " trailing garbage");
    [reflexivity | exact Ht | reflexivity | unfold int64_range; cbn; lia ..].
Defined.

Lemma Decode_marshal_truncates_zone_witness :
  valid_time lmtNow /\
  exists body, marshalRelayCount (rawCountToSend lmtNow) = Some body /\
    Decode body = inr (rawCountToSend (mkTime 1900 6 1 12 0 0 0 1140)) /\
    (Decode body = inr (rawCountToSend lmtNow) <-> (1172 mod 60 = 0)%Z).
Proof.
  assert (Ht : valid_time lmtNow)
    by (unfold valid_time; replace (daysIn _ _) with 30%Z by reflexivity; cbn; lia).
  split; [exact Ht|].
  apply (Decode_marshal_truncates_zone (rawCountToSend lmtNow));
    [reflexivity | exact Ht | unfold int64_range; cbn; lia ..].
Defined.

(** A key of the byte [0xff], which starts no UTF-8 sequence. *)
Definition badKey : string := String (ascii_of_nat 255) EmptyString.

Lemma Decode_marshal_coerces_key_witness :
  key_bytes badKey = true /\ ascii_only badKey = false /\
  exists body, marshalRelayCount (mkRelayCount badKey testNow 21 7) = Some body /\
    Decode body = inr (mkRelayCount (String (ascii_of_nat 239) (String (ascii_of_nat 191)
                                       (String (ascii_of_nat 189) EmptyString))) testNow 21 7) /\
    (Decode body = inr (mkRelayCount badKey testNow 21 7) <-> ascii_only badKey = true).
Proof.
  assert (Ht : valid_time testNow) by (unfold valid_time; cbn; lia).
  split_and!; [reflexivity | reflexivity |].
  apply (Decode_marshal_coerces_key (mkRelayCount badKey testNow 21 7));
    [reflexivity | exact Ht | reflexivity | unfold int64_range; cbn; lia ..].
Defined.

(** Two valid keys of one key set. *)
Definition twoKeys : gmap string bool := <["k1" := true]> (<["k2" := true]> ∅).

Lemma serve_credential_equiv_witness :
  req_equiv twoKeys (newRequest MethodPost countPath testBody "k1")
                    (newRequest MethodPost countPath testBody "k2") /\
  serve (D:=Mock) (NewRouter twoKeys "8080") (newRequest MethodPost countPath testBody "k1") =
  serve (NewRouter twoKeys "8080") (newRequest MethodPost countPath testBody "k2").
Proof.
  assert (Hr : req_equiv twoKeys (newRequest MethodPost countPath testBody "k1")
                                 (newRequest MethodPost countPath testBody "k2"))
    by repeat split.
  split; [exact Hr | exact (serve_credential_equiv twoKeys "8080" _ _ Hr)].
Defined.

(** ** The day through [time.Parse]

    Days the fast path refuses go to [time.Parse]: its [ParseError] is the
    message of the 400 answer, and what it accepts beyond the fast path
    (a one-digit hour, a comma before the fraction, an offset of [+24:00])
    is stored. *)

Definition dayBody (day : string) : string := json_obj [("day", quoted day)].

Example Decode_bad_month :
  Decode (dayBody "2023-13-01T00:00:00Z") =
  inl (DHard (mkGoErr ("parsing time " +:+ quoted "2023-13-01T00:00:00Z" +:+ ": month out of range"))).
Proof. vm_compute. reflexivity. Qed.

Example Decode_bad_day :
  Decode (dayBody "2023-02-29T00:00:00Z") =
  inl (DHard (mkGoErr ("parsing time " +:+ quoted "2023-02-29T00:00:00Z" +:+ ": day out of range"))).
Proof. vm_compute. reflexivity. Qed.

Example Decode_missing_zone :
  Decode (dayBody "2023-01-01T00:00:00") =
  inl (DHard (mkGoErr ("parsing time " +:+ quoted "2023-01-01T00:00:00" +:+ " as " +:+ quoted RFC3339
                       +:+ ": cannot parse " +:+ quoted "" +:+ " as " +:+ quoted "Z07:00"))).
Proof. vm_compute. reflexivity. Qed.

Example Decode_date_only :
  Decode (dayBody "2023-01-01") =
  inl (DHard (mkGoErr ("parsing time " +:+ quoted "2023-01-01" +:+ " as " +:+ quoted RFC3339
                       +:+ ": cannot parse " +:+ quoted "" +:+ " as " +:+ quoted "T"))).
Proof. vm_compute. reflexivity. Qed.

Example Decode_lenient_day :
  Decode (dayBody "2023-01-01T1:00:00,5+24:00") =
  inr (mkRelayCount "" (mkTime 2023 1 1 1 0 0 500000000 86400) 0 0).
Proof. vm_compute. reflexivity. Qed.

Example scenario_bad_day_400 :
  let '(o, w) := serve specRouter (newRequest MethodPost countPath (dayBody "2023-13-01T00:00:00Z") "validkey")
                   (recorder (mkMock [None] [])) in
  o = Returned tt /\ resp_status (rw w) = StatusBadRequest /\ store w = mkMock [None] [].
Proof. vm_compute. repeat split. Qed.

(** A lenient day: one-digit hour, comma fraction, offset [+24:00]. *)
Lemma Decode_day_is_Parse_witness :
  ascii_only "21" = true /\ str_plain "2023-01-01T1:00:00,5+24:00" = true /\
  int64_range 21 /\ int64_range 7 /\
  Decode (encode_fields (appendString "21") (quoted "2023-01-01T1:00:00,5+24:00") (formatInt 21) (formatInt 7)) =
  match Parse "2023-01-01T1:00:00,5+24:00" with
  | inr t => inr (mkRelayCount "21" t 21 7)
  | inl pe => inl (DHard (mkGoErr (parse_error_msg pe)))
  end.
Proof.
  assert (Hs : int64_range 21) by (unfold int64_range; lia).
  assert (He : int64_range 7) by (unfold int64_range; lia).
  split_and!; [reflexivity | reflexivity | exact Hs | exact He |].
  apply (Decode_day_is_Parse "21" "2023-01-01T1:00:00,5+24:00" 21 7); [reflexivity | reflexivity | exact Hs | exact He].
Defined.

(** [Header.Set] and [Header.Get] canonicalise the key, so a credential
    set under "authorization" or "AUTHORIZATION" is the one the gate
    reads; a key with a space is not canonicalised and is not found. *)
Example header_name_case :
  (let '(o, w) := serve specRouter
                    (mkRequest MethodPost countPath (header_set ∅ "authorization" "validkey") testBody false)
                    (recorder (mkMock [None] [])) in
   resp_status (rw w) = StatusOK) /\
  header_get (header_set ∅ "AUTHORIZATION" "validkey") "Authorization" = "validkey" /\
  header_get (header_set ∅ "authorization " "validkey") "Authorization" = "".
Proof. vm_compute. repeat split. Qed.


Lemma RunServer_log_shape_witness :
  reachable "8080" false ctxFinishedEnd /\ log_shape "8080" ctxFinishedEnd.
Proof. split; [exact ctx_finished_reachable | exact (RunServer_log_shape "8080" false ctxFinishedEnd ctx_finished_reachable)]. Defined.

End Tests.
